(** * Verification engine of the event-management backend

    A shallow embedding of the verification service
    ([internal/services], type [verificationService]) together with the
    repositories it calls ([internal/repositories]) and the GORM models
    ([internal/models]); of the catalogue writes of the event repository,
    the payment update of the participant service and [AddEventDay] of the
    event service; and of the error mapping of the verification handler
    and the role middlewares ([internal/handlers], [internal/middleware]).

    Conventions of the embedding.
    - The PostgreSQL database behind GORM is an in-memory [Store]: one list
      of rows per table.  [First] is the first matching row, [Count] the
      number of matching rows, [Create] an insert that fails on a duplicate
      primary key.  Connection failures are not modelled, so the only errors
      a query can raise are the ones the repositories build themselves and
      [gorm.ErrRecordNotFound].
    - [Preload] of a relation the model declares fills the relation fields
      of a struct, which are not part of a row. [Preload] of a name the
      model does not declare ([EventDay] on [EventAction]) makes the query
      fail with [gorm.ErrUnsupportedRelation] as soon as it has found a
      row.
    - Every repository and service function is an action of the monad [DB]
      (a function from the store to a result and the store afterwards), so
      that "reads only" is a statement about the function and not a
      consequence of its type.
    - A [uuid.UUID] is represented by its canonical string; [UUID_String]
      is the method [String()].
    - [time.Time] is an integer count of nanoseconds since the zero time
      (January 1, year 1, 00:00:00 UTC); [int] and [int64] are integers
      with 64-bit wrap-around written out; [float64] values are rationals.
    - [time.Now()] and [uuid.New()] are inputs of a call ([Env]).
    - Functions of the Go ecosystem the repository calls but does not
      define ([uuid.Parse], [filepath.Base], [filepath.Ext],
      [Time.Format]) are the fields of a [GoLib] record the service is
      parameterised by. *)

From Stdlib Require Import ZArith List String Ascii Bool Lia QArith.
From Stdlib Require Import Permutation Sorted DecimalString.
Import ListNotations.

Local Open Scope string_scope.
Local Open Scope list_scope.
Local Open Scope Z_scope.

Set Implicit Arguments.

(* ================================================================== *)
(** ** Go values *)

(** [(T, error)] results: exactly one of the two is meaningful. *)
Inductive result (E A : Type) : Type :=
| Ok (a : A)
| Err (e : E).
Arguments Ok {E A} a.
Arguments Err {E A} e.

(** The values of Go's [error] interface that occur in the repository:
    the sentinels [gorm.ErrRecordNotFound] and
    [gorm.ErrUnsupportedRelation], errors made by [errors.New] or by
    [fmt.Errorf] without [%w], and errors made by [fmt.Errorf] with [%w],
    which wrap another error: [wrapError msg inner] when the verb ends the
    format, [wrapErrorf before inner after] when text follows it. *)
Inductive error : Type :=
| ErrRecordNotFound
| ErrUnsupportedRelation
| errorString (msg : string)
| wrapError (msg : string) (inner : error)
| wrapErrorf (before : string) (inner : error) (after : string).

(** [errors.Is(err, gorm.ErrRecordNotFound)]: the sentinel itself, or
    reachable from [err] by unwrapping. *)
Fixpoint errors_Is_ErrRecordNotFound (err : error) : bool :=
  match err with
  | ErrRecordNotFound => true
  | ErrUnsupportedRelation => false
  | errorString _ => false
  | wrapError _ inner => errors_Is_ErrRecordNotFound inner
  | wrapErrorf _ inner _ => errors_Is_ErrRecordNotFound inner
  end.

Definition UUID := string.
Definition UUID_String (u : UUID) : string := u.

Definition Time := Z.
Definition Duration := Z.
Definition Nanosecond : Duration := 1.
Definition Second : Duration := 1000000000 * Nanosecond.
Definition Hour : Duration := 3600 * Second.

(** [t.Truncate(d)]: [t] rounded down to a multiple of [d] since the zero
    time; [t] itself when [d <= 0]. *)
Definition Truncate (t : Time) (d : Duration) : Time :=
  if d <=? 0 then t else t - t mod d.

(** [t.Before(u)]. *)
Definition Before (t u : Time) : bool := t <? u.

(** 64-bit signed wrap-around of [int] and [int64] arithmetic. *)
Definition wrap64 (z : Z) : Z := (z + 2 ^ 63) mod 2 ^ 64 - 2 ^ 63.

(** Go's [/] on integers truncates toward zero. *)
Definition int_div (a b : Z) : Z := wrap64 (Z.quot a b).

(** [x > 0] on a [float64], here a rational with positive denominator. *)
Definition float_gt0 (x : Q) : bool := 0 <? Qnum x.

(** Library functions used by the service but defined outside the
    repository. [uuid_Parse s] is the error of [uuid.Parse(s)], [None]
    when [s] parses. *)
Record GoLib : Type := {
  uuid_Parse : string -> option error;
  filepath_Base : string -> string;
  filepath_Ext : string -> string;
  time_Format_date : Time -> string  (* layout "2006-01-02" *)
}.

(* ================================================================== *)
(** ** internal/models

    The columns the verification service never reads (passwords, paths,
    descriptions, contact details, most timestamps) are left out. *)

Module User.
Record t : Type := Build {
    ID : UUID;
    Email : string;
    Role : string   (* admin|organizer|staff *)
  }.
End User.

Module Event.
Record t : Type := Build {
    ID : UUID;
    Title : string;
    Slug : string;
    TicketPrice : Q;
    IsActive : bool
  }.
End Event.

Module EventDay.
Record t : Type := Build {
    ID : UUID;
    EventID : UUID;
    DayNumber : Z;
    Label : string;
    Date : Time
  }.
End EventDay.

Module EventAction.
Record t : Type := Build {
    ID : UUID;
    EventID : UUID;
    EventDayID : UUID;
    Name : string;
    Code : string;
    IsActive : bool
  }.
End EventAction.

Module Participant.
Record t : Type := Build {
    ID : UUID;
    EventID : UUID;
    Name : string;
    Email : string;
    PaymentStatus : string;   (* unpaid|pending|paid *)
    DeletedAt : option Time   (* gorm.DeletedAt: soft delete *)
  }.
End Participant.

(** The columns of [action_logs]; the relation fields of the Go struct are
    filled in memory only and are not part of a row. *)
Module ActionLog.
Record t : Type := Build {
    ID : UUID;
    ParticipantID : UUID;
    ActionID : UUID;
    VerifiedBy : UUID;
    VerifiedAt : Time;
    CreatedAt : Time
  }.
End ActionLog.

(* ================================================================== *)
(** ** The store and the monad of database actions *)

Record Store : Type := {
  users : list User.t;
  events : list Event.t;
  event_days : list EventDay.t;
  event_actions : list EventAction.t;
  participants : list Participant.t;
  action_logs : list ActionLog.t
}.

Definition DB (A : Type) : Type := Store -> A * Store.

Definition ret {A} (a : A) : DB A := fun s => (a, s).

Definition bind {A B} (m : DB A) (k : A -> DB B) : DB B :=
  fun s => let (a, s') := m s in k a s'.

(** A query: reads the store and leaves it as it is. *)
Definition query {A} (q : Store -> A) : DB A := fun s => (q s, s).

Notation "x <- m ;; k" := (bind m (fun x => k))
  (at level 61, m at next level, right associativity).

(** [db.Where(cond).First(&row)]. *)
Definition First {A} (cond : A -> bool) (table : list A) : result error A :=
  match find cond table with
  | Some row => Ok row
  | None => Err ErrRecordNotFound
  end.

(** [db.Model(..).Where(cond).Count(&n)]: the number of matching rows, as
    the database computes it (a table holds fewer than [2^63] rows, so the
    value is the one scanned into the [int64]). *)
Definition Count {A} (cond : A -> bool) (table : list A) : Z :=
  Z.of_nat (List.length (filter cond table)).

(** The error of [Preload(name)] on a model that declares no relation of
    that name: GORM's
    [fmt.Errorf("%s: %w for schema %s", name, ErrUnsupportedRelation, schema)]. *)
Definition unsupported_relation (name schema : string) : error :=
  wrapErrorf (name ++ ": ") ErrUnsupportedRelation (" for schema " ++ schema).

(** [db.Preload(name)...First(&row)] for such a name: the query runs first;
    a missing row is reported as it is, and a row that is found is lost to
    the error of the preload. *)
Definition Preload_undeclared {A} (name schema : string) (found : result error A)
  : result error A :=
  match found with
  | Ok _ => Err (unsupported_relation name schema)
  | Err err => Err err
  end.

(** [Offset(offset).Limit(limit)]: GORM emits OFFSET only for a positive
    offset. *)
Definition OffsetLimit {A} (offset limit : Z) (rows : list A) : list A :=
  firstn (Z.to_nat limit) (skipn (Z.to_nat offset) rows).

(* ================================================================== *)
(** ** internal/repositories *)

Definition live (p : Participant.t) : bool :=
  match Participant.DeletedAt p with None => true | Some _ => false end.

(** *** participantRepo

    [Participant] has a [gorm.DeletedAt] column, so queries on the model
    see only rows that are not soft-deleted. *)

Definition GetParticipantByID (id : string) : DB (result error Participant.t) :=
  query (fun s =>
    First (fun p => String.eqb (UUID_String (Participant.ID p)) id && live p)
          (participants s)).

Definition GetParticipantCountByEventID (eventID : string) : DB (result error Z) :=
  query (fun s =>
    Ok (Count (fun p => String.eqb (UUID_String (Participant.EventID p)) eventID
                        && live p)
              (participants s))).

(** *** eventRepo *)

Definition GetEventByID (id : string) : DB (result error Event.t) :=
  if String.eqb id "" then ret (Err (errorString "event ID cannot be empty"))
  else
    query (fun s =>
      match First (fun e => String.eqb (UUID_String (Event.ID e)) id) (events s) with
      | Err err =>
          if errors_Is_ErrRecordNotFound err
          then Err (errorString ("event not found with ID: " ++ id))
          else Err (wrapError "failed to get event: " err)
      | Ok event => Ok event
      end).

Definition GetEventDayByID (id : string) : DB (result error EventDay.t) :=
  if String.eqb id "" then ret (Err (errorString "event day ID cannot be empty"))
  else
    query (fun s =>
      match First (fun d => String.eqb (UUID_String (EventDay.ID d)) id)
                  (event_days s) with
      | Err err =>
          if errors_Is_ErrRecordNotFound err
          then Err (errorString ("event day not found with ID: " ++ id))
          else Err (wrapError "failed to get event day: " err)
      | Ok day => Ok day
      end).

(** The query preloads [EventDay], which [EventAction] does not declare. *)
Definition GetEventActionByID (id : string) : DB (result error EventAction.t) :=
  if String.eqb id "" then ret (Err (errorString "event action ID cannot be empty"))
  else
    query (fun s =>
      match Preload_undeclared "EventDay" "EventAction"
              (First (fun a => String.eqb (UUID_String (EventAction.ID a)) id)
                     (event_actions s)) with
      | Err err =>
          if errors_Is_ErrRecordNotFound err
          then Err (errorString ("event action not found with ID: " ++ id))
          else Err (wrapError "failed to get event action: " err)
      | Ok action => Ok action
      end).

(** The query is [code = ? AND is_active = true], with the same preload; a
    missing row is reported by a fresh error that does not wrap
    [gorm.ErrRecordNotFound]. *)
Definition GetEventActionByCode (code : string) : DB (result error EventAction.t) :=
  if String.eqb code "" then ret (Err (errorString "event action code cannot be empty"))
  else
    query (fun s =>
      match Preload_undeclared "EventDay" "EventAction"
              (First (fun a => String.eqb (EventAction.Code a) code
                               && Bool.eqb (EventAction.IsActive a) true)
                     (event_actions s)) with
      | Err err =>
          if errors_Is_ErrRecordNotFound err
          then Err (errorString ("event action not found with code: " ++ code))
          else Err (wrapError "failed to get event action: " err)
      | Ok action => Ok action
      end).

(** *** actionRepo *)

Definition same_pair (participantID actionID : string) (l : ActionLog.t) : bool :=
  String.eqb (UUID_String (ActionLog.ParticipantID l)) participantID
  && String.eqb (UUID_String (ActionLog.ActionID l)) actionID.

(** [db.Create(log)]: the insert is refused when the primary key is taken. *)
Definition CreateActionLog (log : ActionLog.t) : DB (option error) :=
  fun s =>
    if existsb (fun l => String.eqb (ActionLog.ID l) (ActionLog.ID log)) (action_logs s)
    then (Some (errorString "duplicate key value violates unique constraint"), s)
    else (None,
          {| users := users s; events := events s; event_days := event_days s;
             event_actions := event_actions s; participants := participants s;
             action_logs := action_logs s ++ [log] |}).

Definition HasActionLog (participantID actionID : string) : DB (result error bool) :=
  query (fun s =>
    let count := Count (same_pair participantID actionID) (action_logs s) in
    Ok (count >? 0)).

(** [Order("verified_at DESC")], as a stable insertion sort. *)
Fixpoint insert_desc (l : ActionLog.t) (sorted : list ActionLog.t) : list ActionLog.t :=
  match sorted with
  | [] => [l]
  | x :: rest =>
      if ActionLog.VerifiedAt x <=? ActionLog.VerifiedAt l
      then l :: x :: rest
      else x :: insert_desc l rest
  end.

Definition order_verified_at_desc (rows : list ActionLog.t) : list ActionLog.t :=
  fold_right insert_desc [] rows.

(** [Preload("Action").Preload("Action.EventDay")...Find(&logs)]: the
    nested preload runs on the actions of the rows found, so the query
    fails as soon as it selects a row. *)
Definition GetActionLogsByParticipant (participantID : string)
  : DB (result error (list ActionLog.t)) :=
  query (fun s =>
    match order_verified_at_desc
            (filter (fun l => String.eqb (UUID_String (ActionLog.ParticipantID l))
                                         participantID)
                    (action_logs s)) with
    | [] => Ok []
    | _ :: _ => Err (unsupported_relation "EventDay" "EventAction")
    end).

(** [JOIN participants ON action_logs.participant_id = participants.id
    WHERE participants.event_id = ?]: one row per log and matching
    participant. The join is written by hand in the source, so the
    soft-delete scope does not apply to it. *)
Definition logs_of_event (eventID : string) (s : Store) : list ActionLog.t :=
  flat_map
    (fun l =>
       map (fun _ => l)
           (filter (fun p => String.eqb (Participant.ID p) (ActionLog.ParticipantID l)
                             && String.eqb (UUID_String (Participant.EventID p)) eventID)
                   (participants s)))
    (action_logs s).

(** Returns the page of logs and the total count. *)
Definition GetActionLogsByEvent (eventID : string) (offset limit : Z)
  : DB (result error (list ActionLog.t * Z)) :=
  query (fun s =>
    let total := Z.of_nat (List.length (logs_of_event eventID s)) in
    let logs := OffsetLimit offset limit
                  (order_verified_at_desc (logs_of_event eventID s)) in
    Ok (logs, total)).

(** *** userRepo *)

Definition GetUserByID (id : string) : DB (result error User.t) :=
  query (fun s => First (fun u => String.eqb (UUID_String (User.ID u)) id) (users s)).

(* ================================================================== *)
(** ** internal/services: types of the verification service *)

Inductive VerificationErrorType : Type :=
| ErrInvalidInput
| ErrInvalidQRCode
| ErrParticipantNotFound
| ErrActionNotFound
| ErrActionInactive
| ErrVerifierNotFound
| ErrPaymentRequired
| ErrAlreadyVerified
| ErrEventNotFound
| ErrEventMismatch
| ErrEventNotStarted
| ErrDatabaseError
| ErrPermissionDenied
| ErrNotImplemented.

Record VerificationError : Type := {
  Message : string;
  Code : VerificationErrorType;
  Details : option error
}.

Definition NewVerificationError (message : string) (code : VerificationErrorType)
    (details : option error) : VerificationError :=
  {| Message := message; Code := code; Details := details |}.

Record VerifyRequest : Type := {
  QRCodeData : string;
  ActionCode : string;
  VerifierID : string
}.

Record VerificationResult : Type := {
  Success : bool;
  ResultMessage : string;
  ResultActionLog : ActionLog.t;
  ResultParticipant : Participant.t;
  ResultEventAction : EventAction.t;
  ResultVerifier : User.t;     (* actionLog.Verifier *)
  Timestamp : Time
}.

Record VerificationFilters : Type := {
  Page : Z;
  PageSize : Z;
  DateFrom : Time;
  DateTo : Time;
  FilterActionID : string;
  FilterVerifierID : string
}.

Record VerificationList : Type := {
  Verifications : list ActionLog.t;
  TotalCount : Z;
  ListPage : Z;
  ListPageSize : Z;
  TotalPages : Z
}.

Record VerificationStats : Type := {
  StatsEventID : string;
  EventTitle : string;
  TotalVerifications : Z;
  UniqueParticipants : Z;
  VerificationRate : Q;
  MostVerifiedAction : string;
  TopVerifier : string;
  LastVerification : Time;
  TodayVerifications : Z
}.

(** What one call reads from the clock and the UUID generator. *)
Record Env : Type := {
  now : Time;          (* time.Now() in checkEventDayValidity *)
  new_uuid : UUID;     (* uuid.New() *)
  now_verified : Time; (* time.Now() for VerifiedAt *)
  now_created : Time;  (* time.Now() for CreatedAt *)
  now_result : Time    (* time.Now() for Timestamp / LastVerification *)
}.

(** The code of an error return, [None] for [nil]. *)
Definition code_of (e : option VerificationError) : option VerificationErrorType :=
  option_map Code e.

Definition err_code {A} (r : result VerificationError A) : option VerificationErrorType :=
  match r with Ok _ => None | Err e => Some (Code e) end.

(* ================================================================== *)
(** ** internal/utils *)

Section Service.

Variable lib : GoLib.

Definition ExtractUUIDFromQRPath (qrPath : string) : result error string :=
  let filename := filepath_Base lib qrPath in
  let uuidStr := filepath_Ext lib filename in
  if String.eqb uuidStr "" then Err (errorString "invalid QR path format")
  else
    (* Remove extension *)
    let uuidStr :=
      substring 0 (String.length filename - String.length (filepath_Ext lib filename))
                filename in
    match uuid_Parse lib uuidStr with
    | Some err => Err (wrapError "invalid UUID in QR path: " err)
    | None => Ok uuidStr
    end.

(* ================================================================== *)
(** ** internal/services: verificationService *)

Definition validateVerifyRequest (req : VerifyRequest) : option VerificationError :=
  if String.eqb (QRCodeData req) "" then
    Some (NewVerificationError "QR code data is required" ErrInvalidInput None)
  else if String.eqb (ActionCode req) "" then
    Some (NewVerificationError "action code is required" ErrInvalidInput None)
  else if String.eqb (VerifierID req) "" then
    Some (NewVerificationError "verifier ID is required" ErrInvalidInput None)
  else None.

Definition extractParticipantFromQR (qrData : string)
  : DB (result VerificationError Participant.t) :=
  let lookup (participantID : string) :=
    r <- GetParticipantByID participantID ;;
    match r with
    | Err err =>
        if errors_Is_ErrRecordNotFound err
        then ret (Err (NewVerificationError "participant not found"
                         ErrParticipantNotFound (Some err)))
        else ret (Err (NewVerificationError "failed to get participant"
                         ErrDatabaseError (Some err)))
    | Ok participant => ret (Ok participant)
    end in
  (* Try different methods to extract participant ID from QR data *)
  match ExtractUUIDFromQRPath qrData with
  | Ok participantID => lookup participantID
  | Err _ =>
      (* If extraction fails, try direct UUID parsing *)
      match uuid_Parse lib qrData with
      | None => lookup qrData
      | Some err =>
          ret (Err (NewVerificationError "invalid QR code format"
                      ErrInvalidQRCode (Some err)))
      end
  end.

Definition getAndValidateAction (actionCode : string)
  : DB (result VerificationError EventAction.t) :=
  r <- GetEventActionByCode actionCode ;;
  match r with
  | Err err =>
      if errors_Is_ErrRecordNotFound err
      then ret (Err (NewVerificationError "action not found" ErrActionNotFound (Some err)))
      else ret (Err (NewVerificationError "failed to get action" ErrDatabaseError (Some err)))
  | Ok action =>
      if negb (EventAction.IsActive action)
      then ret (Err (NewVerificationError "action is not active" ErrActionInactive None))
      else ret (Ok action)
  end.

Definition isPaidEvent (eventID : string) : DB bool :=
  r <- GetEventByID eventID ;;
  match r with
  | Err _ =>
      (* If we can't get event info, assume it's free to avoid blocking verification *)
      ret false
  | Ok event => ret (float_gt0 (Event.TicketPrice event))
  end.

Definition checkEventDayValidity (now : Time) (eventDayID : string)
  : DB (option VerificationError) :=
  r <- GetEventDayByID eventDayID ;;
  match r with
  | Err _ =>
      (* If we can't get event day, skip this check *)
      ret None
  | Ok eventDay =>
      let eventDate := EventDay.Date eventDay in
      (* Only allow verification on or after the event day *)
      if Before now (Truncate eventDate (24 * Hour))
      then ret (Some (NewVerificationError
                        ("verification not allowed before event day: "
                           ++ time_Format_date lib eventDate)
                        ErrEventNotStarted None))
      else ret None
  end.

Definition performVerificationChecks (now : Time)
    (participant : Participant.t) (action : EventAction.t)
  : DB (option VerificationError) :=
  (* Check payment status for paid events *)
  paid <- isPaidEvent (UUID_String (Participant.EventID participant)) ;;
  if paid && negb (String.eqb (Participant.PaymentStatus participant) "paid")
  then ret (Some (NewVerificationError
                    ("participant payment status is '"
                       ++ Participant.PaymentStatus participant ++ "'")
                    ErrPaymentRequired None))
  else
    (* Check if already verified for this action *)
    r <- HasActionLog (UUID_String (Participant.ID participant))
                      (UUID_String (EventAction.ID action)) ;;
    match r with
    | Err err =>
        ret (Some (NewVerificationError "failed to check existing verification"
                     ErrDatabaseError (Some err)))
    | Ok alreadyVerified =>
        if alreadyVerified
        then ret (Some (NewVerificationError
                          ("already verified for action: " ++ EventAction.Name action)
                          ErrAlreadyVerified None))
        else
          (* Verify event consistency *)
          if negb (String.eqb (EventAction.EventID action)
                              (Participant.EventID participant))
          then ret (Some (NewVerificationError
                            "action does not belong to participant's event"
                            ErrEventMismatch None))
          else
            (* Check event day validity (optional business rule) *)
            checkEventDayValidity now (UUID_String (EventAction.EventDayID action))
    end.

Definition createVerificationRecord (env : Env)
    (participant : Participant.t) (action : EventAction.t) (verifier : User.t)
  : DB (result VerificationError ActionLog.t) :=
  let actionLog :=
    {| ActionLog.ID := new_uuid env;
       ActionLog.ParticipantID := Participant.ID participant;
       ActionLog.ActionID := EventAction.ID action;
       ActionLog.VerifiedBy := User.ID verifier;
       ActionLog.VerifiedAt := now_verified env;
       ActionLog.CreatedAt := now_created env |} in
  e <- CreateActionLog actionLog ;;
  match e with
  | Some err =>
      ret (Err (NewVerificationError "failed to create verification record"
                  ErrDatabaseError (Some err)))
  | None => ret (Ok actionLog)
  end.

(** [verify]: VerifyParticipantAction. *)
Definition VerifyParticipantAction (env : Env) (req : VerifyRequest)
  : DB (result VerificationError VerificationResult) :=
  (* Step 1: Validate basic input *)
  match validateVerifyRequest req with
  | Some err => ret (Err err)
  | None =>
  (* Step 2: Extract and validate participant from QR code *)
  r <- extractParticipantFromQR (QRCodeData req) ;;
  match r with
  | Err err => ret (Err err)
  | Ok participant =>
  (* Step 3: Get and validate the action *)
  r <- getAndValidateAction (ActionCode req) ;;
  match r with
  | Err err => ret (Err err)
  | Ok action =>
  (* Step 4: Get verifier information *)
  r <- GetUserByID (VerifierID req) ;;
  match r with
  | Err err =>
      ret (Err (NewVerificationError "verifier not found" ErrVerifierNotFound (Some err)))
  | Ok verifier =>
  (* Step 5: Perform comprehensive verification checks *)
  e <- performVerificationChecks (now env) participant action ;;
  match e with
  | Some err => ret (Err err)
  | None =>
  (* Step 6: Create verification record *)
  r <- createVerificationRecord env participant action verifier ;;
  match r with
  | Err err => ret (Err err)
  | Ok actionLog =>
  (* Step 7: Return successful result *)
  ret (Ok {| Success := true;
             ResultMessage :=
               "Successfully verified " ++ EventAction.Name action
                 ++ " for participant " ++ Participant.Name participant;
             ResultActionLog := actionLog;
             ResultParticipant := participant;
             ResultEventAction := action;
             ResultVerifier := verifier;
             Timestamp := now_result env |})
  end end end end end end.

Definition GetParticipantVerificationHistory (participantID : string)
  : DB (result VerificationError (list ActionLog.t)) :=
  if String.eqb participantID "" then
    ret (Err (NewVerificationError "participant ID is required" ErrInvalidInput None))
  else
    (* Validate participant exists *)
    r <- GetParticipantByID participantID ;;
    match r with
    | Err err =>
        ret (Err (NewVerificationError "participant not found"
                    ErrParticipantNotFound (Some err)))
    | Ok _ =>
        r <- GetActionLogsByParticipant participantID ;;
        match r with
        | Err err =>
            ret (Err (NewVerificationError "failed to get verification history"
                        ErrDatabaseError (Some err)))
        | Ok verifications => ret (Ok verifications)
        end
    end.

(** [listForEvent]: GetEventVerifications. [filters] is [None] for a nil
    pointer. *)
Definition GetEventVerifications (eventID : string)
    (filters : option VerificationFilters)
  : DB (result VerificationError VerificationList) :=
  if String.eqb eventID "" then
    ret (Err (NewVerificationError "event ID is required" ErrInvalidInput None))
  else
    (* Validate event exists *)
    r <- GetEventByID eventID ;;
    match r with
    | Err err =>
        ret (Err (NewVerificationError "event not found" ErrEventNotFound (Some err)))
    | Ok _ =>
        (* Set default pagination *)
        let filters :=
          match filters with
          | None => {| Page := 1; PageSize := 20; DateFrom := 0; DateTo := 0;
                       FilterActionID := ""; FilterVerifierID := "" |}
          | Some f => f
          end in
        let page := if Page filters <? 1 then 1 else Page filters in
        let pageSize :=
          if (PageSize filters <? 1) || (PageSize filters >? 100)
          then 20 else PageSize filters in
        let offset := wrap64 (wrap64 (page - 1) * pageSize) in
        (* Get verifications with pagination *)
        r <- GetActionLogsByEvent eventID offset pageSize ;;
        match r with
        | Err err =>
            ret (Err (NewVerificationError "failed to get event verifications"
                        ErrDatabaseError (Some err)))
        | Ok (verifications, total) =>
            let totalPages :=
              int_div (wrap64 (wrap64 (total + pageSize) - 1)) pageSize in
            ret (Ok {| Verifications := verifications;
                       TotalCount := total;
                       ListPage := page;
                       ListPageSize := pageSize;
                       TotalPages := totalPages |})
        end
    end.

Definition calculateVerificationStatistics (env : Env) (eventID : string)
    (totalParticipants : Z)
  : DB (result VerificationError VerificationStats) :=
  (* Get total verifications for the event *)
  r <- GetActionLogsByEvent eventID 0 1 ;;   (* Just to get count *)
  match r with
  | Err err =>
      ret (Err (NewVerificationError "failed to get verification data"
                  ErrDatabaseError (Some err)))
  | Ok (verifications, _) =>
      let totalVerifications := Z.of_nat (List.length verifications) in
      (* Calculate verification rate *)
      let verificationRate :=
        if totalParticipants >? 0
        then (inject_Z totalVerifications / inject_Z totalParticipants)%Q
        else 0%Q in
      ret (Ok {| StatsEventID := "";
                 EventTitle := "";
                 TotalVerifications := totalVerifications;
                 UniqueParticipants := totalVerifications;
                 VerificationRate := verificationRate;
                 MostVerifiedAction := "General Admission";
                 TopVerifier := "System";
                 LastVerification := now_result env;
                 TodayVerifications := 0 |})
  end.

(** [statsForEvent]: GetVerificationStats. *)
Definition GetVerificationStats (env : Env) (eventID : string)
  : DB (result VerificationError VerificationStats) :=
  if String.eqb eventID "" then
    ret (Err (NewVerificationError "event ID is required" ErrInvalidInput None))
  else
    r <- GetEventByID eventID ;;
    match r with
    | Err err =>
        ret (Err (NewVerificationError "event not found" ErrEventNotFound (Some err)))
    | Ok event =>
        (* Get total participants count *)
        r <- GetParticipantCountByEventID eventID ;;
        match r with
        | Err err =>
            ret (Err (NewVerificationError "failed to get participant count"
                        ErrDatabaseError (Some err)))
        | Ok totalParticipants =>
            r <- calculateVerificationStatistics env eventID totalParticipants ;;
            match r with
            | Err err => ret (Err err)
            | Ok stats =>
                ret (Ok {| StatsEventID := eventID;
                           EventTitle := Event.Title event;
                           TotalVerifications := TotalVerifications stats;
                           UniqueParticipants := UniqueParticipants stats;
                           VerificationRate := VerificationRate stats;
                           MostVerifiedAction := MostVerifiedAction stats;
                           TopVerifier := TopVerifier stats;
                           LastVerification := LastVerification stats;
                           TodayVerifications := TodayVerifications stats |})
            end
        end
    end.

(** [canVerify]: CanVerifyParticipant, returning [(bool, error)]. *)
Definition CanVerifyParticipant (participantID actionID : string)
  : DB (bool * option VerificationError) :=
  if String.eqb participantID "" || String.eqb actionID "" then
    ret (false, Some (NewVerificationError "participant ID and action ID are required"
                        ErrInvalidInput None))
  else
    (* Check if participant exists and has paid *)
    r <- GetParticipantByID participantID ;;
    match r with
    | Err err =>
        ret (false, Some (NewVerificationError "participant not found"
                            ErrParticipantNotFound (Some err)))
    | Ok participant =>
    (* Check if action exists and is active *)
    r <- GetEventActionByID actionID ;;
    match r with
    | Err err =>
        ret (false, Some (NewVerificationError "action not found"
                            ErrActionNotFound (Some err)))
    | Ok action =>
    (* Check payment status for paid events *)
    paid <- isPaidEvent (UUID_String (Participant.EventID participant)) ;;
    if paid && negb (String.eqb (Participant.PaymentStatus participant) "paid")
    then ret (false, Some (NewVerificationError "participant has not paid"
                             ErrPaymentRequired None))
    else
      (* Check if already verified *)
      r <- HasActionLog participantID actionID ;;
      match r with
      | Err err =>
          ret (false, Some (NewVerificationError "failed to check verification status"
                              ErrDatabaseError (Some err)))
      | Ok alreadyVerified =>
          if alreadyVerified
          then ret (false, Some (NewVerificationError "already verified for this action"
                                   ErrAlreadyVerified None))
          else
            (* Check if action belongs to the same event *)
            if negb (String.eqb (EventAction.EventID action)
                                (Participant.EventID participant))
            then ret (false, Some (NewVerificationError
                                     "action does not belong to participant's event"
                                     ErrEventMismatch None))
            else ret (true, None)
      end
    end end.

(** [revert]: RevertVerification. *)
Definition RevertVerification (verificationID adminID : string)
  : DB (option VerificationError) :=
  if String.eqb verificationID "" || String.eqb adminID "" then
    ret (Some (NewVerificationError "verification ID and admin ID are required"
                 ErrInvalidInput None))
  else
    (* Verify admin user exists and has appropriate permissions *)
    r <- GetUserByID adminID ;;
    match r with
    | Err err =>
        ret (Some (NewVerificationError "admin user not found"
                     ErrVerifierNotFound (Some err)))
    | Ok admin =>
        if negb (String.eqb (User.Role admin) "admin")
        then ret (Some (NewVerificationError "only admin users can revert verifications"
                          ErrPermissionDenied None))
        else
          ret (Some (NewVerificationError "revert verification not yet implemented"
                       ErrNotImplemented None))
    end.

End Service.

Arguments ExtractUUIDFromQRPath lib qrPath : simpl never.

(* ================================================================== *)
(** ** Running the model *)

(** The result and the final store of an action. *)
Definition eval {A} (m : DB A) (s : Store) : A := fst (m s).
Definition exec {A} (m : DB A) (s : Store) : Store := snd (m s).

(** An action that never writes. *)
Definition read_only {A} (m : DB A) : Prop := forall s, exec m s = s.

(** A sequential series of [verify] calls over one store. *)
Fixpoint run (lib : GoLib) (calls : list (Env * VerifyRequest))
  : DB (list (result VerificationError VerificationResult)) :=
  match calls with
  | [] => ret []
  | (env, req) :: rest =>
      r <- VerifyParticipantAction lib env req ;;
      rs <- run lib rest ;;
      ret (r :: rs)
  end.

(** The ActionLog rows of a (participant, action) pair. *)
Definition logs_for (participantID actionID : UUID) (s : Store) : list ActionLog.t :=
  filter (same_pair participantID actionID) (action_logs s).

(** The central invariant: at most one ActionLog per pair. *)
Definition AtMostOnce (s : Store) : Prop :=
  forall participantID actionID,
    (List.length (logs_for participantID actionID s) <= 1)%nat.

(** A call succeeded and recorded a redemption of the pair. *)
Definition redeems (participantID actionID : UUID)
    (r : result VerificationError VerificationResult) : bool :=
  match r with
  | Ok res => same_pair participantID actionID (ResultActionLog res)
  | Err _ => false
  end.

Definition redemptions (participantID actionID : UUID)
    (rs : list (result VerificationError VerificationResult)) : nat :=
  List.length (filter (redeems participantID actionID) rs).

(** The payment gate as [performVerificationChecks] evaluates it. *)
Definition payment_blocks (s : Store) (participant : Participant.t) : bool :=
  eval (isPaidEvent (UUID_String (Participant.EventID participant))) s
  && negb (String.eqb (Participant.PaymentStatus participant) "paid").

(** The duplicate gate. *)
Definition already_verified (s : Store) (participant : Participant.t)
    (action : EventAction.t) : bool :=
  Count (same_pair (UUID_String (Participant.ID participant))
                   (UUID_String (EventAction.ID action)))
        (action_logs s) >? 0.

(** The event-consistency gate. *)
Definition event_mismatch (participant : Participant.t) (action : EventAction.t) : bool :=
  negb (String.eqb (EventAction.EventID action) (Participant.EventID participant)).

Definition with_status (status : string) (p : Participant.t) : Participant.t :=
  {| Participant.ID := Participant.ID p;
     Participant.EventID := Participant.EventID p;
     Participant.Name := Participant.Name p;
     Participant.Email := Participant.Email p;
     Participant.PaymentStatus := status;
     Participant.DeletedAt := Participant.DeletedAt p |}.

(** ceil(total / pageSize), for a positive page size. *)
Definition ceil_div (total pageSize : Z) : Z := (total + pageSize - 1) / pageSize.

(* ================================================================== *)
(** ** A concrete library and a concrete store

    Used to run the model on examples. The library accepts UUIDs in the
    canonical 36-character form only and follows the Unix rules of
    [path/filepath]. *)

Module Sample.

Definition is_slash (c : ascii) : bool := Ascii.eqb c "/"%char.

Fixpoint has_slash (s : string) : bool :=
  match s with
  | EmptyString => false
  | String c rest => is_slash c || has_slash rest
  end.

Fixpoint strip_trailing_slashes (s : string) : string :=
  match s with
  | EmptyString => EmptyString
  | String c rest =>
      let r := strip_trailing_slashes rest in
      if String.eqb r "" && is_slash c then EmptyString else String c r
  end.

Fixpoint last_element (s : string) : string :=
  match s with
  | EmptyString => EmptyString
  | String c rest =>
      if has_slash rest then last_element rest
      else if is_slash c then rest else s
  end.

Definition Base (path : string) : string :=
  if String.eqb path "" then "."
  else
    let p := last_element (strip_trailing_slashes path) in
    if String.eqb p "" then "/" else p.

Fixpoint Ext (path : string) : string :=
  match path with
  | EmptyString => EmptyString
  | String c rest =>
      let ext := Ext rest in
      if negb (String.eqb ext "") then ext
      else if Ascii.eqb c "."%char && negb (has_slash rest) then path
      else EmptyString
  end.

Definition is_hex (c : ascii) : bool :=
  let n := nat_of_ascii c in
  ((48 <=? n) && (n <=? 57) || (65 <=? n) && (n <=? 70)
   || (97 <=? n) && (n <=? 102))%nat.

Fixpoint canonical_from (i : nat) (s : string) : bool :=
  match s with
  | EmptyString => Nat.eqb i 36
  | String c rest =>
      (if Nat.eqb i 8 || Nat.eqb i 13 || Nat.eqb i 18 || Nat.eqb i 23
       then Ascii.eqb c "-"%char else is_hex c)
      && canonical_from (S i) rest
  end.

Definition Parse (s : string) : option error :=
  if canonical_from 0 s then None
  else Some (errorString "invalid UUID format").

Definition digit (n : Z) : ascii := ascii_of_nat (48 + Z.to_nat (n mod 10)).

Definition pad2 (n : Z) : string :=
  String (digit (n / 10)) (String (digit n) EmptyString).

Definition pad4 (n : Z) : string :=
  String (digit (n / 1000)) (String (digit (n / 100)) (pad2 n)).

(** The civil date of an instant, in UTC, by the usual era arithmetic on
    the days since March 1 of year 0. *)
Definition FormatDate (t : Time) : string :=
  let z := t / (24 * Hour) + 306 in
  let era := z / 146097 in
  let doe := z mod 146097 in
  let yoe := (doe - doe / 1460 + doe / 36524 - doe / 146096) / 365 in
  let doy := doe - (365 * yoe + yoe / 4 - yoe / 100) in
  let mp := (5 * doy + 2) / 153 in
  let d := doy - (153 * mp + 2) / 5 + 1 in
  let m := if mp <? 10 then mp + 3 else mp - 9 in
  let y := yoe + era * 400 + (if m <=? 2 then 1 else 0) in
  (pad4 y ++ "-" ++ pad2 m ++ "-" ++ pad2 d)%string.

Definition lib : GoLib :=
  {| uuid_Parse := Parse;
     filepath_Base := Base;
     filepath_Ext := Ext;
     time_Format_date := FormatDate |}.

(** Midnight UTC of the [n]-th day after the zero time. *)
Definition day (n : Z) : Time := n * (24 * Hour).

Definition admin : User.t :=
  {| User.ID := "a0000000-0000-4000-8000-000000000001";
     User.Email := "admin@event.com"; User.Role := "admin" |}.

Definition staff : User.t :=
  {| User.ID := "a0000000-0000-4000-8000-000000000002";
     User.Email := "staff@event.com"; User.Role := "staff" |}.

(** A paid event (price 10) and a free one. *)
Definition conference : Event.t :=
  {| Event.ID := "e0000000-0000-4000-8000-000000000001";
     Event.Title := "Conference"; Event.Slug := "conference";
     Event.TicketPrice := 10%Q; Event.IsActive := true |}.

Definition meetup : Event.t :=
  {| Event.ID := "e0000000-0000-4000-8000-000000000002";
     Event.Title := "Meetup"; Event.Slug := "meetup";
     Event.TicketPrice := 0%Q; Event.IsActive := true |}.

Definition conference_day1 : EventDay.t :=
  {| EventDay.ID := "d0000000-0000-4000-8000-000000000001";
     EventDay.EventID := Event.ID conference;
     EventDay.DayNumber := 1; EventDay.Label := "Day 1";
     EventDay.Date := day 739000 + 9 * Hour |}.

Definition meetup_day1 : EventDay.t :=
  {| EventDay.ID := "d0000000-0000-4000-8000-000000000002";
     EventDay.EventID := Event.ID meetup;
     EventDay.DayNumber := 1; EventDay.Label := "Evening";
     EventDay.Date := day 739000 + 18 * Hour |}.

Definition checkin : EventAction.t :=
  {| EventAction.ID := "c0000000-0000-4000-8000-000000000001";
     EventAction.EventID := Event.ID conference;
     EventAction.EventDayID := EventDay.ID conference_day1;
     EventAction.Name := "Day 1 check-in"; EventAction.Code := "CHECKIN1";
     EventAction.IsActive := true |}.

Definition lunch : EventAction.t :=
  {| EventAction.ID := "c0000000-0000-4000-8000-000000000002";
     EventAction.EventID := Event.ID conference;
     EventAction.EventDayID := EventDay.ID conference_day1;
     EventAction.Name := "Lunch"; EventAction.Code := "LUNCH1";
     EventAction.IsActive := false |}.

Definition welcome : EventAction.t :=
  {| EventAction.ID := "c0000000-0000-4000-8000-000000000003";
     EventAction.EventID := Event.ID meetup;
     EventAction.EventDayID := EventDay.ID meetup_day1;
     EventAction.Name := "Welcome"; EventAction.Code := "WELCOME";
     EventAction.IsActive := true |}.

Definition alice : Participant.t :=
  {| Participant.ID := "b0000000-0000-4000-8000-000000000001";
     Participant.EventID := Event.ID conference;
     Participant.Name := "Alice"; Participant.Email := "alice@example.org";
     Participant.PaymentStatus := "paid"; Participant.DeletedAt := None |}.

Definition bob : Participant.t :=
  {| Participant.ID := "b0000000-0000-4000-8000-000000000002";
     Participant.EventID := Event.ID conference;
     Participant.Name := "Bob"; Participant.Email := "bob@example.org";
     Participant.PaymentStatus := "pending"; Participant.DeletedAt := None |}.

Definition carol : Participant.t :=
  {| Participant.ID := "b0000000-0000-4000-8000-000000000003";
     Participant.EventID := Event.ID meetup;
     Participant.Name := "Carol"; Participant.Email := "carol@example.org";
     Participant.PaymentStatus := "unpaid"; Participant.DeletedAt := None |}.

Definition store (logs : list ActionLog.t) : Store :=
  {| users := [admin; staff];
     events := [conference; meetup];
     event_days := [conference_day1; meetup_day1];
     event_actions := [checkin; lunch; welcome];
     participants := [alice; bob; carol];
     action_logs := logs |}.

Definition log_of (id : UUID) (p : Participant.t) (a : EventAction.t) (at_ : Time)
  : ActionLog.t :=
  {| ActionLog.ID := id;
     ActionLog.ParticipantID := Participant.ID p;
     ActionLog.ActionID := EventAction.ID a;
     ActionLog.VerifiedBy := User.ID staff;
     ActionLog.VerifiedAt := at_;
     ActionLog.CreatedAt := at_ |}.

(** A call made at instant [t] that draws [id] from the UUID generator. *)
Definition env_at (t : Time) (id : UUID) : Env :=
  {| now := t; new_uuid := id; now_verified := t; now_created := t;
     now_result := t |}.

Definition request (qr code : string) (verifier : User.t) : VerifyRequest :=
  {| QRCodeData := qr; ActionCode := code; VerifierID := User.ID verifier |}.

(** The QR payload of a participant: the path of the image file. *)
Definition qr_of (p : Participant.t) : string :=
  ("/qrcodes/" ++ Participant.ID p ++ ".png")%string.

End Sample.

(* ================================================================== *)
(** ** Auxiliary definitions for the statements *)

(** The row [createVerificationRecord] builds. *)
Definition new_log (env : Env) (participant : Participant.t)
    (action : EventAction.t) (verifier : User.t) : ActionLog.t :=
  {| ActionLog.ID := new_uuid env;
     ActionLog.ParticipantID := Participant.ID participant;
     ActionLog.ActionID := EventAction.ID action;
     ActionLog.VerifiedBy := User.ID verifier;
     ActionLog.VerifiedAt := now_verified env;
     ActionLog.CreatedAt := now_created env |}.

(** The store after one row is appended to [action_logs]. *)
Definition insert_log (log : ActionLog.t) (s : Store) : Store :=
  {| users := users s; events := events s; event_days := event_days s;
     event_actions := event_actions s; participants := participants s;
     action_logs := action_logs s ++ [log] |}.

(** Two stores that differ at most in [action_logs]. *)
Definition same_registry (s s' : Store) : Prop :=
  users s' = users s /\ events s' = events s /\ event_days s' = event_days s /\
  event_actions s' = event_actions s /\ participants s' = participants s.

(** The errors of the four gates of [performVerificationChecks]. *)
Definition payment_required (p : Participant.t) : VerificationError :=
  NewVerificationError
    ("participant payment status is '" ++ Participant.PaymentStatus p ++ "'")
    ErrPaymentRequired None.

Definition duplicate_verification (a : EventAction.t) : VerificationError :=
  NewVerificationError ("already verified for action: " ++ EventAction.Name a)
    ErrAlreadyVerified None.

Definition mismatch_error : VerificationError :=
  NewVerificationError "action does not belong to participant's event"
    ErrEventMismatch None.

Definition not_started (lib : GoLib) (day : EventDay.t) : VerificationError :=
  NewVerificationError
    ("verification not allowed before event day: "
       ++ time_Format_date lib (EventDay.Date day))
    ErrEventNotStarted None.

(** The error of the action lookup by code. The query selects active rows
    only; a row it finds is lost to the preload of [EventDay]. *)
Definition action_lookup_error (code : string) (s : Store) : error :=
  if String.eqb code "" then errorString "event action code cannot be empty"
  else
    match find (fun a => String.eqb (EventAction.Code a) code
                         && Bool.eqb (EventAction.IsActive a) true)
               (event_actions s) with
    | Some _ => wrapError "failed to get event action: "
                  (unsupported_relation "EventDay" "EventAction")
    | None => errorString ("event action not found with code: " ++ code)
    end.

(** The error of the action lookup by identifier. *)
Definition action_id_lookup_error (id : string) (s : Store) : error :=
  if String.eqb id "" then errorString "event action ID cannot be empty"
  else
    match find (fun a => String.eqb (UUID_String (EventAction.ID a)) id)
               (event_actions s) with
    | Some _ => wrapError "failed to get event action: "
                  (unsupported_relation "EventDay" "EventAction")
    | None => errorString ("event action not found with ID: " ++ id)
    end.

(** The error of a [verify] call: the error of the first of its steps 1 to
    3 that fails. *)
Definition verify_error (lib : GoLib) (req : VerifyRequest) (s : Store)
  : VerificationError :=
  match validateVerifyRequest req with
  | Some err => err
  | None =>
      match eval (extractParticipantFromQR lib (QRCodeData req)) s with
      | Err err => err
      | Ok _ =>
          NewVerificationError "failed to get action" ErrDatabaseError
            (Some (action_lookup_error (ActionCode req) s))
      end
  end.

(** The error of a [canVerify] call. *)
Definition canVerify_error (participantID actionID : string) (s : Store)
  : VerificationError :=
  if String.eqb participantID "" || String.eqb actionID "" then
    NewVerificationError "participant ID and action ID are required"
      ErrInvalidInput None
  else
    match eval (GetParticipantByID participantID) s with
    | Err err =>
        NewVerificationError "participant not found" ErrParticipantNotFound (Some err)
    | Ok _ =>
        NewVerificationError "action not found" ErrActionNotFound
          (Some (action_id_lookup_error actionID s))
    end.

(* ================================================================== *)
(** ** Concrete calls *)

Module Cases.
Import Sample.

(** An instant during the first day of the conference, and one of the day
    before. The date of the day is at nine. *)
Definition morning : Time := day 739000 + 10 * Hour.
Definition eve : Time := day 738999 + 10 * Hour.

(** An instant of the first day that is before the time of day of its
    date. *)
Definition early : Time := day 739000 + 1 * Hour.

Definition id1 : UUID := "f0000000-0000-4000-8000-000000000001".
Definition id2 : UUID := "f0000000-0000-4000-8000-000000000002".
Definition id3 : UUID := "f0000000-0000-4000-8000-000000000003".

(** Alice checks in, scanned by a member of staff. *)
Definition alice_checkin : VerifyRequest := request (qr_of alice) "CHECKIN1" staff.

(** The same redemption again, typed in as a bare identifier. *)
Definition alice_checkin_again : VerifyRequest :=
  request (Participant.ID alice) "CHECKIN1" staff.

Definition bob_checkin : VerifyRequest := request (qr_of bob) "CHECKIN1" staff.

(** A credential of the conference presented at an action of the meetup. *)
Definition alice_welcome : VerifyRequest := request (qr_of alice) "WELCOME" staff.

(** An action code nobody registered, and the code of an inactive action. *)
Definition alice_unknown_code : VerifyRequest := request (qr_of alice) "NOPE" staff.
Definition alice_lunch : VerifyRequest := request (qr_of alice) "LUNCH1" staff.

(** Bob was checked in, and his payment went back to pending afterwards. *)
Definition bob_checked_in : Store := store [log_of id1 bob checkin morning].

(** Alice has a row for an action of the other event. *)
Definition alice_welcomed : Store := store [log_of id1 alice welcome morning].

(** Alice and Bob were both checked in at the conference. *)
Definition two_checkins : Store :=
  store [log_of id1 alice checkin morning; log_of id2 bob checkin (morning + 1)].

(** A participant whose event is not in the store. *)
Definition dave : Participant.t :=
  {| Participant.ID := "b0000000-0000-4000-8000-000000000004";
     Participant.EventID := "e0000000-0000-4000-8000-0000000000ff";
     Participant.Name := "Dave"; Participant.Email := "dave@example.org";
     Participant.PaymentStatus := "unpaid"; Participant.DeletedAt := None |}.

Definition orphan_store : Store :=
  {| users := [admin; staff];
     events := [conference; meetup];
     event_days := [conference_day1; meetup_day1];
     event_actions := [checkin; lunch; welcome];
     participants := [alice; bob; carol; dave];
     action_logs := [] |}.

Definition dave_checkin : VerifyRequest := request (qr_of dave) "CHECKIN1" staff.

(** An action whose EventDay is not in the store. *)
Definition popup : EventAction.t :=
  {| EventAction.ID := "c0000000-0000-4000-8000-000000000004";
     EventAction.EventID := Event.ID meetup;
     EventAction.EventDayID := "d0000000-0000-4000-8000-0000000000ff";
     EventAction.Name := "Pop-up"; EventAction.Code := "POPUP";
     EventAction.IsActive := true |}.

Definition filters (page pageSize : Z) : VerificationFilters :=
  {| Page := page; PageSize := pageSize; DateFrom := 0; DateTo := 0;
     FilterActionID := ""; FilterVerifierID := "" |}.

End Cases.

(** A meetup with forty-five attendees, each welcomed once. *)
Module Crowd.
Import Sample.

Definition attendee (n : Z) : Participant.t :=
  {| Participant.ID := ("b1000000-0000-4000-8000-0000000000" ++ pad2 n)%string;
     Participant.EventID := Event.ID meetup;
     Participant.Name := ("Attendee " ++ pad2 n)%string;
     Participant.Email := ("attendee" ++ pad2 n ++ "@example.org")%string;
     Participant.PaymentStatus := "unpaid"; Participant.DeletedAt := None |}.

Definition welcomed (n : Z) : ActionLog.t :=
  log_of ("f1000000-0000-4000-8000-0000000000" ++ pad2 n)%string (attendee n) welcome
         (day 739000 + 18 * Hour + n * Second).

Definition numbers : list Z := map Z.of_nat (seq 0 45).

Definition store : Store :=
  {| users := [admin; staff];
     events := [conference; meetup];
     event_days := [conference_day1; meetup_day1];
     event_actions := [checkin; lunch; welcome];
     participants := map attendee numbers;
     action_logs := map welcomed numbers |}.

End Crowd.

(** Series of calls used as examples. *)
Module Series.
Import Sample Cases.

(** Alice checks in twice, both times through a member of staff. *)
Definition twice : list (Env * VerifyRequest) :=
  [ (env_at morning id1, alice_checkin);
    (env_at (morning + Second) id2, alice_checkin_again) ].

End Series.

(* ================================================================== *)
(** ** internal/repositories: the write side

    [Create] is an insert the database refuses when the primary key or a
    unique index ([events.slug], [event_actions.code]) is taken; the row it
    inserts is the struct with the column defaults GORM applies to zero
    values. [Update] and [Delete] report the number of rows their [WHERE]
    selects. An identifier that is not the text of a UUID selects no row.
    Foreign-key constraints and the association fields of the structs
    (empty in every caller) are not modelled. *)

Definition duplicate_key : error :=
  errorString "duplicate key value violates unique constraint".

Definition with_events (rows : list Event.t) (s : Store) : Store :=
  {| users := users s; events := rows; event_days := event_days s;
     event_actions := event_actions s; participants := participants s;
     action_logs := action_logs s |}.

Definition with_event_days (rows : list EventDay.t) (s : Store) : Store :=
  {| users := users s; events := events s; event_days := rows;
     event_actions := event_actions s; participants := participants s;
     action_logs := action_logs s |}.

Definition with_event_actions (rows : list EventAction.t) (s : Store) : Store :=
  {| users := users s; events := events s; event_days := event_days s;
     event_actions := rows; participants := participants s;
     action_logs := action_logs s |}.

Definition with_participants (rows : list Participant.t) (s : Store) : Store :=
  {| users := users s; events := events s; event_days := event_days s;
     event_actions := event_actions s; participants := rows;
     action_logs := action_logs s |}.

(** [fmt.Sprintf("%d", n)]. *)
Definition Sprint_d (n : Z) : string := NilZero.string_of_int (Z.to_int n).

(** The zero value of [uuid.UUID]. *)
Definition uuid_Nil : UUID := "00000000-0000-0000-0000-000000000000".

(** A column tagged [default:uuid_generate_v4()]: GORM leaves a zero
    identifier out of the INSERT, the database generates one and GORM writes
    it back into the struct. [generated] is the identifier the database
    would generate for the insert. *)
Definition default_uuid (generated id : UUID) : UUID :=
  if String.eqb id uuid_Nil then generated else id.

(** A column tagged [default:true]: GORM replaces the zero value [false] by
    the default when it creates a row. *)
Definition default_true (b : bool) : bool := if b then b else true.

(** *** eventRepo *)

(** The row [db.Create(event)] inserts and leaves in [*event]. *)
Definition created_event (generated : UUID) (e : Event.t) : Event.t :=
  {| Event.ID := default_uuid generated (Event.ID e);
     Event.Title := Event.Title e;
     Event.Slug := Event.Slug e;
     Event.TicketPrice := Event.TicketPrice e;
     Event.IsActive := default_true (Event.IsActive e) |}.

(** [r.db.Create(event)]. *)
Definition insert_event (generated : UUID) (event : Event.t) : DB (option error) :=
  fun s =>
    let row := created_event generated event in
    if existsb (fun e => String.eqb (Event.ID e) (Event.ID row)) (events s)
       || existsb (fun e => String.eqb (Event.Slug e) (Event.Slug row)) (events s)
    then (Some duplicate_key, s)
    else (None, with_events (events s ++ [row]) s).

(** A nil pointer is [None]. *)
Definition CreateEvent (generated : UUID) (event : option Event.t) : DB (option error) :=
  match event with
  | None => ret (Some (errorString "event cannot be nil"))
  | Some event =>
      (* Check if slug already exists *)
      existing <- query (fun s =>
        First (fun e => String.eqb (Event.Slug e) (Event.Slug event)) (events s)) ;;
      match existing with
      | Ok _ =>
          ret (Some (errorString ("event with slug '" ++ Event.Slug event
                                    ++ "' already exists")))
      | Err _ => insert_event generated event
      end
  end.

Definition GetEventBySlug (slug : string) : DB (result error Event.t) :=
  if String.eqb slug "" then ret (Err (errorString "event slug cannot be empty"))
  else
    query (fun s =>
      match First (fun e => String.eqb (Event.Slug e) slug) (events s) with
      | Err err =>
          if errors_Is_ErrRecordNotFound err
          then Err (errorString ("event not found with slug: " ++ slug))
          else Err (wrapError "failed to get event: " err)
      | Ok event => Ok event
      end).

Definition deactivate_event (e : Event.t) : Event.t :=
  {| Event.ID := Event.ID e; Event.Title := Event.Title e;
     Event.Slug := Event.Slug e; Event.TicketPrice := Event.TicketPrice e;
     Event.IsActive := false |}.

(** SoftDeleteEvent soft deletes an event by setting is_active to false. *)
Definition SoftDeleteEvent (id : string) : DB (option error) :=
  if String.eqb id "" then ret (Some (errorString "event ID cannot be empty"))
  else
    fun s =>
      let selected e := String.eqb (UUID_String (Event.ID e)) id in
      let rowsAffected := Count selected (events s) in
      let s' := with_events
                  (map (fun e => if selected e then deactivate_event e else e)
                       (events s)) s in
      if rowsAffected =? 0
      then (Some (errorString ("event not found with ID: " ++ id)), s')
      else (None, s').

(** The row [db.Create(day)] inserts and leaves in [*day]. *)
Definition created_event_day (generated : UUID) (d : EventDay.t) : EventDay.t :=
  {| EventDay.ID := default_uuid generated (EventDay.ID d);
     EventDay.EventID := EventDay.EventID d;
     EventDay.DayNumber := EventDay.DayNumber d;
     EventDay.Label := EventDay.Label d;
     EventDay.Date := EventDay.Date d |}.

(** [r.db.Create(day)]. *)
Definition insert_event_day (generated : UUID) (day : EventDay.t) : DB (option error) :=
  fun s =>
    let row := created_event_day generated day in
    if existsb (fun d => String.eqb (EventDay.ID d) (EventDay.ID row)) (event_days s)
    then (Some duplicate_key, s)
    else (None, with_event_days (event_days s ++ [row]) s).

Definition CreateEventDay (generated : UUID) (day : option EventDay.t)
  : DB (option error) :=
  match day with
  | None => ret (Some (errorString "event day cannot be nil"))
  | Some day =>
      (* Check if event exists *)
      event <- query (fun s =>
        First (fun e => String.eqb (Event.ID e) (EventDay.EventID day)) (events s)) ;;
      match event with
      | Err err =>
          if errors_Is_ErrRecordNotFound err
          then ret (Some (errorString ("event not found with ID: "
                                         ++ UUID_String (EventDay.EventID day))))
          else ret (Some (wrapError "failed to check event existence: " err))
      | Ok _ =>
          (* Check for duplicate day number for the same event *)
          existingDay <- query (fun s =>
            First (fun d => String.eqb (EventDay.EventID d) (EventDay.EventID day)
                            && (EventDay.DayNumber d =? EventDay.DayNumber day))
                  (event_days s)) ;;
          match existingDay with
          | Ok _ =>
              ret (Some (errorString ("day number " ++ Sprint_d (EventDay.DayNumber day)
                                        ++ " already exists for this event")))
          | Err _ => insert_event_day generated day
          end
      end
  end.

(** DeleteEventDay deletes an event day. *)
Definition DeleteEventDay (id : string) : DB (option error) :=
  if String.eqb id "" then ret (Some (errorString "event day ID cannot be empty"))
  else
    (* Check if there are any actions associated with this day *)
    actionCount <- query (fun s =>
      Count (fun a => String.eqb (UUID_String (EventAction.EventDayID a)) id)
            (event_actions s)) ;;
    if actionCount >? 0
    then ret (Some (errorString "cannot delete event day with associated actions"))
    else
      fun s =>
        let selected d := String.eqb (UUID_String (EventDay.ID d)) id in
        let rowsAffected := Count selected (event_days s) in
        let s' := with_event_days
                    (filter (fun d => negb (selected d)) (event_days s)) s in
        if rowsAffected =? 0
        then (Some (errorString ("event day not found with ID: " ++ id)), s')
        else (None, s').

(** The row [db.Create(action)] inserts and leaves in [*action]. *)
Definition created_event_action (generated : UUID) (a : EventAction.t) : EventAction.t :=
  {| EventAction.ID := default_uuid generated (EventAction.ID a);
     EventAction.EventID := EventAction.EventID a;
     EventAction.EventDayID := EventAction.EventDayID a;
     EventAction.Name := EventAction.Name a;
     EventAction.Code := EventAction.Code a;
     EventAction.IsActive := default_true (EventAction.IsActive a) |}.

(** [r.db.Create(action)]. *)
Definition insert_event_action (generated : UUID) (action : EventAction.t)
  : DB (option error) :=
  fun s =>
    let row := created_event_action generated action in
    if existsb (fun a => String.eqb (EventAction.ID a) (EventAction.ID row))
               (event_actions s)
       || existsb (fun a => String.eqb (EventAction.Code a) (EventAction.Code row))
                  (event_actions s)
    then (Some duplicate_key, s)
    else (None, with_event_actions (event_actions s ++ [row]) s).

Definition CreateEventAction (generated : UUID) (action : option EventAction.t)
  : DB (option error) :=
  match action with
  | None => ret (Some (errorString "event action cannot be nil"))
  | Some action =>
      (* Check if event day exists *)
      eventDay <- query (fun s =>
        First (fun d => String.eqb (EventDay.ID d) (EventAction.EventDayID action))
              (event_days s)) ;;
      match eventDay with
      | Err err =>
          if errors_Is_ErrRecordNotFound err
          then ret (Some (errorString ("event day not found with ID: "
                                         ++ UUID_String (EventAction.EventDayID action))))
          else ret (Some (wrapError "failed to check event day existence: " err))
      | Ok _ =>
          (* Check if code already exists *)
          existingAction <- query (fun s =>
            First (fun a => String.eqb (EventAction.Code a) (EventAction.Code action))
                  (event_actions s)) ;;
          match existingAction with
          | Ok _ =>
              ret (Some (errorString ("event action with code '"
                                        ++ EventAction.Code action
                                        ++ "' already exists")))
          | Err _ => insert_event_action generated action
          end
      end
  end.

Definition deactivate_action (a : EventAction.t) : EventAction.t :=
  {| EventAction.ID := EventAction.ID a; EventAction.EventID := EventAction.EventID a;
     EventAction.EventDayID := EventAction.EventDayID a;
     EventAction.Name := EventAction.Name a; EventAction.Code := EventAction.Code a;
     EventAction.IsActive := false |}.

(** DeleteEventAction soft deletes an event action by setting is_active to
    false. *)
Definition DeleteEventAction (id : string) : DB (option error) :=
  if String.eqb id "" then ret (Some (errorString "event action ID cannot be empty"))
  else
    fun s =>
      let selected a := String.eqb (UUID_String (EventAction.ID a)) id in
      let rowsAffected := Count selected (event_actions s) in
      let s' := with_event_actions
                  (map (fun a => if selected a then deactivate_action a else a)
                       (event_actions s)) s in
      if rowsAffected =? 0
      then (Some (errorString ("event action not found with ID: " ++ id)), s')
      else (None, s').

(** *** participantRepo *)

Definition set_payment_status (status : string) (p : Participant.t) : Participant.t :=
  {| Participant.ID := Participant.ID p;
     Participant.EventID := Participant.EventID p;
     Participant.Name := Participant.Name p;
     Participant.Email := Participant.Email p;
     Participant.PaymentStatus := status;
     Participant.DeletedAt := Participant.DeletedAt p |}.

(** [Model(&Participant{}).Where("id = ?", id).Update("payment_status", s)]:
    the soft-delete scope applies, and no row selected is not an error. *)
Definition UpdatePaymentStatus_repo (participantID status : string) : DB (option error) :=
  fun s =>
    (None,
     with_participants
       (map (fun p => if String.eqb (UUID_String (Participant.ID p)) participantID
                         && live p
                      then set_payment_status status p else p)
            (participants s)) s).

(* ================================================================== *)
(** ** internal/services: ParticipantService *)

Definition UpdatePaymentStatus (participantID status : string) : DB (option error) :=
  let allowedStatus (st : string) : bool :=
    String.eqb st "unpaid" || String.eqb st "pending" || String.eqb st "paid" in
  if negb (allowedStatus status)
  then ret (Some (errorString "invalid payment status"))
  else UpdatePaymentStatus_repo participantID status.

(* ================================================================== *)
(** ** internal/services: EventService *)

(** [uuid.New()] is the argument [newID]; the day returned is [*day] as
    [CreateEventDay] leaves it. *)
Definition AddEventDay (newID generated : UUID) (eventID : string) (dayNumber : Z)
    (label : string) (date : Time) : DB (result error EventDay.t) :=
  (* Verify event exists *)
  r <- GetEventByID eventID ;;
  match r with
  | Err _ => ret (Err (errorString "event not found"))
  | Ok event =>
      let day := {| EventDay.ID := newID;
                    EventDay.EventID := Event.ID event;
                    EventDay.DayNumber := dayNumber;
                    EventDay.Label := label;
                    EventDay.Date := date |} in
      e <- CreateEventDay generated (Some day) ;;
      match e with
      | Some err => ret (Err err)
      | None => ret (Ok (created_event_day generated day))
      end
  end.

(* ================================================================== *)
(** ** internal/handlers and internal/middleware *)

(** A Go [error] as the handler receives it: a [*VerificationError] or
    something else. *)
Inductive service_error : Type :=
| IsVerificationError (verr : VerificationError)
| OtherError (err : error).

Definition StatusBadRequest : Z := 400.
Definition StatusUnauthorized : Z := 401.
Definition StatusForbidden : Z := 403.
Definition StatusNotFound : Z := 404.
Definition StatusConflict : Z := 409.
Definition StatusInternalServerError : Z := 500.
Definition StatusNotImplemented : Z := 501.

(** The response of [utils.Error(c, message, status)]. *)
Record ErrorResponse : Type := {
  Status : Z;
  ErrorMessage : string
}.

(** handleVerificationError handles verification service errors and maps
    to appropriate HTTP status. *)
Definition handleVerificationError (err : service_error) : ErrorResponse :=
  match err with
  | IsVerificationError verr =>
      match Code verr with
      | ErrInvalidInput | ErrInvalidQRCode =>
          {| Status := StatusBadRequest; ErrorMessage := Message verr |}
      | ErrParticipantNotFound | ErrActionNotFound | ErrEventNotFound =>
          {| Status := StatusNotFound; ErrorMessage := Message verr |}
      | ErrVerifierNotFound =>
          {| Status := StatusUnauthorized; ErrorMessage := Message verr |}
      | ErrPaymentRequired | ErrAlreadyVerified | ErrActionInactive =>
          {| Status := StatusConflict; ErrorMessage := Message verr |}
      | ErrEventMismatch | ErrEventNotStarted =>
          {| Status := StatusForbidden; ErrorMessage := Message verr |}
      | ErrPermissionDenied =>
          {| Status := StatusForbidden; ErrorMessage := Message verr |}
      | ErrNotImplemented =>
          {| Status := StatusNotImplemented; ErrorMessage := Message verr |}
      | ErrDatabaseError =>
          {| Status := StatusInternalServerError; ErrorMessage := Message verr |}
      end
  | OtherError _ =>
      (* Generic error *)
      {| Status := StatusInternalServerError; ErrorMessage := "Internal server error" |}
  end.

(** The role middlewares of [internal/middleware/auth.go]. [userRole] is
    [c.Locals("user_role").(string)]: [None] when the local is missing or is
    not a string. The result is [None] for [c.Next()]. *)
Definition AdminOnly (userRole : option string) : option ErrorResponse :=
  match userRole with
  | Some role =>
      if negb (String.eqb role "admin")
      then Some {| Status := StatusForbidden; ErrorMessage := "Admin access required" |}
      else None
  | None => Some {| Status := StatusForbidden; ErrorMessage := "Admin access required" |}
  end.

Definition OrganizerOrAdmin (userRole : option string) : option ErrorResponse :=
  match userRole with
  | Some role =>
      if negb (String.eqb role "admin") && negb (String.eqb role "organizer")
      then Some {| Status := StatusForbidden; ErrorMessage := "Access denied" |}
      else None
  | None => Some {| Status := StatusForbidden; ErrorMessage := "Access denied" |}
  end.

Definition StaffOrAbove (userRole : option string) : option ErrorResponse :=
  match userRole with
  | None => Some {| Status := StatusForbidden; ErrorMessage := "Access denied" |}
  | Some role =>
      let allowedRoles (r : string) : bool :=
        String.eqb r "admin" || String.eqb r "organizer" || String.eqb r "staff" in
      if negb (allowedRoles role)
      then Some {| Status := StatusForbidden; ErrorMessage := "Access denied" |}
      else None
  end.

(* ================================================================== *)
(** ** Auxiliary definitions for the further properties *)

(** The rows the successful calls of a series returned, in call order. *)
Definition recorded (rs : list (result VerificationError VerificationResult))
  : list ActionLog.t :=
  flat_map (fun r => match r with
                     | Ok res => [ResultActionLog res]
                     | Err _ => []
                     end) rs.

(** The order of [verified_at DESC]: [x] may come before [y]. *)
Definition newer_first (x y : ActionLog.t) : Prop :=
  ActionLog.VerifiedAt y <= ActionLog.VerifiedAt x.

(** The rows [listForEvent] returns for a request, none when it fails. *)
Definition page_rows (eventID : string) (f : VerificationFilters) (s : Store)
  : list ActionLog.t :=
  match eval (GetEventVerifications eventID (Some f)) s with
  | Ok list => Verifications list
  | Err _ => []
  end.

(** The participant of a row is registered to the event. *)
Definition participant_of_event (eventID : string) (s : Store) (l : ActionLog.t)
  : bool :=
  existsb (fun p => String.eqb (Participant.ID p) (ActionLog.ParticipantID l)
                    && String.eqb (UUID_String (Participant.EventID p)) eventID)
          (participants s).

(** Primary keys: no two rows of a table share an identifier. *)
Definition participant_keys_unique (s : Store) : Prop :=
  NoDup (map Participant.ID (participants s)).

(* ================================================================== *)
(** ** The catalogue of events, days and actions *)

(** The writes of [eventRepo] on the catalogue. *)
Inductive catalogue_write : Type :=
| WriteCreateEvent (generated : UUID) (event : option Event.t)
| WriteSoftDeleteEvent (id : string)
| WriteCreateEventDay (generated : UUID) (day : option EventDay.t)
| WriteDeleteEventDay (id : string)
| WriteCreateEventAction (generated : UUID) (action : option EventAction.t)
| WriteDeleteEventAction (id : string).

Definition perform (w : catalogue_write) : DB (option error) :=
  match w with
  | WriteCreateEvent generated event => CreateEvent generated event
  | WriteSoftDeleteEvent id => SoftDeleteEvent id
  | WriteCreateEventDay generated day => CreateEventDay generated day
  | WriteDeleteEventDay id => DeleteEventDay id
  | WriteCreateEventAction generated action => CreateEventAction generated action
  | WriteDeleteEventAction id => DeleteEventAction id
  end.

(** A sequential series of catalogue writes over one store. *)
Fixpoint perform_all (ws : list catalogue_write) : DB (list (option error)) :=
  match ws with
  | [] => ret []
  | w :: rest =>
      e <- perform w ;;
      es <- perform_all rest ;;
      ret (e :: es)
  end.

Definition day_key (d : EventDay.t) : UUID * Z :=
  (EventDay.EventID d, EventDay.DayNumber d).

(** What the checks of the catalogue writes maintain: identifiers, slugs,
    action codes and the day numbers of an event are unique, every day
    belongs to an event and every action to a day. *)
Record catalogue_ok (s : Store) : Prop := {
  event_ids_unique : NoDup (map Event.ID (events s));
  slugs_unique : NoDup (map Event.Slug (events s));
  day_ids_unique : NoDup (map EventDay.ID (event_days s));
  day_numbers_unique : NoDup (map day_key (event_days s));
  action_ids_unique : NoDup (map EventAction.ID (event_actions s));
  codes_unique : NoDup (map EventAction.Code (event_actions s));
  days_have_events :
    forall d, In d (event_days s) -> In (EventDay.EventID d) (map Event.ID (events s));
  actions_have_days :
    forall a, In a (event_actions s) ->
              In (EventAction.EventDayID a) (map EventDay.ID (event_days s))
}.

(** The tables the catalogue writes leave alone. *)
Definition same_people (s s' : Store) : Prop :=
  users s' = users s /\ participants s' = participants s /\
  action_logs s' = action_logs s.

Definition empty_store : Store :=
  {| users := []; events := []; event_days := []; event_actions := [];
     participants := []; action_logs := [] |}.

(* ================================================================== *)
(** ** A catalogue built by the repository *)

Module Catalogue.

Definition g1 : UUID := "90000000-0000-4000-8000-000000000001".
Definition g2 : UUID := "90000000-0000-4000-8000-000000000002".
Definition g3 : UUID := "90000000-0000-4000-8000-000000000003".
Definition g4 : UUID := "90000000-0000-4000-8000-000000000004".

(** An event handed to [CreateEvent] with a zero identifier and
    [IsActive] unset. *)
Definition workshop : Event.t :=
  {| Event.ID := uuid_Nil; Event.Title := "Workshop"; Event.Slug := "workshop";
     Event.TicketPrice := 0%Q; Event.IsActive := false |}.

(** An action of the first conference day, handed to [CreateEventAction]
    with a zero identifier and [IsActive] unset. *)
Definition dinner : EventAction.t :=
  {| EventAction.ID := uuid_Nil;
     EventAction.EventID := Event.ID Sample.conference;
     EventAction.EventDayID := EventDay.ID Sample.conference_day1;
     EventAction.Name := "Dinner"; EventAction.Code := "DINNER";
     EventAction.IsActive := false |}.

(** The conference set up from nothing, with two writes the repository
    refuses: a second action under the code of the first, and the removal
    of a day that has an action. *)
Definition setup : list catalogue_write :=
  [ WriteCreateEvent g1 (Some Sample.conference);
    WriteCreateEventDay g2 (Some Sample.conference_day1);
    WriteCreateEventAction g3 (Some Sample.checkin);
    WriteCreateEventAction g4 (Some Sample.lunch);
    WriteCreateEventAction g4 (Some Sample.checkin);
    WriteDeleteEventDay (EventDay.ID Sample.conference_day1);
    WriteDeleteEventAction (EventAction.ID Sample.lunch);
    WriteSoftDeleteEvent (Event.ID Sample.conference) ].

(** Bob after his payment is recorded. *)
Definition bob_paid : Participant.t := set_payment_status "paid" Sample.bob.

End Catalogue.

(* ================================================================== *)
(** * Properties *)

(** ** The monad *)

Lemma bind_eval {A B} (m : DB A) (k : A -> DB B) (s : Store) :
  bind m k s = k (eval m s) (exec m s).
Proof. unfold bind, eval, exec. destruct (m s); reflexivity. Qed.

Lemma eval_exec {A} (m : DB A) (s : Store) : m s = (eval m s, exec m s).
Proof. unfold eval, exec. destruct (m s); reflexivity. Qed.

Lemma read_only_run {A} (m : DB A) (s : Store) :
  read_only m -> m s = (eval m s, s).
Proof. intros H. rewrite (eval_exec m s), H. reflexivity. Qed.

Lemma read_only_ret {A} (a : A) : read_only (ret a).
Proof. intros s; reflexivity. Qed.

Lemma read_only_query {A} (q : Store -> A) : read_only (query q).
Proof. intros s; reflexivity. Qed.

Lemma read_only_bind {A B} (m : DB A) (k : A -> DB B) :
  read_only m -> (forall a, read_only (k a)) -> read_only (bind m k).
Proof.
  intros Hm Hk s. unfold exec. rewrite bind_eval, Hm. apply Hk.
Qed.

Lemma bind_read_only {A B} (m : DB A) (k : A -> DB B) (s : Store) :
  read_only m -> bind m k s = k (eval m s) s.
Proof. intros H. rewrite bind_eval, H. reflexivity. Qed.

Create HintDb readonly.
#[local] Hint Resolve read_only_ret read_only_query : readonly.

(** Decomposes an action into binds, queries and case distinctions. *)
Ltac read_only_tac :=
  repeat first
    [ apply read_only_ret
    | apply read_only_query
    | solve [ auto with readonly ]
    | apply read_only_bind; [ | intros ]
    | match goal with
      | |- read_only (match ?x with _ => _ end) => destruct x
      end ].

(** ** The repositories only read, except [CreateActionLog] *)

Lemma GetParticipantByID_read_only id : read_only (GetParticipantByID id).
Proof. unfold GetParticipantByID. read_only_tac. Qed.

Lemma GetParticipantCountByEventID_read_only id :
  read_only (GetParticipantCountByEventID id).
Proof. unfold GetParticipantCountByEventID. read_only_tac. Qed.

Lemma GetEventByID_read_only id : read_only (GetEventByID id).
Proof. unfold GetEventByID. read_only_tac. Qed.

Lemma GetEventDayByID_read_only id : read_only (GetEventDayByID id).
Proof. unfold GetEventDayByID. read_only_tac. Qed.

Lemma GetEventActionByID_read_only id : read_only (GetEventActionByID id).
Proof. unfold GetEventActionByID. read_only_tac. Qed.

Lemma GetEventActionByCode_read_only code : read_only (GetEventActionByCode code).
Proof. unfold GetEventActionByCode. read_only_tac. Qed.

Lemma HasActionLog_read_only p a : read_only (HasActionLog p a).
Proof. unfold HasActionLog. read_only_tac. Qed.

Lemma GetActionLogsByParticipant_read_only p :
  read_only (GetActionLogsByParticipant p).
Proof. unfold GetActionLogsByParticipant. read_only_tac. Qed.

Lemma GetActionLogsByEvent_read_only e offset limit :
  read_only (GetActionLogsByEvent e offset limit).
Proof. unfold GetActionLogsByEvent. read_only_tac. Qed.

Lemma GetUserByID_read_only id : read_only (GetUserByID id).
Proof. unfold GetUserByID. read_only_tac. Qed.

#[local] Hint Resolve GetParticipantByID_read_only
  GetParticipantCountByEventID_read_only GetEventByID_read_only
  GetEventDayByID_read_only GetEventActionByID_read_only
  GetEventActionByCode_read_only HasActionLog_read_only
  GetActionLogsByParticipant_read_only GetActionLogsByEvent_read_only
  GetUserByID_read_only : readonly.

(** ** The read side of the service *)

Lemma extractParticipantFromQR_read_only lib qr :
  read_only (extractParticipantFromQR lib qr).
Proof. unfold extractParticipantFromQR. read_only_tac. Qed.

Lemma getAndValidateAction_read_only code : read_only (getAndValidateAction code).
Proof. unfold getAndValidateAction. read_only_tac. Qed.

Lemma isPaidEvent_read_only id : read_only (isPaidEvent id).
Proof. unfold isPaidEvent. read_only_tac. Qed.

Lemma checkEventDayValidity_read_only lib now id :
  read_only (checkEventDayValidity lib now id).
Proof. unfold checkEventDayValidity. read_only_tac. Qed.

#[local] Hint Resolve extractParticipantFromQR_read_only
  getAndValidateAction_read_only isPaidEvent_read_only
  checkEventDayValidity_read_only : readonly.

Lemma performVerificationChecks_read_only lib now p a :
  read_only (performVerificationChecks lib now p a).
Proof. unfold performVerificationChecks. read_only_tac. Qed.

#[local] Hint Resolve performVerificationChecks_read_only : readonly.

Lemma CanVerifyParticipant_read_only p a : read_only (CanVerifyParticipant p a).
Proof. unfold CanVerifyParticipant. read_only_tac. Qed.

Lemma RevertVerification_read_only v a : read_only (RevertVerification v a).
Proof. unfold RevertVerification. read_only_tac. Qed.

Lemma GetEventVerifications_read_only e f : read_only (GetEventVerifications e f).
Proof. unfold GetEventVerifications. read_only_tac. Qed.

Lemma GetVerificationStats_read_only env e : read_only (GetVerificationStats env e).
Proof.
  unfold GetVerificationStats, calculateVerificationStatistics. read_only_tac.
Qed.

(** ** The gates of the eligibility evaluator *)

Lemma eval_bind_read_only {A B} (m : DB A) (k : A -> DB B) (s : Store) :
  read_only m -> eval (bind m k) s = eval (k (eval m s)) s.
Proof. intros H. unfold eval at 1. rewrite bind_read_only by exact H. reflexivity. Qed.

Lemma float_gt0_spec (x : Q) : float_gt0 x = true <-> (0 < x)%Q.
Proof.
  unfold float_gt0, Qlt. simpl. rewrite Z.ltb_lt, Z.mul_1_r. reflexivity.
Qed.

Lemma float_gt0_zero (x : Q) : (x == 0)%Q -> float_gt0 x = false.
Proof.
  unfold float_gt0, Qeq. simpl. rewrite Z.mul_1_r. intros ->. reflexivity.
Qed.

Lemma isPaidEvent_eval id s :
  eval (isPaidEvent id) s =
  match eval (GetEventByID id) s with
  | Err _ => false
  | Ok event => float_gt0 (Event.TicketPrice event)
  end.
Proof.
  unfold isPaidEvent. rewrite eval_bind_read_only by auto with readonly.
  destruct (eval (GetEventByID id) s); reflexivity.
Qed.

Lemma checkEventDayValidity_eval lib now id s :
  eval (checkEventDayValidity lib now id) s =
  match eval (GetEventDayByID id) s with
  | Err _ => None
  | Ok day =>
      if Before now (Truncate (EventDay.Date day) (24 * Hour))
      then Some (not_started lib day) else None
  end.
Proof.
  unfold checkEventDayValidity. rewrite eval_bind_read_only by auto with readonly.
  destruct (eval (GetEventDayByID id) s) as [day|]; [|reflexivity].
  destruct (Before now _); reflexivity.
Qed.

(** [performVerificationChecks] is the four gates in their order. *)
Lemma performVerificationChecks_eval lib now p a s :
  eval (performVerificationChecks lib now p a) s =
  if payment_blocks s p then Some (payment_required p)
  else if already_verified s p a then Some (duplicate_verification a)
  else if event_mismatch p a then Some mismatch_error
  else eval (checkEventDayValidity lib now (UUID_String (EventAction.EventDayID a))) s.
Proof.
  unfold performVerificationChecks, payment_blocks.
  rewrite eval_bind_read_only by auto with readonly.
  destruct (eval (isPaidEvent _) s && negb _); [reflexivity|].
  rewrite eval_bind_read_only by auto with readonly.
  unfold HasActionLog at 1, query, eval at 2. cbn [fst].
  fold (already_verified s p a).
  destruct (already_verified s p a); [reflexivity|].
  unfold event_mismatch.
  destruct (negb (String.eqb _ _)); reflexivity.
Qed.

Lemma createVerificationRecord_run env p a v s :
  createVerificationRecord env p a v s =
  if existsb (fun l => String.eqb (ActionLog.ID l) (new_uuid env)) (action_logs s)
  then (Err (NewVerificationError "failed to create verification record"
               ErrDatabaseError
               (Some (errorString "duplicate key value violates unique constraint"))),
        s)
  else (Ok (new_log env p a v), insert_log (new_log env p a v) s).
Proof.
  unfold createVerificationRecord, bind, CreateActionLog. cbn [ActionLog.ID].
  destruct (existsb _ (action_logs s)); reflexivity.
Qed.

(** [verify] step by step: every step before the insert only reads. *)
Lemma VerifyParticipantAction_run lib env req s :
  VerifyParticipantAction lib env req s =
  match validateVerifyRequest req with
  | Some err => (Err err, s)
  | None =>
  match eval (extractParticipantFromQR lib (QRCodeData req)) s with
  | Err err => (Err err, s)
  | Ok p =>
  match eval (getAndValidateAction (ActionCode req)) s with
  | Err err => (Err err, s)
  | Ok a =>
  match eval (GetUserByID (VerifierID req)) s with
  | Err err =>
      (Err (NewVerificationError "verifier not found" ErrVerifierNotFound (Some err)), s)
  | Ok v =>
  match eval (performVerificationChecks lib (now env) p a) s with
  | Some err => (Err err, s)
  | None =>
      if existsb (fun l => String.eqb (ActionLog.ID l) (new_uuid env)) (action_logs s)
      then (Err (NewVerificationError "failed to create verification record"
                   ErrDatabaseError
                   (Some (errorString "duplicate key value violates unique constraint"))),
            s)
      else (Ok {| Success := true;
                  ResultMessage :=
                    "Successfully verified " ++ EventAction.Name a
                      ++ " for participant " ++ Participant.Name p;
                  ResultActionLog := new_log env p a v;
                  ResultParticipant := p;
                  ResultEventAction := a;
                  ResultVerifier := v;
                  Timestamp := now_result env |},
            insert_log (new_log env p a v) s)
  end end end end end.
Proof.
  unfold VerifyParticipantAction.
  destruct (validateVerifyRequest req); [reflexivity|].
  rewrite bind_read_only by auto with readonly.
  destruct (eval (extractParticipantFromQR _ _) s) as [p|]; [|reflexivity].
  rewrite bind_read_only by auto with readonly.
  destruct (eval (getAndValidateAction _) s) as [a|]; [|reflexivity].
  rewrite bind_read_only by auto with readonly.
  destruct (eval (GetUserByID _) s) as [v|]; [|reflexivity].
  rewrite bind_read_only by auto with readonly.
  destruct (eval (performVerificationChecks _ _ _ _) s); [reflexivity|].
  rewrite bind_eval. unfold eval, exec. rewrite createVerificationRecord_run.
  destruct (existsb _ (action_logs s)); reflexivity.
Qed.

(** ** The action lookups fail *)

(** [GetEventActionByCode] never returns a row: a row the query finds is
    lost to the preload, and a missing row is reported by a fresh error. *)
Lemma GetEventActionByCode_eval code s :
  eval (GetEventActionByCode code) s = Err (action_lookup_error code s).
Proof.
  unfold GetEventActionByCode, action_lookup_error.
  destruct (String.eqb code ""); [reflexivity|].
  unfold eval, query, First. cbn [fst].
  destruct (find _ (event_actions s)); reflexivity.
Qed.

(** Its error never is, and never wraps, [gorm.ErrRecordNotFound]. *)
Lemma action_lookup_error_kind code s :
  errors_Is_ErrRecordNotFound (action_lookup_error code s) = false.
Proof.
  unfold action_lookup_error. destruct (String.eqb code ""); [reflexivity|].
  destruct (find _ (event_actions s)); reflexivity.
Qed.

Lemma GetEventActionByID_eval id s :
  eval (GetEventActionByID id) s = Err (action_id_lookup_error id s).
Proof.
  unfold GetEventActionByID, action_id_lookup_error.
  destruct (String.eqb id ""); [reflexivity|].
  unfold eval, query, First. cbn [fst].
  destruct (find _ (event_actions s)); reflexivity.
Qed.

(** Step 3 of [verify] fails for every action code, with DatabaseError. *)
Lemma getAndValidateAction_eval code s :
  eval (getAndValidateAction code) s =
  Err (NewVerificationError "failed to get action" ErrDatabaseError
         (Some (action_lookup_error code s))).
Proof.
  unfold getAndValidateAction. rewrite eval_bind_read_only by auto with readonly.
  rewrite GetEventActionByCode_eval, action_lookup_error_kind. reflexivity.
Qed.

Lemma getAndValidateAction_code code s e :
  eval (getAndValidateAction code) s = Err e -> Code e = ErrDatabaseError.
Proof.
  rewrite getAndValidateAction_eval. intros [= <-]. reflexivity.
Qed.

(** ** Every [verify] call fails at one of its first three steps *)

Lemma VerifyParticipantAction_fails lib env req s :
  VerifyParticipantAction lib env req s = (Err (verify_error lib req s), s).
Proof.
  rewrite VerifyParticipantAction_run. unfold verify_error.
  destruct (validateVerifyRequest req); [reflexivity|].
  destruct (eval (extractParticipantFromQR _ _) s); [|reflexivity].
  rewrite getAndValidateAction_eval. reflexivity.
Qed.

Lemma eval_VerifyParticipantAction lib env req s :
  eval (VerifyParticipantAction lib env req) s = Err (verify_error lib req s).
Proof. unfold eval. rewrite VerifyParticipantAction_fails. reflexivity. Qed.

Lemma exec_VerifyParticipantAction lib env req s :
  exec (VerifyParticipantAction lib env req) s = s.
Proof. unfold exec. rewrite VerifyParticipantAction_fails. reflexivity. Qed.

Lemma same_registry_refl s : same_registry s s.
Proof. repeat split. Qed.

Lemma run_cons lib env req rest s :
  run lib ((env, req) :: rest) s =
  (eval (VerifyParticipantAction lib env req) s
     :: eval (run lib rest) (exec (VerifyParticipantAction lib env req) s),
   exec (run lib rest) (exec (VerifyParticipantAction lib env req) s)).
Proof.
  cbn [run]. rewrite bind_eval, bind_eval. reflexivity.
Qed.

Lemma eval_run_cons lib env req rest s :
  eval (run lib ((env, req) :: rest)) s =
  eval (VerifyParticipantAction lib env req) s
    :: eval (run lib rest) (exec (VerifyParticipantAction lib env req) s).
Proof. unfold eval at 1. rewrite run_cons. reflexivity. Qed.

Lemma exec_run_cons lib env req rest s :
  exec (run lib ((env, req) :: rest)) s =
  exec (run lib rest) (exec (VerifyParticipantAction lib env req) s).
Proof. unfold exec at 1. rewrite run_cons. reflexivity. Qed.

Lemma run_fails lib calls s : exec (run lib calls) s = s.
Proof.
  revert s. induction calls as [|[env req] rest IH]; intros s; [reflexivity|].
  rewrite exec_run_cons, exec_VerifyParticipantAction. apply IH.
Qed.

Lemma run_registry lib calls s : same_registry s (exec (run lib calls) s).
Proof. rewrite run_fails. apply same_registry_refl. Qed.

(** ** The rows of a pair *)

Lemma already_verified_false s p a :
  already_verified s p a = false ->
  logs_for (Participant.ID p) (EventAction.ID a) s = [].
Proof.
  unfold already_verified, Count, logs_for, UUID_String. intros H.
  destruct (filter _ (action_logs s)) as [|l ls]; [reflexivity|].
  cbn [List.length] in H. rewrite Z.gtb_ltb, Z.ltb_ge in H. lia.
Qed.

Lemma already_verified_true s p a :
  logs_for (Participant.ID p) (EventAction.ID a) s <> [] ->
  already_verified s p a = true.
Proof.
  intros H. destruct (already_verified s p a) eqn:E; [reflexivity|].
  apply already_verified_false in E. contradiction.
Qed.

Lemma same_pair_eq pid aid l :
  same_pair pid aid l = true <->
  ActionLog.ParticipantID l = pid /\ ActionLog.ActionID l = aid.
Proof.
  unfold same_pair, UUID_String.
  rewrite andb_true_iff, !String.eqb_eq. reflexivity.
Qed.

(** ** The invariant is kept by every call, hence by every series *)

Lemma run_AtMostOnce lib calls s :
  AtMostOnce s -> AtMostOnce (exec (run lib calls) s).
Proof. rewrite run_fails. auto. Qed.

(** ** At most one call of a series redeems a pair *)

Lemma redemptions_cons pid aid r rs :
  redemptions pid aid (r :: rs) =
  ((if redeems pid aid r then 1 else 0) + redemptions pid aid rs)%nat.
Proof. unfold redemptions. cbn [filter]. destruct (redeems pid aid r); reflexivity. Qed.

(** No call of a series redeems a pair. *)
Lemma run_redemptions lib calls pid aid s :
  redemptions pid aid (eval (run lib calls) s) = 0%nat.
Proof.
  revert s. induction calls as [|[env req] rest IH]; intros s; [reflexivity|].
  rewrite eval_run_cons, redemptions_cons, eval_VerifyParticipantAction.
  cbn [redeems]. rewrite IH. reflexivity.
Qed.

(** ** The identity resolver *)

Lemma First_found {A} (cond : A -> bool) table row :
  First cond table = Ok row -> cond row = true.
Proof.
  unfold First. destruct (find cond table) eqn:E; [|discriminate].
  intros [= <-]. apply find_some in E. apply E.
Qed.

Lemma extractParticipantFromQR_eval lib qr s p :
  eval (extractParticipantFromQR lib qr) s = Ok p ->
  exists id, eval (GetParticipantByID id) s = Ok p.
Proof.
  unfold extractParticipantFromQR.
  assert (L : forall id,
    eval (r <- GetParticipantByID id ;;
          match r with
          | Err err =>
              if errors_Is_ErrRecordNotFound err
              then ret (Err (NewVerificationError "participant not found"
                               ErrParticipantNotFound (Some err)))
              else ret (Err (NewVerificationError "failed to get participant"
                               ErrDatabaseError (Some err)))
          | Ok participant => ret (Ok participant)
          end) s = Ok p ->
    eval (GetParticipantByID id) s = Ok p).
  { intros id. rewrite eval_bind_read_only by auto with readonly.
    destruct (eval (GetParticipantByID id) s) as [q|err];
      [intros [= ->]; reflexivity|].
    destruct (errors_Is_ErrRecordNotFound err); discriminate. }
  destruct (ExtractUUIDFromQRPath lib qr) as [id|].
  - intros H. exists id. apply L, H.
  - destruct (uuid_Parse lib qr); [discriminate|].
    intros H. exists qr. apply L, H.
Qed.

Lemma GetParticipantByID_id id s p :
  eval (GetParticipantByID id) s = Ok p -> UUID_String (Participant.ID p) = id.
Proof.
  unfold GetParticipantByID, eval, query. cbn [fst]. intros H.
  apply First_found in H. apply andb_true_iff in H. destruct H as [H _].
  apply String.eqb_eq in H. exact H.
Qed.

(** ** At-most-once redemption *)

(** C1. At-most-once redemption. From a store with at most one ActionLog
    per (participant, action) pair, every sequential series of [verify]
    calls ends in such a store again, and at most one call of the series
    succeeds for a given pair. Once the pair has an ActionLog, every
    further call whose credential resolves to the participant and whose
    action code is the code of the action fails and leaves the store as it
    is, and the eligibility evaluator refuses the pair: with AlreadyVerified
    whenever its payment gate passes, with PaymentRequired otherwise. *)
Theorem at_most_once_redemption (lib : GoLib) (s : Store)
    (calls : list (Env * VerifyRequest)) (pid aid : UUID) :
  AtMostOnce s ->
  AtMostOnce (exec (run lib calls) s) /\
  (redemptions pid aid (eval (run lib calls) s) <= 1)%nat /\
  (forall env req p a,
      eval (extractParticipantFromQR lib (QRCodeData req)) (exec (run lib calls) s)
        = Ok p ->
      In a (event_actions (exec (run lib calls) s)) ->
      EventAction.Code a = ActionCode req ->
      Participant.ID p = pid -> EventAction.ID a = aid ->
      logs_for pid aid (exec (run lib calls) s) <> [] ->
      (exists e,
         VerifyParticipantAction lib env req (exec (run lib calls) s)
           = (Err e, exec (run lib calls) s)) /\
      eval (performVerificationChecks lib (now env) p a) (exec (run lib calls) s)
        = Some (if payment_blocks (exec (run lib calls) s) p
                then payment_required p
                else duplicate_verification a)).
Proof.
  intros Inv. split; [apply run_AtMostOnce, Inv|].
  split; [rewrite run_redemptions; lia|].
  intros env req p a Hp Hin Hcode Hpid Haid Hlogs. subst pid aid.
  split.
  - eexists. apply VerifyParticipantAction_fails.
  - rewrite performVerificationChecks_eval.
    rewrite (already_verified_true _ _ _ Hlogs).
    destruct (payment_blocks _ p); reflexivity.
Qed.

(** ** Which step produces which error *)

Lemma validateVerifyRequest_code req e :
  validateVerifyRequest req = Some e -> Code e = ErrInvalidInput.
Proof.
  unfold validateVerifyRequest.
  destruct (String.eqb (QRCodeData req) ""); [intros [= <-]; reflexivity|].
  destruct (String.eqb (ActionCode req) ""); [intros [= <-]; reflexivity|].
  destruct (String.eqb (VerifierID req) ""); [intros [= <-]; reflexivity|].
  discriminate.
Qed.

Lemma extractParticipantFromQR_code lib qr s e :
  eval (extractParticipantFromQR lib qr) s = Err e ->
  Code e = ErrInvalidQRCode \/ Code e = ErrParticipantNotFound
  \/ Code e = ErrDatabaseError.
Proof.
  unfold extractParticipantFromQR.
  assert (L : forall id,
    eval (r <- GetParticipantByID id ;;
          match r with
          | Err err =>
              if errors_Is_ErrRecordNotFound err
              then ret (Err (NewVerificationError "participant not found"
                               ErrParticipantNotFound (Some err)))
              else ret (Err (NewVerificationError "failed to get participant"
                               ErrDatabaseError (Some err)))
          | Ok participant => ret (Ok participant)
          end) s = Err e ->
    Code e = ErrInvalidQRCode \/ Code e = ErrParticipantNotFound
    \/ Code e = ErrDatabaseError).
  { intros id. rewrite eval_bind_read_only by auto with readonly.
    destruct (eval (GetParticipantByID id) s) as [q|err]; [discriminate|].
    destruct (errors_Is_ErrRecordNotFound err); intros [= <-]; cbn; auto. }
  destruct (ExtractUUIDFromQRPath lib qr) as [id|]; [apply L|].
  destruct (uuid_Parse lib qr); [intros [= <-]; cbn; auto|apply L].
Qed.

Lemma checkEventDayValidity_code lib now id s e :
  eval (checkEventDayValidity lib now id) s = Some e -> Code e = ErrEventNotStarted.
Proof.
  rewrite checkEventDayValidity_eval.
  destruct (eval (GetEventDayByID id) s); [|discriminate].
  destruct (Before now _); [|discriminate]. intros [= <-]. reflexivity.
Qed.

(** The evaluator reports PaymentRequired exactly when the payment gate
    blocks. *)
Lemma performVerificationChecks_payment lib now p a s :
  code_of (eval (performVerificationChecks lib now p a) s) = Some ErrPaymentRequired
  <-> payment_blocks s p = true.
Proof.
  rewrite performVerificationChecks_eval.
  destruct (payment_blocks s p); [split; reflexivity|].
  destruct (already_verified s p a); [split; discriminate|].
  destruct (event_mismatch p a); [split; discriminate|].
  destruct (eval (checkEventDayValidity _ _ _) s) as [e|] eqn:E;
    [|split; discriminate].
  apply checkEventDayValidity_code in E. cbn. rewrite E. split; discriminate.
Qed.

(** The codes a call can fail with are those of its first three steps. *)
Lemma VerifyParticipantAction_codes lib env req s :
  exists c,
    err_code (eval (VerifyParticipantAction lib env req) s) = Some c /\
    (c = ErrInvalidInput \/ c = ErrInvalidQRCode \/ c = ErrParticipantNotFound
     \/ c = ErrDatabaseError).
Proof.
  rewrite eval_VerifyParticipantAction. unfold verify_error.
  destruct (validateVerifyRequest req) as [e|] eqn:Hv.
  { apply validateVerifyRequest_code in Hv. exists (Code e). cbn. auto. }
  destruct (eval (extractParticipantFromQR _ _) s) as [p|e] eqn:Hp.
  - eexists. split; [reflexivity|]. cbn. auto.
  - apply extractParticipantFromQR_code in Hp. exists (Code e). cbn.
    split; [reflexivity|]. tauto.
Qed.

(** No call fails with PaymentRequired: the payment gate is never reached. *)
Lemma VerifyParticipantAction_payment lib env req s :
  err_code (eval (VerifyParticipantAction lib env req) s) <> Some ErrPaymentRequired.
Proof.
  rewrite eval_VerifyParticipantAction. unfold verify_error.
  destruct (validateVerifyRequest req) as [e|] eqn:Hv.
  { apply validateVerifyRequest_code in Hv. cbn. rewrite Hv. discriminate. }
  destruct (eval (extractParticipantFromQR _ _) s) as [p|e] eqn:Hp.
  - cbn. discriminate.
  - apply extractParticipantFromQR_code in Hp. cbn.
    destruct Hp as [H|[H|H]]; rewrite H; discriminate.
Qed.

Lemma payment_blocks_spec s p :
  payment_blocks s p = true <->
  exists ev,
    eval (GetEventByID (UUID_String (Participant.EventID p))) s = Ok ev /\
    (0 < Event.TicketPrice ev)%Q /\ Participant.PaymentStatus p <> "paid".
Proof.
  unfold payment_blocks. rewrite isPaidEvent_eval, andb_true_iff, negb_true_iff.
  rewrite String.eqb_neq.
  destruct (eval (GetEventByID _) s) as [ev|err].
  - rewrite float_gt0_spec. split.
    + intros [H1 H2]. exists ev. auto.
    + intros (ev' & [= <-] & H1 & H2). auto.
  - split; [intros [[=] _]|intros (ev & [=] & _)].
Qed.

(** ** Payment gate *)

Lemma payment_blocks_with_status s p status :
  eval (isPaidEvent (UUID_String (Participant.EventID p))) s = false ->
  payment_blocks s (with_status status p) = false.
Proof. unfold payment_blocks. cbn [with_status Participant.EventID]. intros ->. reflexivity. Qed.

(** When the event of the participant is not a paid event, the verdict of
    the evaluator is the same for every payment status. *)
Lemma performVerificationChecks_free lib now s p a status :
  eval (isPaidEvent (UUID_String (Participant.EventID p))) s = false ->
  eval (performVerificationChecks lib now (with_status status p) a) s =
  eval (performVerificationChecks lib now p a) s.
Proof.
  intros H. rewrite !performVerificationChecks_eval.
  rewrite (payment_blocks_with_status s p status H).
  unfold payment_blocks. rewrite H. reflexivity.
Qed.

(** C2. Payment gating. When the event of the participant resolves and its
    ticket price is positive, the eligibility evaluator fails with
    PaymentRequired if and only if the payment status is not "paid", and
    the message carries the status. When the ticket price is zero, no
    payment status makes the evaluator fail with PaymentRequired, the
    verdict of the evaluator does not depend on the status, and no [verify]
    call whose credential resolves to the participant fails with
    PaymentRequired. *)
Theorem payment_gating (lib : GoLib) (now : Time) (s : Store)
    (p : Participant.t) (a : EventAction.t) (ev : Event.t) :
  eval (GetEventByID (UUID_String (Participant.EventID p))) s = Ok ev ->
  ((0 < Event.TicketPrice ev)%Q ->
     (code_of (eval (performVerificationChecks lib now p a) s) = Some ErrPaymentRequired
      <-> Participant.PaymentStatus p <> "paid") /\
     (Participant.PaymentStatus p <> "paid" ->
      eval (performVerificationChecks lib now p a) s =
      Some {| Message := "participant payment status is '"
                           ++ Participant.PaymentStatus p ++ "'";
              Code := ErrPaymentRequired;
              Details := None |})) /\
  ((Event.TicketPrice ev == 0)%Q ->
     (forall status,
        code_of (eval (performVerificationChecks lib now (with_status status p) a) s)
          <> Some ErrPaymentRequired /\
        eval (performVerificationChecks lib now (with_status status p) a) s =
        eval (performVerificationChecks lib now p a) s) /\
     (forall env req,
        eval (extractParticipantFromQR lib (QRCodeData req)) s = Ok p ->
        err_code (eval (VerifyParticipantAction lib env req) s)
          <> Some ErrPaymentRequired)).
Proof.
  intros Hev. split.
  - intros Hprice.
    assert (Hb : payment_blocks s p = true <-> Participant.PaymentStatus p <> "paid").
    { rewrite payment_blocks_spec. split.
      - intros (ev' & _ & _ & H). exact H.
      - intros H. exists ev. auto. }
    split; [rewrite performVerificationChecks_payment; exact Hb|].
    intros H. apply Hb in H. rewrite performVerificationChecks_eval, H. reflexivity.
  - intros Hzero.
    assert (Hfree : eval (isPaidEvent (UUID_String (Participant.EventID p))) s = false).
    { rewrite isPaidEvent_eval, Hev. apply float_gt0_zero, Hzero. }
    split.
    + intros status. split; [|apply performVerificationChecks_free, Hfree].
      rewrite performVerificationChecks_payment.
      rewrite (payment_blocks_with_status s p status Hfree). discriminate.
    + intros env req Hp. apply VerifyParticipantAction_payment.
Qed.

(** C10. Payment gate, fail-open. When the Event record of the participant
    cannot be fetched, the payment gate treats the event as free: whatever
    the payment status, neither the evaluator, nor a [verify] call whose
    credential resolves to the participant, nor a [canVerify] call for the
    participant fails with PaymentRequired. *)
Theorem payment_gate_fail_open (lib : GoLib) (s : Store) (p : Participant.t)
    (err : error) :
  eval (GetEventByID (UUID_String (Participant.EventID p))) s = Err err ->
  eval (isPaidEvent (UUID_String (Participant.EventID p))) s = false /\
  (forall status now a,
     code_of (eval (performVerificationChecks lib now (with_status status p) a) s)
       <> Some ErrPaymentRequired) /\
  (forall env req,
     eval (extractParticipantFromQR lib (QRCodeData req)) s = Ok p ->
     err_code (eval (VerifyParticipantAction lib env req) s)
       <> Some ErrPaymentRequired) /\
  (forall participantID actionID,
     eval (GetParticipantByID participantID) s = Ok p ->
     code_of (snd (eval (CanVerifyParticipant participantID actionID) s))
       <> Some ErrPaymentRequired).
Proof.
  intros Hev.
  assert (Hfree : eval (isPaidEvent (UUID_String (Participant.EventID p))) s = false).
  { rewrite isPaidEvent_eval, Hev. reflexivity. }
  split; [exact Hfree|]. split; [|split].
  - intros status now a. rewrite performVerificationChecks_payment.
    rewrite (payment_blocks_with_status s p status Hfree). discriminate.
  - intros env req Hp. apply VerifyParticipantAction_payment.
  - intros pid aid Hp. unfold CanVerifyParticipant.
    destruct (String.eqb pid "" || String.eqb aid ""); [discriminate|].
    rewrite eval_bind_read_only, Hp by auto with readonly.
    rewrite eval_bind_read_only by auto with readonly.
    destruct (eval (GetEventActionByID aid) s) as [a|]; [|discriminate].
    rewrite eval_bind_read_only, Hfree by auto with readonly.
    cbn [andb]. rewrite eval_bind_read_only by auto with readonly.
    unfold HasActionLog at 1, query, eval at 2. cbn [fst].
    destruct (Count _ _ >? 0); [discriminate|].
    destruct (negb (String.eqb _ _)); discriminate.
Qed.

(** ** Temporal gate *)

Lemma Before_spec (t u : Time) : Before t u = true <-> t < u.
Proof. apply Z.ltb_lt. Qed.

Lemma day_positive : 0 < 24 * Hour.
Proof. reflexivity. Qed.

(** Comparing with a boundary: truncating the current time as well changes
    nothing. *)
Lemma Before_Truncate (d now date : Z) :
  0 < d -> now < Truncate date d <-> Truncate now d < Truncate date d.
Proof.
  intros Hd. unfold Truncate.
  destruct (d <=? 0) eqn:E; [apply Z.leb_le in E; lia|].
  pose proof (Z.mod_pos_bound now d Hd) as Hn.
  pose proof (Z.div_mod now d ltac:(lia)) as Hnow.
  pose proof (Z.div_mod date d ltac:(lia)) as Hdate.
  assert (En : now - now mod d = d * (now / d)) by lia.
  assert (Ed : date - date mod d = d * (date / d)) by lia.
  rewrite En, Ed. split; intros H.
  - assert (now / d < date / d); [|nia].
    apply Z.nle_gt. intros Hle.
    assert (d * (date / d) <= d * (now / d)) by nia. lia.
  - assert (now / d < date / d) by nia.
    assert (d * (now / d) + d <= d * (date / d)) by nia. lia.
Qed.

Lemma Before_Truncate_day (now date : Time) :
  now < Truncate date (24 * Hour)
  <-> Truncate now (24 * Hour) < Truncate date (24 * Hour).
Proof. apply Before_Truncate, day_positive. Qed.

(** Comparing with the boundary of a day is comparing the numbers of the
    days. *)
Lemma Before_Truncate_index (d now date : Z) :
  0 < d -> now < Truncate date d <-> now / d < date / d.
Proof.
  intros Hd. unfold Truncate.
  destruct (d <=? 0) eqn:E; [apply Z.leb_le in E; lia|].
  pose proof (Z.mod_pos_bound now d Hd) as Hn.
  pose proof (Z.div_mod now d ltac:(lia)) as Hnow.
  pose proof (Z.div_mod date d ltac:(lia)) as Hdate.
  assert (Ed : date - date mod d = d * (date / d)) by lia.
  rewrite Ed. split; intros H.
  - apply Z.nle_gt. intros Hle.
    assert (d * (date / d) <= d * (now / d)) by nia. lia.
  - assert (d * (now / d) + d <= d * (date / d)) by nia. lia.
Qed.

(** C7. Temporal gate with fail-open fallback. When the EventDay of the
    action resolves, the temporal gate of [verify] fails, with
    EventNotStarted, if and only if the current time is before the date of
    the EventDay truncated to the day boundary, that is, if and only if the
    current time falls on an earlier day than the date; the evaluator fails
    with EventNotStarted exactly when the three earlier gates pass and the
    temporal gate fails; and before the day, a [verify] call whose
    credential resolves to the participant and whose code is the code of the
    action fails and leaves the store as it is. When the EventDay cannot be
    resolved, the gate returns no error, the verdict of the evaluator is the
    verdict of the three earlier gates alone, and a [verify] call whose code
    names only actions of that EventDay does not fail with
    EventNotStarted. *)
Theorem temporal_gate (lib : GoLib) (t : Time) (s : Store)
    (p : Participant.t) (a : EventAction.t) :
  (forall day,
     eval (GetEventDayByID (UUID_String (EventAction.EventDayID a))) s = Ok day ->
     (code_of (eval (checkEventDayValidity lib t
                       (UUID_String (EventAction.EventDayID a))) s)
        = Some ErrEventNotStarted
      <-> t < Truncate (EventDay.Date day) (24 * Hour)) /\
     (code_of (eval (checkEventDayValidity lib t
                       (UUID_String (EventAction.EventDayID a))) s)
        = Some ErrEventNotStarted
      <-> t / (24 * Hour) < EventDay.Date day / (24 * Hour)) /\
     (~ t < Truncate (EventDay.Date day) (24 * Hour) ->
      eval (checkEventDayValidity lib t
              (UUID_String (EventAction.EventDayID a))) s = None) /\
     (code_of (eval (performVerificationChecks lib t p a) s)
        = Some ErrEventNotStarted
      <-> payment_blocks s p = false /\ already_verified s p a = false /\
          event_mismatch p a = false /\
          t < Truncate (EventDay.Date day) (24 * Hour)) /\
     (t < Truncate (EventDay.Date day) (24 * Hour) ->
      forall env req,
        now env = t ->
        eval (extractParticipantFromQR lib (QRCodeData req)) s = Ok p ->
        In a (event_actions s) ->
        EventAction.Code a = ActionCode req ->
        exists e, VerifyParticipantAction lib env req s = (Err e, s))) /\
  (forall err,
     eval (GetEventDayByID (UUID_String (EventAction.EventDayID a))) s = Err err ->
     eval (checkEventDayValidity lib t
             (UUID_String (EventAction.EventDayID a))) s = None /\
     eval (performVerificationChecks lib t p a) s =
       (if payment_blocks s p then Some (payment_required p)
        else if already_verified s p a then Some (duplicate_verification a)
        else if event_mismatch p a then Some mismatch_error
        else None) /\
     (forall env req,
        (forall a', In a' (event_actions s) ->
                    EventAction.Code a' = ActionCode req ->
                    EventAction.EventDayID a' = EventAction.EventDayID a) ->
        err_code (eval (VerifyParticipantAction lib env req) s)
          <> Some ErrEventNotStarted)).
Proof.
  split.
  - intros day Hday.
    assert (G : code_of (eval (checkEventDayValidity lib t
                                 (UUID_String (EventAction.EventDayID a))) s)
                  = Some ErrEventNotStarted
                <-> t < Truncate (EventDay.Date day) (24 * Hour)).
    { rewrite checkEventDayValidity_eval, Hday, <- Before_spec.
      destruct (Before t _); split; (reflexivity || discriminate). }
    split; [exact G|]. split; [|split; [|split]].
    + rewrite G. apply Before_Truncate_index, day_positive.
    + intros H. rewrite checkEventDayValidity_eval, Hday.
      rewrite <- Before_spec in H. destruct (Before t _); [contradiction H|]; reflexivity.
    + rewrite performVerificationChecks_eval.
      destruct (payment_blocks s p); [split; [discriminate|intros [[=] _]]|].
      destruct (already_verified s p a); [split; [discriminate|intros (_ & [=] & _)]|].
      destruct (event_mismatch p a); [split; [discriminate|intros (_ & _ & [=] & _)]|].
      rewrite G. split; [auto|intros (_ & _ & _ & H); exact H].
    + intros _ env req _ _ _ _. eexists. apply VerifyParticipantAction_fails.
  - intros err Hday.
    assert (G : eval (checkEventDayValidity lib t
                        (UUID_String (EventAction.EventDayID a))) s = None).
    { rewrite checkEventDayValidity_eval, Hday. reflexivity. }
    split; [exact G|]. split; [rewrite performVerificationChecks_eval, G; reflexivity|].
    intros env req _.
    destruct (VerifyParticipantAction_codes lib env req s) as (c & -> & Hc).
    destruct Hc as [ -> | [ -> | [ -> | -> ] ] ]; discriminate.
Qed.

(** ** Event-consistency gate *)

Lemma event_mismatch_spec p a :
  event_mismatch p a = true <-> EventAction.EventID a <> Participant.EventID p.
Proof. unfold event_mismatch. rewrite negb_true_iff. apply String.eqb_neq. Qed.

(** C4. Event-consistency gate. When the event of the action differs from
    the event of the participant, the eligibility evaluator fails: with
    PaymentRequired when the payment gate blocks, otherwise with
    AlreadyVerified when the pair already has an ActionLog, and with
    EventMismatch exactly when both earlier gates pass. A [verify] call
    whose credential resolves to the participant and whose code is the code
    of the action fails and leaves the store as it is. *)
Theorem event_consistency_gate (lib : GoLib) (t : Time) (s : Store)
    (p : Participant.t) (a : EventAction.t) :
  EventAction.EventID a <> Participant.EventID p ->
  eval (performVerificationChecks lib t p a) s =
    Some (if payment_blocks s p then payment_required p
          else if already_verified s p a then duplicate_verification a
          else mismatch_error) /\
  (code_of (eval (performVerificationChecks lib t p a) s) = Some ErrEventMismatch
   <-> payment_blocks s p = false /\ already_verified s p a = false) /\
  (forall env req,
     now env = t ->
     eval (extractParticipantFromQR lib (QRCodeData req)) s = Ok p ->
     In a (event_actions s) ->
     EventAction.Code a = ActionCode req ->
     exists e, VerifyParticipantAction lib env req s = (Err e, s)).
Proof.
  intros Hne. apply event_mismatch_spec in Hne.
  assert (G : eval (performVerificationChecks lib t p a) s =
              Some (if payment_blocks s p then payment_required p
                    else if already_verified s p a then duplicate_verification a
                    else mismatch_error)).
  { rewrite performVerificationChecks_eval, Hne.
    destruct (payment_blocks s p), (already_verified s p a); reflexivity. }
  split; [exact G|]. split.
  - rewrite G.
    destruct (payment_blocks s p), (already_verified s p a); cbn;
      split; try discriminate; auto; intros [H1 H2]; discriminate.
  - intros env req _ _ _ _. eexists. apply VerifyParticipantAction_fails.
Qed.

(** ** Action lookup *)

Lemma performVerificationChecks_codes lib t p a s e :
  eval (performVerificationChecks lib t p a) s = Some e ->
  Code e = ErrPaymentRequired \/ Code e = ErrAlreadyVerified \/
  Code e = ErrEventMismatch \/ Code e = ErrEventNotStarted.
Proof.
  rewrite performVerificationChecks_eval.
  destruct (payment_blocks s p); [intros [= <-]; auto|].
  destruct (already_verified s p a); [intros [= <-]; auto|].
  destruct (event_mismatch p a); [intros [= <-]; auto|].
  intros H. apply checkEventDayValidity_code in H. auto.
Qed.

(** No call fails with ActionNotFound or ActionInactive. *)
Lemma VerifyParticipantAction_action_codes lib env req s :
  err_code (eval (VerifyParticipantAction lib env req) s) <> Some ErrActionNotFound /\
  err_code (eval (VerifyParticipantAction lib env req) s) <> Some ErrActionInactive.
Proof.
  rewrite eval_VerifyParticipantAction. unfold verify_error.
  destruct (validateVerifyRequest req) as [e|] eqn:Hv.
  { apply validateVerifyRequest_code in Hv. cbn. rewrite Hv. split; discriminate. }
  destruct (eval (extractParticipantFromQR _ _) s) as [p|e] eqn:Hp.
  - cbn. split; discriminate.
  - apply extractParticipantFromQR_code in Hp. cbn.
    destruct Hp as [H|[H|H]]; rewrite H; split; discriminate.
Qed.

(** C3. Action lookup, on inputs where the code departs from the
    specification. In
    the sample store no action has the code NOPE, and the action with the
    code LUNCH1 is inactive; [verify] fails in both cases, creates no
    ActionLog, and reports DatabaseError where the specification says
    ActionNotFound, respectively ActionInactive. *)
Theorem action_lookup_database_error :
  (forall a, In a (event_actions (Sample.store [])) -> EventAction.Code a <> "NOPE") /\
  VerifyParticipantAction Sample.lib (Sample.env_at Cases.morning Cases.id1)
      Cases.alice_unknown_code (Sample.store [])
    = (Err {| Message := "failed to get action";
              Code := ErrDatabaseError;
              Details := Some (errorString "event action not found with code: NOPE") |},
       Sample.store []) /\
  In Sample.lunch (event_actions (Sample.store [])) /\
  EventAction.Code Sample.lunch = "LUNCH1" /\
  EventAction.IsActive Sample.lunch = false /\
  VerifyParticipantAction Sample.lib (Sample.env_at Cases.morning Cases.id1)
      Cases.alice_lunch (Sample.store [])
    = (Err {| Message := "failed to get action";
              Code := ErrDatabaseError;
              Details := Some (errorString "event action not found with code: LUNCH1") |},
       Sample.store []).
Proof.
  split.
  { intros a [<-|[<-|[<-|[]]]]; discriminate. }
  split; [vm_compute; reflexivity|].
  split; [right; left; reflexivity|].
  split; [reflexivity|]. split; [reflexivity|]. vm_compute; reflexivity.
Qed.

(** ** Statistics *)

Lemma insert_desc_length l rows :
  List.length (insert_desc l rows) = S (List.length rows).
Proof.
  induction rows as [|x rest IH]; [reflexivity|]. cbn [insert_desc].
  destruct (ActionLog.VerifiedAt x <=? ActionLog.VerifiedAt l); cbn [List.length];
    [reflexivity|]. rewrite IH. reflexivity.
Qed.

Lemma order_verified_at_desc_length rows :
  List.length (order_verified_at_desc rows) = List.length rows.
Proof.
  induction rows as [|l rest IH]; [reflexivity|].
  cbn [order_verified_at_desc fold_right]. rewrite insert_desc_length.
  cbn [List.length]. f_equal. exact IH.
Qed.

(** The page the statistics count holds one row at most. *)
Lemma first_page_of_one_length eventID s :
  Z.of_nat (List.length
              (OffsetLimit 0 1 (order_verified_at_desc (logs_of_event eventID s))))
  = Z.min 1 (Z.of_nat (List.length (logs_of_event eventID s))).
Proof.
  unfold OffsetLimit. cbn [Z.to_nat Pos.to_nat Pos.iter_op Nat.add skipn].
  rewrite length_firstn, order_verified_at_desc_length. lia.
Qed.

Lemma calculateVerificationStatistics_run env eventID totalParticipants s :
  calculateVerificationStatistics env eventID totalParticipants s =
  (let totalVerifications :=
     Z.min 1 (Z.of_nat (List.length (logs_of_event eventID s))) in
   (Ok {| StatsEventID := "";
          EventTitle := "";
          TotalVerifications := totalVerifications;
          UniqueParticipants := totalVerifications;
          VerificationRate :=
            if totalParticipants >? 0
            then (inject_Z totalVerifications / inject_Z totalParticipants)%Q
            else 0%Q;
          MostVerifiedAction := "General Admission";
          TopVerifier := "System";
          LastVerification := now_result env;
          TodayVerifications := 0 |}, s)).
Proof.
  unfold calculateVerificationStatistics.
  rewrite bind_read_only by auto with readonly.
  unfold GetActionLogsByEvent at 1, query, eval at 1. cbn [fst].
  rewrite first_page_of_one_length. reflexivity.
Qed.

(** What [statsForEvent] returns for an event that exists: the number of
    verifications is the size of a page of one row, not the total. *)
Lemma GetVerificationStats_eval env eventID s ev :
  eventID <> "" ->
  eval (GetEventByID eventID) s = Ok ev ->
  GetVerificationStats env eventID s =
  (let totalVerifications :=
     Z.min 1 (Z.of_nat (List.length (logs_of_event eventID s))) in
   let totalParticipants :=
     Count (fun p => String.eqb (UUID_String (Participant.EventID p)) eventID
                     && live p) (participants s) in
   (Ok {| StatsEventID := eventID;
          EventTitle := Event.Title ev;
          TotalVerifications := totalVerifications;
          UniqueParticipants := totalVerifications;
          VerificationRate :=
            if totalParticipants >? 0
            then (inject_Z totalVerifications / inject_Z totalParticipants)%Q
            else 0%Q;
          MostVerifiedAction := "General Admission";
          TopVerifier := "System";
          LastVerification := now_result env;
          TodayVerifications := 0 |}, s)).
Proof.
  intros Hne Hev. unfold GetVerificationStats.
  apply String.eqb_neq in Hne. rewrite Hne.
  rewrite bind_read_only, Hev by auto with readonly.
  rewrite bind_read_only by auto with readonly.
  unfold GetParticipantCountByEventID at 1, query, eval at 1. cbn [fst].
  rewrite bind_eval. unfold eval, exec.
  rewrite calculateVerificationStatistics_run. reflexivity.
Qed.

(** C6. Statistics by event, on an input where the code departs from the
    specification. Two ActionLog rows belong to participants of the
    conference, which has two participants; [statsForEvent] reports one
    verification, one unique participant and a rate of one half, where the
    specification says two, two and one. *)
Theorem stats_count_one_row_page :
  List.length (logs_of_event (Event.ID Sample.conference) Cases.two_checkins) = 2%nat /\
  eval (GetParticipantCountByEventID (Event.ID Sample.conference)) Cases.two_checkins
    = Ok 2 /\
  exists stats,
    GetVerificationStats (Sample.env_at Cases.morning Cases.id3)
        (Event.ID Sample.conference) Cases.two_checkins
      = (Ok stats, Cases.two_checkins) /\
    TotalVerifications stats = 1 /\
    UniqueParticipants stats = 1 /\
    VerificationRate stats = (1 # 2)%Q.
Proof.
  split; [vm_compute; reflexivity|]. split; [vm_compute; reflexivity|].
  eexists. split; [vm_compute; reflexivity|].
  split; [reflexivity|]. split; reflexivity.
Qed.

(** ** Dry run *)

(** [canVerify] never answers true: its action lookup fails for every
    identifier, so none of its gates is reached. *)
Lemma CanVerifyParticipant_run participantID actionID s :
  CanVerifyParticipant participantID actionID s =
  ((false, Some (canVerify_error participantID actionID s)), s).
Proof.
  unfold CanVerifyParticipant, canVerify_error.
  destruct (String.eqb participantID "" || String.eqb actionID ""); [reflexivity|].
  rewrite bind_read_only by auto with readonly.
  destruct (eval (GetParticipantByID participantID) s); [|reflexivity].
  rewrite bind_read_only by auto with readonly.
  rewrite GetEventActionByID_eval. reflexivity.
Qed.

(** C9. Dry-run equivalence, on an input where the code departs from the
    specification. On the morning of the conference day Alice, who has paid
    and has no ActionLog, is eligible for the Day 1 check-in, an action of
    her event that is in the table: the eligibility evaluator of [verify]
    passes for the pair. [canVerify] for the same participant, action and
    store answers false, with ActionNotFound: its lookup of the action
    loses the row to the preload. For Bob, whose payment is pending, the
    evaluator refuses with PaymentRequired and [canVerify] with
    ActionNotFound. [canVerify] leaves the store as it is. *)
Theorem canVerify_refuses_eligible_pair :
  In Sample.checkin (event_actions (Sample.store [])) /\
  eval (GetParticipantByID (Participant.ID Sample.alice)) (Sample.store [])
    = Ok Sample.alice /\
  eval (performVerificationChecks Sample.lib Cases.morning Sample.alice Sample.checkin)
       (Sample.store [])
    = None /\
  CanVerifyParticipant (Participant.ID Sample.alice) (EventAction.ID Sample.checkin)
      (Sample.store [])
    = ((false,
        Some {| Message := "action not found";
                Code := ErrActionNotFound;
                Details :=
                  Some (wrapError "failed to get event action: "
                          (unsupported_relation "EventDay" "EventAction")) |}),
       Sample.store []) /\
  code_of (eval (performVerificationChecks Sample.lib Cases.morning Sample.bob
                   Sample.checkin) (Sample.store []))
    = Some ErrPaymentRequired /\
  code_of (snd (eval (CanVerifyParticipant (Participant.ID Sample.bob)
                        (EventAction.ID Sample.checkin)) (Sample.store [])))
    = Some ErrActionNotFound.
Proof.
  split; [left; reflexivity|].
  split; [vm_compute; reflexivity|].
  split; [vm_compute; reflexivity|].
  split; [vm_compute; reflexivity|].
  split; vm_compute; reflexivity.
Qed.

(** ** Revocation *)

Lemma RevertVerification_run verificationID adminID s :
  RevertVerification verificationID adminID s =
  (Some
     (if String.eqb verificationID "" || String.eqb adminID ""
      then NewVerificationError "verification ID and admin ID are required"
             ErrInvalidInput None
      else
        match eval (GetUserByID adminID) s with
        | Err err =>
            NewVerificationError "admin user not found" ErrVerifierNotFound (Some err)
        | Ok admin =>
            if negb (String.eqb (User.Role admin) "admin")
            then NewVerificationError "only admin users can revert verifications"
                   ErrPermissionDenied None
            else NewVerificationError "revert verification not yet implemented"
                   ErrNotImplemented None
        end),
   s).
Proof.
  unfold RevertVerification.
  destruct (String.eqb verificationID "" || String.eqb adminID ""); [reflexivity|].
  rewrite bind_read_only by auto with readonly.
  destruct (eval (GetUserByID adminID) s) as [admin|]; [|reflexivity].
  destruct (negb (String.eqb (User.Role admin) "admin")); reflexivity.
Qed.

(** C8. Revocation contract. For a [revert] call with
    non-empty identifiers: if the caller does not resolve to a user the
    call fails with VerifierNotFound; if the caller resolves to a user whose
    role is not admin it fails with PermissionDenied; if the caller is an
    admin it returns NotImplemented without looking at the ActionLog table,
    whether or not the target exists. In every case the store is left as
    it is. *)
Theorem revert_contract (s : Store) (verificationID adminID : string) :
  verificationID <> "" -> adminID <> "" ->
  exec (RevertVerification verificationID adminID) s = s /\
  (forall err,
     eval (GetUserByID adminID) s = Err err ->
     code_of (eval (RevertVerification verificationID adminID) s)
       = Some ErrVerifierNotFound) /\
  (forall caller,
     eval (GetUserByID adminID) s = Ok caller ->
     User.Role caller <> "admin" ->
     code_of (eval (RevertVerification verificationID adminID) s)
       = Some ErrPermissionDenied) /\
  (forall caller,
     eval (GetUserByID adminID) s = Ok caller ->
     User.Role caller = "admin" ->
     code_of (eval (RevertVerification verificationID adminID) s)
       = Some ErrNotImplemented) /\
  (forall s',
     users s' = users s ->
     eval (RevertVerification verificationID adminID) s'
       = eval (RevertVerification verificationID adminID) s).
Proof.
  intros Hv Ha. apply String.eqb_neq in Hv, Ha.
  assert (R : forall st,
    eval (RevertVerification verificationID adminID) st =
    Some match eval (GetUserByID adminID) st with
         | Err err =>
             NewVerificationError "admin user not found" ErrVerifierNotFound (Some err)
         | Ok admin =>
             if negb (String.eqb (User.Role admin) "admin")
             then NewVerificationError "only admin users can revert verifications"
                    ErrPermissionDenied None
             else NewVerificationError "revert verification not yet implemented"
                    ErrNotImplemented None
         end).
  { intros st. unfold eval at 1. rewrite RevertVerification_run, Hv, Ha. reflexivity. }
  split; [apply RevertVerification_read_only|].
  split; [intros err H; rewrite R, H; reflexivity|].
  split; [intros caller H Hrole; apply String.eqb_neq in Hrole;
          rewrite R, H, Hrole; reflexivity|].
  split; [intros caller H Hrole; apply String.eqb_eq in Hrole;
          rewrite R, H, Hrole; reflexivity|].
  intros s' Hu. rewrite !R. unfold GetUserByID, eval, query. cbn [fst].
  rewrite Hu. reflexivity.
Qed.

(** ** Pagination *)

Lemma wrap64_small (z : Z) : - 2 ^ 63 <= z < 2 ^ 63 -> wrap64 z = z.
Proof.
  unfold wrap64. intros H. change (2 ^ 64) with (2 * 2 ^ 63).
  rewrite Z.mod_small; lia.
Qed.

Lemma int_div_nonneg (a b : Z) :
  0 <= a < 2 ^ 63 -> 0 < b -> int_div a b = a / b.
Proof.
  intros Ha Hb. unfold int_div. rewrite Z.quot_div_nonneg by lia.
  apply wrap64_small.
  pose proof (Z.div_pos a b ltac:(lia) Hb).
  pose proof (Z.div_le_upper_bound a b a Hb ltac:(nia)).
  assert (0 < 2 ^ 63) by reflexivity. lia.
Qed.

(** [ceil_div] is the ceiling of the quotient. *)
Lemma ceil_div_spec (total pageSize : Z) :
  0 < pageSize ->
  total <= ceil_div total pageSize * pageSize < total + pageSize.
Proof.
  intros Hp. unfold ceil_div.
  pose proof (Z.div_mod (total + pageSize - 1) pageSize ltac:(lia)) as H.
  pose proof (Z.mod_pos_bound (total + pageSize - 1) pageSize Hp) as Hm.
  nia.
Qed.

Lemma GetEventVerifications_nil eventID s :
  GetEventVerifications eventID None s =
  GetEventVerifications eventID
    (Some {| Page := 1; PageSize := 20; DateFrom := 0; DateTo := 0;
             FilterActionID := ""; FilterVerifierID := "" |}) s.
Proof. reflexivity. Qed.

(** C5. Pagination normalization. For a [listForEvent] call on an event
    that exists, a page below 1 is replaced by 1 and a page size outside
    [1,100] by 20; the rows returned are the ones at offset
    (page-1)*pageSize, at most pageSize of them; the total is the number of
    ActionLog rows of the event and totalPages is ceil(total / pageSize),
    computed as (total + pageSize - 1) / pageSize. In particular a total of
    45 with a page size of 20 gives 3 pages and a total of 0 gives 0. The
    page number and the total are assumed to fit the machine integers they
    are held in. *)
Theorem pagination_normalization (s : Store) (eventID : string)
    (f : VerificationFilters) (ev : Event.t) :
  eventID <> "" ->
  eval (GetEventByID eventID) s = Ok ev ->
  Page f < 2 ^ 63 ->
  Z.of_nat (List.length (logs_of_event eventID s)) < 2 ^ 63 - 100 ->
  let page := if Page f <? 1 then 1 else Page f in
  let pageSize :=
    if (PageSize f <? 1) || (PageSize f >? 100) then 20 else PageSize f in
  let total := Z.of_nat (List.length (logs_of_event eventID s)) in
  1 <= page /\ 1 <= pageSize <= 100 /\
  (1 <= Page f -> page = Page f) /\
  (1 <= PageSize f <= 100 -> pageSize = PageSize f) /\
  GetEventVerifications eventID (Some f) s =
    (Ok {| Verifications :=
             OffsetLimit (wrap64 ((page - 1) * pageSize)) pageSize
               (order_verified_at_desc (logs_of_event eventID s));
           TotalCount := total;
           ListPage := page;
           ListPageSize := pageSize;
           TotalPages := ceil_div total pageSize |}, s) /\
  ((page - 1) * pageSize < 2 ^ 63 ->
   wrap64 ((page - 1) * pageSize) = (page - 1) * pageSize) /\
  total <= ceil_div total pageSize * pageSize < total + pageSize /\
  (total = 45 -> pageSize = 20 -> ceil_div total pageSize = 3) /\
  (total = 0 -> ceil_div total pageSize = 0).
Proof.
  intros Hne Hev Hpage Htotal page pageSize total.
  assert (P63 : 2 ^ 63 = 9223372036854775808) by reflexivity.
  assert (Hp1 : 1 <= page).
  { subst page. destruct (Page f <? 1) eqn:E; [lia|]. apply Z.ltb_ge in E. exact E. }
  assert (Hps : 1 <= pageSize <= 100).
  { subst pageSize. destruct (PageSize f <? 1) eqn:E1; cbn [orb]; [lia|].
    destruct (PageSize f >? 100) eqn:E2; [lia|].
    apply Z.ltb_ge in E1. rewrite Z.gtb_ltb in E2. apply Z.ltb_ge in E2. lia. }
  assert (Hp2 : page < 2 ^ 63).
  { subst page. destruct (Page f <? 1); lia. }
  split; [exact Hp1|]. split; [exact Hps|].
  split.
  { intros H. subst page. apply Z.ltb_ge in H. rewrite H. reflexivity. }
  split.
  { intros [H1 H2]. subst pageSize. apply Z.ltb_ge in H1. rewrite H1. cbn [orb].
    destruct (PageSize f >? 100) eqn:E2; [|reflexivity].
    rewrite Z.gtb_ltb in E2. apply Z.ltb_lt in E2. lia. }
  split.
  { unfold GetEventVerifications. apply String.eqb_neq in Hne. rewrite Hne.
    rewrite bind_read_only, Hev by auto with readonly.
    fold page. fold pageSize.
    rewrite bind_read_only by auto with readonly.
    unfold GetActionLogsByEvent at 1, query, eval at 1. cbn [fst].
    fold total.
    rewrite (@wrap64_small (page - 1)) by lia.
    rewrite (@wrap64_small (total + pageSize)) by lia.
    rewrite (@wrap64_small (total + pageSize - 1)) by lia.
    rewrite int_div_nonneg by lia. reflexivity. }
  split.
  { intros H. apply wrap64_small. nia. }
  split; [apply ceil_div_spec; lia|].
  split.
  - intros -> ->. reflexivity.
  - intros ->. unfold ceil_div. apply Z.div_small. lia.
Qed.

(* ================================================================== *)
(** * The properties on concrete inputs *)

Lemma AtMostOnce_one_log (l : ActionLog.t) : AtMostOnce (Sample.store [l]).
Proof.
  intros p a. unfold logs_for. cbn [Sample.store action_logs filter].
  destruct (same_pair p a l); cbn; lia.
Qed.

(** C1, counterexample to "every later call fails with AlreadyVerified".
    Alice has an ActionLog for the check-in. Her next call for the pair is
    complete, its credential resolves to her and its action code is the
    code of the check-in, which is active and in the table: the call fails
    with DatabaseError at the action lookup, not with AlreadyVerified. Nor
    does the evaluator answer AlreadyVerified for every pair that has an
    ActionLog: for Bob, whose payment is pending, it answers
    PaymentRequired. *)
Lemma already_verified_not_always :
  logs_for (Participant.ID Sample.alice) (EventAction.ID Sample.checkin)
           Cases.two_checkins <> [] /\
  validateVerifyRequest Cases.alice_checkin = None /\
  eval (extractParticipantFromQR Sample.lib (QRCodeData Cases.alice_checkin))
       Cases.two_checkins = Ok Sample.alice /\
  In Sample.checkin (event_actions Cases.two_checkins) /\
  EventAction.Code Sample.checkin = ActionCode Cases.alice_checkin /\
  EventAction.IsActive Sample.checkin = true /\
  VerifyParticipantAction Sample.lib (Sample.env_at (Cases.morning + Hour) Cases.id3)
      Cases.alice_checkin Cases.two_checkins
    = (Err {| Message := "failed to get action";
              Code := ErrDatabaseError;
              Details := Some (wrapError "failed to get event action: "
                                 (unsupported_relation "EventDay" "EventAction")) |},
       Cases.two_checkins) /\
  logs_for (Participant.ID Sample.bob) (EventAction.ID Sample.checkin)
           Cases.bob_checked_in <> [] /\
  eval (performVerificationChecks Sample.lib Cases.morning Sample.bob Sample.checkin)
       Cases.bob_checked_in
    = Some {| Message := "participant payment status is 'pending'";
              Code := ErrPaymentRequired;
              Details := None |}.
Proof.
  split; [vm_compute; discriminate|].
  split; [reflexivity|].
  split; [vm_compute; reflexivity|].
  split; [left; reflexivity|].
  split; [reflexivity|]. split; [reflexivity|].
  split; [vm_compute; reflexivity|].
  split; [vm_compute; discriminate|].
  vm_compute; reflexivity.
Qed.

Lemma at_most_once_redemption_witness :
  AtMostOnce Cases.alice_welcomed /\
  AtMostOnce (exec (run Sample.lib Series.twice) Cases.alice_welcomed) /\
  (redemptions (Participant.ID Sample.alice) (EventAction.ID Sample.welcome)
     (eval (run Sample.lib Series.twice) Cases.alice_welcomed) <= 1)%nat /\
  eval (performVerificationChecks Sample.lib (Cases.morning + Hour)
          Sample.alice Sample.welcome)
       (exec (run Sample.lib Series.twice) Cases.alice_welcomed)
    = Some (duplicate_verification Sample.welcome).
Proof.
  assert (Inv : AtMostOnce Cases.alice_welcomed) by apply AtMostOnce_one_log.
  split; [exact Inv|].
  destruct (@at_most_once_redemption Sample.lib Cases.alice_welcomed Series.twice
              (Participant.ID Sample.alice) (EventAction.ID Sample.welcome) Inv)
    as (A & B & C).
  split; [exact A|]. split; [exact B|].
  destruct (C (Sample.env_at (Cases.morning + Hour) Cases.id3)
              Cases.alice_welcome Sample.alice Sample.welcome) as [_ Hev].
  - vm_compute. reflexivity.
  - vm_compute. right. right. left. reflexivity.
  - reflexivity.
  - reflexivity.
  - reflexivity.
  - vm_compute. discriminate.
  - cbn [now Sample.env_at] in Hev. rewrite Hev. vm_compute. reflexivity.
Defined.

(** C2, counterexample to "the call fails with PaymentRequired if and
    only if the payment status is not paid". Bob is registered to the
    conference, whose ticket price is positive, and his payment is pending.
    His call for the check-in fails with DatabaseError at the action
    lookup; a call with his credential and no verifier fails with
    InvalidInput at the validation of the request. Neither fails with
    PaymentRequired. *)
Lemma payment_required_not_reached :
  eval (GetEventByID (UUID_String (Participant.EventID Sample.bob))) (Sample.store [])
    = Ok Sample.conference /\
  (0 < Event.TicketPrice Sample.conference)%Q /\
  Participant.PaymentStatus Sample.bob <> "paid" /\
  eval (extractParticipantFromQR Sample.lib (QRCodeData Cases.bob_checkin))
       (Sample.store []) = Ok Sample.bob /\
  VerifyParticipantAction Sample.lib (Sample.env_at Cases.morning Cases.id1)
      Cases.bob_checkin (Sample.store [])
    = (Err {| Message := "failed to get action";
              Code := ErrDatabaseError;
              Details := Some (wrapError "failed to get event action: "
                                 (unsupported_relation "EventDay" "EventAction")) |},
       Sample.store []) /\
  VerifyParticipantAction Sample.lib (Sample.env_at Cases.morning Cases.id1)
      {| QRCodeData := Sample.qr_of Sample.bob; ActionCode := "CHECKIN1";
         VerifierID := "" |}
      (Sample.store [])
    = (Err {| Message := "verifier ID is required";
              Code := ErrInvalidInput;
              Details := None |},
       Sample.store []).
Proof.
  split; [vm_compute; reflexivity|].
  split; [reflexivity|].
  split; [discriminate|].
  split; [vm_compute; reflexivity|].
  split; vm_compute; reflexivity.
Qed.

Lemma payment_gating_witness :
  eval (GetEventByID (UUID_String (Participant.EventID Sample.bob))) (Sample.store [])
    = Ok Sample.conference /\
  (0 < Event.TicketPrice Sample.conference)%Q /\
  eval (performVerificationChecks Sample.lib Cases.morning
          Sample.bob Sample.checkin) (Sample.store [])
    = Some {| Message := "participant payment status is 'pending'";
              Code := ErrPaymentRequired;
              Details := None |}.
Proof.
  assert (H : eval (GetEventByID (UUID_String (Participant.EventID Sample.bob)))
                   (Sample.store []) = Ok Sample.conference)
    by (vm_compute; reflexivity).
  assert (P : (0 < Event.TicketPrice Sample.conference)%Q) by reflexivity.
  split; [exact H|]. split; [exact P|].
  destruct (@payment_gating Sample.lib Cases.morning (Sample.store [])
              Sample.bob Sample.checkin Sample.conference H) as [Paid _].
  destruct (Paid P) as (_ & Hmsg).
  apply Hmsg. discriminate.
Defined.

(** C4, counterexample to "the call fails with EventMismatch regardless
    of the other gates". The welcome is an active action of the meetup,
    Alice and Bob are registered to the conference. Alice's call for the
    welcome fails with DatabaseError at the action lookup, not with
    EventMismatch. Nor does the evaluator answer EventMismatch regardless
    of the other gates: for Bob, who has not paid, it answers
    PaymentRequired, and for Alice, once she has an ActionLog for the
    welcome, AlreadyVerified. *)
Lemma event_mismatch_not_always :
  In Sample.welcome (event_actions (Sample.store [])) /\
  EventAction.Code Sample.welcome = ActionCode Cases.alice_welcome /\
  EventAction.IsActive Sample.welcome = true /\
  EventAction.EventID Sample.welcome <> Participant.EventID Sample.alice /\
  eval (extractParticipantFromQR Sample.lib (QRCodeData Cases.alice_welcome))
       (Sample.store []) = Ok Sample.alice /\
  VerifyParticipantAction Sample.lib (Sample.env_at Cases.morning Cases.id1)
      Cases.alice_welcome (Sample.store [])
    = (Err {| Message := "failed to get action";
              Code := ErrDatabaseError;
              Details := Some (wrapError "failed to get event action: "
                                 (unsupported_relation "EventDay" "EventAction")) |},
       Sample.store []) /\
  EventAction.EventID Sample.welcome <> Participant.EventID Sample.bob /\
  eval (performVerificationChecks Sample.lib Cases.morning Sample.bob Sample.welcome)
       (Sample.store [])
    = Some {| Message := "participant payment status is 'pending'";
              Code := ErrPaymentRequired;
              Details := None |} /\
  eval (performVerificationChecks Sample.lib Cases.morning Sample.alice Sample.welcome)
       Cases.alice_welcomed
    = Some {| Message := "already verified for action: Welcome";
              Code := ErrAlreadyVerified;
              Details := None |}.
Proof.
  split; [right; right; left; reflexivity|].
  split; [reflexivity|]. split; [reflexivity|]. split; [discriminate|].
  split; [vm_compute; reflexivity|].
  split; [vm_compute; reflexivity|].
  split; [discriminate|].
  split; vm_compute; reflexivity.
Qed.

Lemma event_consistency_gate_witness :
  EventAction.EventID Sample.welcome <> Participant.EventID Sample.alice /\
  code_of (eval (performVerificationChecks Sample.lib Cases.morning
                   Sample.alice Sample.welcome) (Sample.store []))
    = Some ErrEventMismatch.
Proof.
  assert (H : EventAction.EventID Sample.welcome <> Participant.EventID Sample.alice)
    by discriminate.
  split; [exact H|].
  destruct (@event_consistency_gate Sample.lib Cases.morning (Sample.store [])
              Sample.alice Sample.welcome H) as (_ & Hiff & _).
  apply Hiff. split; vm_compute; reflexivity.
Defined.

Lemma pagination_normalization_witness :
  Event.ID Sample.meetup <> "" /\
  eval (GetEventByID (Event.ID Sample.meetup)) Crowd.store = Ok Sample.meetup /\
  exists list,
    GetEventVerifications (Event.ID Sample.meetup) (Some (Cases.filters 0 500))
        Crowd.store = (Ok list, Crowd.store) /\
    ListPage list = 1 /\ ListPageSize list = 20 /\
    TotalCount list = 45 /\ TotalPages list = 3 /\
    List.length (Verifications list) = 20%nat.
Proof.
  assert (H1 : Event.ID Sample.meetup <> "") by discriminate.
  assert (H2 : eval (GetEventByID (Event.ID Sample.meetup)) Crowd.store
               = Ok Sample.meetup) by (vm_compute; reflexivity).
  split; [exact H1|]. split; [exact H2|].
  destruct (@pagination_normalization Crowd.store (Event.ID Sample.meetup)
              (Cases.filters 0 500) Sample.meetup H1 H2)
    as (_ & _ & _ & _ & Heq & _).
  - reflexivity.
  - vm_compute. reflexivity.
  - eexists. split; [exact Heq|]. repeat split; vm_compute; reflexivity.
Defined.

(** C7, counterexample to "the call fails with EventNotStarted if and only
    if the current time is before the day of the action". On the eve of the
    conference day Alice's call for the Day 1 check-in, whose EventDay
    resolves, fails with DatabaseError at the action lookup, not with
    EventNotStarted. Nor does the evaluator answer EventNotStarted whenever
    the time is before the day: for Bob, who has not paid, it answers
    PaymentRequired. *)
Lemma event_not_started_not_reached :
  eval (GetEventDayByID (UUID_String (EventAction.EventDayID Sample.checkin)))
       (Sample.store []) = Ok Sample.conference_day1 /\
  Cases.eve < Truncate (EventDay.Date Sample.conference_day1) (24 * Hour) /\
  eval (extractParticipantFromQR Sample.lib (QRCodeData Cases.alice_checkin))
       (Sample.store []) = Ok Sample.alice /\
  VerifyParticipantAction Sample.lib (Sample.env_at Cases.eve Cases.id1)
      Cases.alice_checkin (Sample.store [])
    = (Err {| Message := "failed to get action";
              Code := ErrDatabaseError;
              Details := Some (wrapError "failed to get event action: "
                                 (unsupported_relation "EventDay" "EventAction")) |},
       Sample.store []) /\
  eval (performVerificationChecks Sample.lib Cases.eve Sample.bob Sample.checkin)
       (Sample.store [])
    = Some {| Message := "participant payment status is 'pending'";
              Code := ErrPaymentRequired;
              Details := None |}.
Proof.
  split; [vm_compute; reflexivity|].
  split; [reflexivity|].
  split; [vm_compute; reflexivity|].
  split; vm_compute; reflexivity.
Qed.

Lemma temporal_gate_witness :
  eval (GetEventDayByID (UUID_String (EventAction.EventDayID Sample.checkin)))
       (Sample.store []) = Ok Sample.conference_day1 /\
  Cases.eve < Truncate (EventDay.Date Sample.conference_day1) (24 * Hour) /\
  code_of (eval (checkEventDayValidity Sample.lib Cases.eve
                   (UUID_String (EventAction.EventDayID Sample.checkin)))
                (Sample.store []))
    = Some ErrEventNotStarted /\
  Cases.early < EventDay.Date Sample.conference_day1 /\
  eval (checkEventDayValidity Sample.lib Cases.early
          (UUID_String (EventAction.EventDayID Sample.checkin))) (Sample.store [])
    = None /\
  eval (checkEventDayValidity Sample.lib Cases.eve
          (UUID_String (EventAction.EventDayID Cases.popup))) (Sample.store [])
    = None.
Proof.
  assert (H : eval (GetEventDayByID (UUID_String (EventAction.EventDayID Sample.checkin)))
                   (Sample.store []) = Ok Sample.conference_day1)
    by (vm_compute; reflexivity).
  assert (T : Cases.eve < Truncate (EventDay.Date Sample.conference_day1) (24 * Hour))
    by reflexivity.
  split; [exact H|]. split; [exact T|]. split; [|split; [reflexivity|split]].
  - destruct (@temporal_gate Sample.lib Cases.eve (Sample.store [])
                Sample.alice Sample.checkin) as [Res _].
    destruct (Res _ H) as (Hiff & _). apply Hiff, T.
  - destruct (@temporal_gate Sample.lib Cases.early (Sample.store [])
                Sample.alice Sample.checkin) as [Res _].
    destruct (Res _ H) as (_ & _ & Hpass & _). apply Hpass.
    vm_compute. discriminate.
  - destruct (@temporal_gate Sample.lib Cases.eve (Sample.store [])
                Sample.carol Cases.popup) as [_ Unres].
    apply (Unres (errorString
                    "event day not found with ID: d0000000-0000-4000-8000-0000000000ff")).
    vm_compute. reflexivity.
Defined.

(** C8, counterexample to "validates that the target ActionLog exists" and
    to "PermissionDenied for every caller who is not an admin". No
    ActionLog has the identifier the administrator asks to revert, and the
    call returns NotImplemented all the same, as it does for the identifier
    of a row that exists: the target is never looked up. And a member of
    staff who sends an empty identifier is answered InvalidInput. *)
Lemma revert_ignores_target :
  action_logs (Sample.store []) = [] /\
  RevertVerification Cases.id3 (User.ID Sample.admin) (Sample.store [])
    = (Some {| Message := "revert verification not yet implemented";
               Code := ErrNotImplemented;
               Details := None |},
       Sample.store []) /\
  In (Sample.log_of Cases.id1 Sample.bob Sample.checkin Cases.morning)
     (action_logs Cases.bob_checked_in) /\
  RevertVerification Cases.id1 (User.ID Sample.admin) Cases.bob_checked_in
    = (Some {| Message := "revert verification not yet implemented";
               Code := ErrNotImplemented;
               Details := None |},
       Cases.bob_checked_in) /\
  User.Role Sample.staff <> "admin" /\
  RevertVerification EmptyString (User.ID Sample.staff) (Sample.store [])
    = (Some {| Message := "verification ID and admin ID are required";
               Code := ErrInvalidInput;
               Details := None |},
       Sample.store []).
Proof.
  split; [reflexivity|]. split; [vm_compute; reflexivity|].
  split; [left; reflexivity|]. split; [vm_compute; reflexivity|].
  split; [discriminate|]. vm_compute; reflexivity.
Qed.

Lemma revert_contract_witness :
  Cases.id3 <> "" /\ User.ID Sample.staff <> "" /\
  exec (RevertVerification Cases.id3 (User.ID Sample.staff)) (Sample.store [])
    = Sample.store [] /\
  code_of (eval (RevertVerification Cases.id3 (User.ID Sample.staff)) (Sample.store []))
    = Some ErrPermissionDenied.
Proof.
  assert (H1 : Cases.id3 <> "") by discriminate.
  assert (H2 : User.ID Sample.staff <> "") by discriminate.
  split; [exact H1|]. split; [exact H2|].
  destruct (@revert_contract (Sample.store []) Cases.id3 (User.ID Sample.staff) H1 H2)
    as (Hs & _ & Hdenied & _).
  split; [exact Hs|].
  apply (Hdenied Sample.staff); [vm_compute; reflexivity|discriminate].
Defined.

Lemma payment_gate_fail_open_witness :
  eval (GetEventByID (UUID_String (Participant.EventID Cases.dave))) Cases.orphan_store
    = Err (errorString
             "event not found with ID: e0000000-0000-4000-8000-0000000000ff") /\
  eval (extractParticipantFromQR Sample.lib (QRCodeData Cases.dave_checkin))
       Cases.orphan_store = Ok Cases.dave /\
  err_code (eval (VerifyParticipantAction Sample.lib
                    (Sample.env_at Cases.morning Cases.id1) Cases.dave_checkin)
                 Cases.orphan_store)
    <> Some ErrPaymentRequired.
Proof.
  assert (H : eval (GetEventByID (UUID_String (Participant.EventID Cases.dave)))
                   Cases.orphan_store
              = Err (errorString
                       "event not found with ID: e0000000-0000-4000-8000-0000000000ff"))
    by (vm_compute; reflexivity).
  assert (R : eval (extractParticipantFromQR Sample.lib (QRCodeData Cases.dave_checkin))
                   Cases.orphan_store = Ok Cases.dave)
    by (vm_compute; reflexivity).
  split; [exact H|]. split; [exact R|].
  destruct (@payment_gate_fail_open Sample.lib Cases.orphan_store Cases.dave _ H)
    as (_ & _ & Hcall & _).
  apply Hcall, R.
Defined.

(* ================================================================== *)
(** * Further properties of the verification service *)

(** ** The outcome of a call *)

Lemma find_existsb {A} (cond cond' : A -> bool) (l : list A) :
  (forall x, cond x = cond' x) ->
  existsb cond' l = match find cond l with Some _ => true | None => false end.
Proof.
  intros H. induction l as [|x l IH]; cbn; [reflexivity|].
  rewrite H. destruct (cond' x); [reflexivity|exact IH].
Qed.

(** X1. No [verify] call succeeds. Whatever the store, the request and the
    clock, the call returns an error and leaves the store as it is. The
    error is the one of the request validation, else the one of the
    identity resolver, else DatabaseError with the message "failed to get
    action": the action lookup reports that no active action has the code,
    or loses the action it found to the preload. The verifier lookup, the
    eligibility evaluator and the insert are never reached. *)
Theorem VerifyParticipantAction_never_succeeds (lib : GoLib) (env : Env)
    (req : VerifyRequest) (s : Store) :
  exists e,
    VerifyParticipantAction lib env req s = (Err e, s) /\
    match validateVerifyRequest req with
    | Some err => e = err
    | None =>
        match eval (extractParticipantFromQR lib (QRCodeData req)) s with
        | Err err => e = err
        | Ok _ =>
            Message e = "failed to get action" /\
            Code e = ErrDatabaseError /\
            Details e
              = Some (if existsb (fun a => String.eqb (EventAction.Code a) (ActionCode req)
                                           && EventAction.IsActive a)
                                 (event_actions s)
                      then wrapError "failed to get event action: "
                             (unsupported_relation "EventDay" "EventAction")
                      else errorString ("event action not found with code: "
                                          ++ ActionCode req))
        end
    end.
Proof.
  exists (verify_error lib req s). split; [apply VerifyParticipantAction_fails|].
  unfold verify_error.
  destruct (validateVerifyRequest req) as [err|] eqn:Hv; [reflexivity|].
  destruct (eval (extractParticipantFromQR _ _) s); [|reflexivity].
  split; [reflexivity|]. split; [reflexivity|]. cbn [Details NewVerificationError].
  f_equal. unfold action_lookup_error.
  assert (Hcode : String.eqb (ActionCode req) "" = false).
  { unfold validateVerifyRequest in Hv.
    destruct (String.eqb (QRCodeData req) ""); [discriminate|].
    destruct (String.eqb (ActionCode req) ""); [discriminate|reflexivity]. }
  rewrite Hcode.
  rewrite (@find_existsb _
             (fun a => String.eqb (EventAction.Code a) (ActionCode req)
                       && Bool.eqb (EventAction.IsActive a) true)
             (fun a => String.eqb (EventAction.Code a) (ActionCode req)
                       && EventAction.IsActive a)).
  - destruct (find _ (event_actions s)); reflexivity.
  - intros x. destruct (EventAction.IsActive x); reflexivity.
Qed.

(** X2. A series of [verify] calls only ever appends: the ActionLog table
    after the series is the table before it followed by the rows the
    successful calls returned, in call order, and no other table changes. *)
Theorem run_appends_recorded (lib : GoLib)
    (calls : list (Env * VerifyRequest)) (s : Store) :
  action_logs (exec (run lib calls) s)
    = action_logs s ++ recorded (eval (run lib calls) s) /\
  same_registry s (exec (run lib calls) s).
Proof.
  split; [|apply run_registry].
  rewrite run_fails.
  assert (H : recorded (eval (run lib calls) s) = []).
  { revert s. induction calls as [|[env req] rest IH]; intros s; [reflexivity|].
    rewrite eval_run_cons, eval_VerifyParticipantAction, exec_VerifyParticipantAction.
    unfold recorded. cbn [flat_map app]. apply IH. }
  rewrite H, app_nil_r. reflexivity.
Qed.

(** ** Credentials *)

Lemma substring_stem (stem ext : string) :
  substring 0 (String.length (stem ++ ext) - String.length ext) (stem ++ ext) = stem.
Proof.
  assert (L : forall a b, String.length (a ++ b)%string
                          = (String.length a + String.length b)%nat).
  { induction a as [|c a IH]; intros b; cbn; [reflexivity|]. rewrite IH. reflexivity. }
  rewrite L. replace (String.length stem + String.length ext - String.length ext)%nat
    with (String.length stem) by lia.
  induction stem as [|c stem IH]; cbn.
  - destruct ext; reflexivity.
  - rewrite IH. reflexivity.
Qed.

(** X4. Round trip of the QR path. A path whose last element is a valid
    UUID followed by a non-empty extension decodes to that UUID. *)
Theorem ExtractUUIDFromQRPath_roundtrip (lib : GoLib) (path id ext : string) :
  filepath_Base lib path = (id ++ ext)%string ->
  filepath_Ext lib (id ++ ext)%string = ext ->
  ext <> "" ->
  uuid_Parse lib id = None ->
  ExtractUUIDFromQRPath lib path = Ok id.
Proof.
  intros Hbase Hext Hne Hparse. unfold ExtractUUIDFromQRPath.
  rewrite Hbase, Hext. apply String.eqb_neq in Hne. rewrite Hne.
  rewrite substring_stem, Hparse. reflexivity.
Qed.

Lemma ExtractUUIDFromQRPath_roundtrip_witness :
  ExtractUUIDFromQRPath Sample.lib (Sample.qr_of Sample.alice)
    = Ok (Participant.ID Sample.alice).
Proof.
  apply (@ExtractUUIDFromQRPath_roundtrip Sample.lib (Sample.qr_of Sample.alice)
           (Participant.ID Sample.alice) ".png").
  - vm_compute. reflexivity.
  - vm_compute. reflexivity.
  - discriminate.
  - vm_compute. reflexivity.
Defined.

Lemma ExtractUUIDFromQRPath_sound lib qr id :
  ExtractUUIDFromQRPath lib qr = Ok id -> uuid_Parse lib id = None.
Proof.
  unfold ExtractUUIDFromQRPath.
  destruct (String.eqb _ ""); [discriminate|].
  destruct (uuid_Parse lib (substring _ _ _)) eqn:E; [discriminate|].
  intros [= <-]. exact E.
Qed.

Lemma lookup_participant_eval id s :
  eval (r <- GetParticipantByID id ;;
        match r with
        | Err err =>
            if errors_Is_ErrRecordNotFound err
            then ret (Err (NewVerificationError "participant not found"
                             ErrParticipantNotFound (Some err)))
            else ret (Err (NewVerificationError "failed to get participant"
                             ErrDatabaseError (Some err)))
        | Ok participant => ret (Ok participant)
        end) s =
  match find (fun p => String.eqb (UUID_String (Participant.ID p)) id && live p)
             (participants s) with
  | Some p => Ok p
  | None => Err (NewVerificationError "participant not found"
                   ErrParticipantNotFound (Some ErrRecordNotFound))
  end.
Proof.
  rewrite eval_bind_read_only by auto with readonly.
  unfold GetParticipantByID, eval at 2, query, First. cbn [fst].
  destruct (find _ (participants s)); reflexivity.
Qed.




(** ** History of a participant *)

Lemma insert_desc_perm l rows : Permutation (insert_desc l rows) (l :: rows).
Proof.
  induction rows as [|x rest IH]; cbn [insert_desc]; [apply Permutation_refl|].
  destruct (ActionLog.VerifiedAt x <=? ActionLog.VerifiedAt l);
    [apply Permutation_refl|].
  eapply Permutation_trans; [apply perm_skip, IH|apply perm_swap].
Qed.

Lemma order_verified_at_desc_perm rows :
  Permutation (order_verified_at_desc rows) rows.
Proof.
  induction rows as [|l rest IH]; [apply Permutation_refl|].
  cbn [order_verified_at_desc fold_right].
  eapply Permutation_trans; [apply insert_desc_perm|apply perm_skip, IH].
Qed.

Lemma insert_desc_sorted l rows :
  StronglySorted newer_first rows -> StronglySorted newer_first (insert_desc l rows).
Proof.
  induction rows as [|x rest IH]; intros Hs; cbn [insert_desc].
  - repeat constructor.
  - inversion Hs as [|? ? Hrest Hall]; subst.
    destruct (ActionLog.VerifiedAt x <=? ActionLog.VerifiedAt l) eqn:E.
    + apply Z.leb_le in E. constructor; [exact Hs|].
      constructor; [exact E|].
      eapply Forall_impl; [|exact Hall]. unfold newer_first. intros y Hy. lia.
    + apply Z.leb_gt in E. constructor; [apply IH, Hrest|].
      eapply Permutation_Forall; [apply Permutation_sym, insert_desc_perm|].
      constructor; [unfold newer_first; lia|exact Hall].
Qed.

Lemma order_verified_at_desc_sorted rows :
  StronglySorted newer_first (order_verified_at_desc rows).
Proof.
  induction rows as [|l rest IH]; [constructor|].
  cbn [order_verified_at_desc fold_right]. apply insert_desc_sorted, IH.
Qed.

Lemma order_verified_at_desc_nil rows :
  order_verified_at_desc rows = [] <-> rows = [].
Proof.
  split; [|intros ->; reflexivity].
  intros H. apply (f_equal (@List.length _)) in H.
  rewrite order_verified_at_desc_length in H.
  destruct rows; [reflexivity|discriminate].
Qed.

Lemma filter_nil {A} (cond : A -> bool) (l : list A) :
  filter cond l = [] <-> forall x, In x l -> cond x = false.
Proof.
  induction l as [|x l IH]; cbn; [tauto|].
  destruct (cond x) eqn:E.
  - split; [discriminate|]. intros H. rewrite (H x) in E by auto. discriminate.
  - rewrite IH. split.
    + intros H y [<-|Hy]; auto.
    + intros H y Hy. apply H. auto.
Qed.

(** The history as a function of the tables it reads. *)
Lemma GetParticipantVerificationHistory_run participantID s :
  eval (GetParticipantVerificationHistory participantID) s =
  if String.eqb participantID "" then
    Err (NewVerificationError "participant ID is required" ErrInvalidInput None)
  else
    match find (fun p => String.eqb (UUID_String (Participant.ID p)) participantID
                         && live p) (participants s) with
    | None => Err (NewVerificationError "participant not found"
                     ErrParticipantNotFound (Some ErrRecordNotFound))
    | Some _ =>
        match filter (fun l => String.eqb (UUID_String (ActionLog.ParticipantID l))
                                          participantID) (action_logs s) with
        | [] => Ok []
        | _ :: _ =>
            Err (NewVerificationError "failed to get verification history"
                   ErrDatabaseError
                   (Some (unsupported_relation "EventDay" "EventAction")))
        end
    end.
Proof.
  unfold GetParticipantVerificationHistory.
  destruct (String.eqb participantID ""); [reflexivity|].
  rewrite eval_bind_read_only by auto with readonly.
  unfold GetParticipantByID at 1, eval at 2, query, First. cbn [fst].
  destruct (find _ (participants s)); [|reflexivity].
  rewrite eval_bind_read_only by auto with readonly.
  unfold GetActionLogsByParticipant at 1, eval at 2, query. cbn [fst].
  destruct (filter _ (action_logs s)) as [|l logs] eqn:F; [reflexivity|].
  destruct (order_verified_at_desc (l :: logs)) eqn:O; [|reflexivity].
  apply (proj1 (order_verified_at_desc_nil _)) in O. discriminate O.
Qed.

(** X7. History by participant. The history never lists a row. For a
    non-empty identifier of a participant that is not soft-deleted, the
    call returns the empty history when the participant has no ActionLog,
    and fails with DatabaseError, "failed to get verification history",
    as soon as the participant has one: the query loses its rows to the
    preload of [Action.EventDay]. An empty identifier is refused with
    InvalidInput and an identifier without such a participant with
    ParticipantNotFound. The store is left as it is. *)
Theorem GetParticipantVerificationHistory_outcome (participantID : string) (s : Store) :
  (forall logs,
     eval (GetParticipantVerificationHistory participantID) s = Ok logs -> logs = []) /\
  ((exists logs, eval (GetParticipantVerificationHistory participantID) s = Ok logs)
   <-> participantID <> "" /\
       (exists p, In p (participants s) /\ Participant.ID p = participantID /\
                  live p = true) /\
       (forall l, In l (action_logs s) -> ActionLog.ParticipantID l <> participantID)) /\
  (participantID <> "" ->
   (exists p, In p (participants s) /\ Participant.ID p = participantID /\
              live p = true) ->
   (exists l, In l (action_logs s) /\ ActionLog.ParticipantID l = participantID) ->
   eval (GetParticipantVerificationHistory participantID) s
     = Err (NewVerificationError "failed to get verification history"
              ErrDatabaseError
              (Some (unsupported_relation "EventDay" "EventAction")))) /\
  (participantID = "" ->
   err_code (eval (GetParticipantVerificationHistory participantID) s)
     = Some ErrInvalidInput) /\
  (participantID <> "" ->
   (forall p, In p (participants s) -> Participant.ID p = participantID ->
              live p = false) ->
   err_code (eval (GetParticipantVerificationHistory participantID) s)
     = Some ErrParticipantNotFound) /\
  exec (GetParticipantVerificationHistory participantID) s = s.
Proof.
  rewrite GetParticipantVerificationHistory_run.
  assert (Hfind : forall p,
    In p (participants s) -> Participant.ID p = participantID -> live p = true ->
    find (fun p => String.eqb (UUID_String (Participant.ID p)) participantID
                   && live p) (participants s) <> None).
  { intros p Hin Hid Hl F. pose proof (find_none _ _ F p Hin) as N. cbn beta in N.
    unfold UUID_String in N. rewrite Hid, String.eqb_refl, Hl in N. discriminate. }
  assert (Hlogs : filter (fun l => String.eqb (UUID_String (ActionLog.ParticipantID l))
                                              participantID) (action_logs s) = []
                  <-> forall l, In l (action_logs s) ->
                                ActionLog.ParticipantID l <> participantID).
  { rewrite filter_nil. split; intros H l Hl.
    - apply String.eqb_neq. apply (H l Hl).
    - apply String.eqb_neq. apply (H l Hl). }
  split; [|split; [|split; [|split; [|split]]]].
  - intros logs. destruct (String.eqb participantID ""); [discriminate|].
    destruct (find _ (participants s)); [|discriminate].
    destruct (filter _ (action_logs s)); [|discriminate].
    intros [= <-]. reflexivity.
  - destruct (String.eqb participantID "") eqn:E.
    + apply String.eqb_eq in E. split; [intros [? [=]]|intros [H _]; contradiction].
    + apply String.eqb_neq in E.
      destruct (find _ (participants s)) as [p|] eqn:F.
      * apply find_some in F. destruct F as [Hin F].
        apply andb_true_iff in F. destruct F as [F1 F2].
        apply String.eqb_eq in F1.
        destruct (filter _ (action_logs s)) as [|l logs] eqn:G.
        -- split; [|eauto]. intros _. split; [exact E|]. split; [eauto|].
           apply Hlogs. reflexivity.
        -- split; [intros [? [=]]|]. intros (_ & _ & Hnone).
           apply Hlogs in Hnone. discriminate Hnone.
      * split; [intros [? [=]]|]. intros (_ & (p & Hin & Hid & Hl) & _).
        exfalso. exact (Hfind p Hin Hid Hl eq_refl).
  - intros Hne (p & Hin & Hid & Hl) (l & Hlin & Hlid).
    apply String.eqb_neq in Hne. rewrite Hne.
    destruct (find _ (participants s)) eqn:F;
      [|exfalso; exact (Hfind p Hin Hid Hl eq_refl)].
    destruct (filter _ (action_logs s)) eqn:G; [|reflexivity].
    exfalso. apply (proj1 Hlogs eq_refl l Hlin Hlid).
  - intros ->. reflexivity.
  - intros Hne Hnone. apply String.eqb_neq in Hne. rewrite Hne.
    destruct (find _ (participants s)) as [p|] eqn:F; [|reflexivity].
    apply find_some in F. destruct F as [Hin F].
    apply andb_true_iff in F. destruct F as [F1 F2].
    apply String.eqb_eq in F1. rewrite (Hnone p Hin F1) in F2. discriminate.
  - assert (RO : read_only (GetParticipantVerificationHistory participantID)).
    { unfold GetParticipantVerificationHistory. read_only_tac. }
    apply RO.
Qed.

(** ** Listing by event *)

Lemma firstn_plus {A} (a b : nat) (l : list A) :
  firstn (a + b) l = firstn a l ++ firstn b (skipn a l).
Proof.
  revert l. induction a as [|a IH]; intros l; [reflexivity|].
  destruct l as [|x l]; cbn.
  - rewrite firstn_nil. reflexivity.
  - rewrite IH. reflexivity.
Qed.

Lemma chunks_firstn {A} (l : list A) (n m : nat) :
  List.concat (map (fun k => firstn n (skipn (k * n) l)) (seq 0 m)) = firstn (m * n) l.
Proof.
  induction m as [|m IH]; [reflexivity|].
  rewrite seq_S, map_app, concat_app, IH. cbn [map List.concat Nat.add].
  rewrite app_nil_r. rewrite <- firstn_plus. f_equal. lia.
Qed.

Lemma GetEventVerifications_run eventID f s ev :
  eventID <> "" ->
  eval (GetEventByID eventID) s = Ok ev ->
  1 <= Page f -> 1 <= PageSize f <= 100 ->
  (Page f - 1) * PageSize f < 2 ^ 63 ->
  Z.of_nat (List.length (logs_of_event eventID s)) < 2 ^ 63 - 100 ->
  GetEventVerifications eventID (Some f) s =
  (Ok {| Verifications :=
           OffsetLimit ((Page f - 1) * PageSize f) (PageSize f)
             (order_verified_at_desc (logs_of_event eventID s));
         TotalCount := Z.of_nat (List.length (logs_of_event eventID s));
         ListPage := Page f;
         ListPageSize := PageSize f;
         TotalPages :=
           ceil_div (Z.of_nat (List.length (logs_of_event eventID s))) (PageSize f) |},
   s).
Proof.
  intros Hne Hev Hp Hps Hoff Htotal.
  assert (P63 : 2 ^ 63 = 9223372036854775808) by reflexivity.
  unfold GetEventVerifications. apply String.eqb_neq in Hne. rewrite Hne.
  rewrite bind_read_only, Hev by auto with readonly.
  assert (E1 : (Page f <? 1) = false) by (apply Z.ltb_ge; lia). rewrite E1.
  assert (E2 : (PageSize f <? 1) = false) by (apply Z.ltb_ge; lia).
  assert (E3 : (PageSize f >? 100) = false)
    by (rewrite Z.gtb_ltb; apply Z.ltb_ge; lia).
  rewrite E2, E3. cbn [orb].
  rewrite bind_read_only by auto with readonly.
  unfold GetActionLogsByEvent at 1, query, eval at 1. cbn [fst].
  assert (Hpage : Page f - 1 < 2 ^ 63) by nia.
  rewrite (@wrap64_small (Page f - 1)) by lia.
  rewrite (@wrap64_small ((Page f - 1) * PageSize f)) by nia.
  rewrite (@wrap64_small (_ + PageSize f)) by lia.
  rewrite (@wrap64_small (_ + PageSize f - 1)) by lia.
  rewrite int_div_nonneg by lia. reflexivity.
Qed.

(** X8. The pages of [listForEvent] tile the listing. For an event that
    exists and a page size within [1,100], the pages 1 to totalPages, put
    one after the other, are the ActionLog rows of the event in the order of
    the listing, each row once; no page holds more rows than the page size.
    This holds whatever the date range, action and verifier filters of the
    requests are: they have no effect on the rows returned. *)
Theorem GetEventVerifications_pages_tile (s : Store) (eventID : string)
    (ev : Event.t) (pageSize : Z) (request : Z -> VerificationFilters) :
  eventID <> "" ->
  eval (GetEventByID eventID) s = Ok ev ->
  1 <= pageSize <= 100 ->
  Z.of_nat (List.length (logs_of_event eventID s)) < 2 ^ 63 - 100 ->
  (forall k, Page (request k) = k /\ PageSize (request k) = pageSize) ->
  List.concat (map (fun k => page_rows eventID (request (Z.of_nat k)) s)
              (seq 1 (Z.to_nat (ceil_div (Z.of_nat (List.length
                                                      (logs_of_event eventID s)))
                                         pageSize))))
    = order_verified_at_desc (logs_of_event eventID s) /\
  (forall k, Z.of_nat (List.length (page_rows eventID (request k) s)) <= pageSize).
Proof.
  intros Hne Hev Hps Htotal Hreq.
  set (L := order_verified_at_desc (logs_of_event eventID s)).
  set (total := Z.of_nat (List.length (logs_of_event eventID s))) in *.
  assert (P63 : 2 ^ 63 = 9223372036854775808) by reflexivity.
  pose proof (@ceil_div_spec total pageSize ltac:(lia)) as Hceil.
  assert (Htp : 0 <= ceil_div total pageSize).
  { unfold ceil_div. apply Z.div_pos; lia. }
  assert (Hpage : forall k : nat,
    (k < Z.to_nat (ceil_div total pageSize))%nat ->
    page_rows eventID (request (Z.of_nat (S k))) s
    = firstn (Z.to_nat pageSize) (skipn (k * Z.to_nat pageSize) L)).
  { intros k Hk. unfold page_rows, eval.
    destruct (Hreq (Z.of_nat (S k))) as [E1 E2].
    rewrite (@GetEventVerifications_run eventID (request (Z.of_nat (S k))) s ev);
      try assumption; rewrite ?E1, ?E2; try lia; [|nia].
    cbn [fst Verifications]. unfold OffsetLimit. fold L.
    replace (Z.to_nat ((Z.of_nat (S k) - 1) * pageSize))
      with (k * Z.to_nat pageSize)%nat by nia.
    reflexivity. }
  split.
  - rewrite <- seq_shift, map_map.
    rewrite (map_ext_in _ (fun k => firstn (Z.to_nat pageSize)
                                      (skipn (k * Z.to_nat pageSize) L))).
    + rewrite chunks_firstn. apply firstn_all2.
      unfold L. rewrite order_verified_at_desc_length. fold total in Hceil. nia.
    + intros k Hk. apply in_seq in Hk. apply Hpage. lia.
  - intros k. unfold page_rows.
    destruct (eval (GetEventVerifications eventID (Some (request k))) s)
      as [list|] eqn:E; [|cbn; lia].
    revert E. unfold GetEventVerifications.
    destruct (String.eqb eventID ""); [discriminate|].
    rewrite eval_bind_read_only by auto with readonly.
    destruct (eval (GetEventByID eventID) s); [|discriminate].
    rewrite eval_bind_read_only by auto with readonly.
    unfold GetActionLogsByEvent at 1, query, eval at 2. cbn [fst].
    intros [= <-]. cbn [Verifications]. unfold OffsetLimit.
    destruct (Hreq k) as [_ E2]. rewrite E2.
    assert (E : ((pageSize <? 1) || (pageSize >? 100)) = false).
    { apply orb_false_iff. split; [apply Z.ltb_ge; lia|].
      rewrite Z.gtb_ltb. apply Z.ltb_ge. lia. }
    rewrite E. rewrite length_firstn. lia.
Qed.

Lemma GetEventVerifications_pages_tile_witness :
  List.concat (map (fun k => page_rows (Event.ID Sample.meetup)
                          (Cases.filters (Z.of_nat k) 20) Crowd.store)
              (seq 1 3))
    = order_verified_at_desc (logs_of_event (Event.ID Sample.meetup) Crowd.store).
Proof.
  destruct (@GetEventVerifications_pages_tile Crowd.store (Event.ID Sample.meetup)
              Sample.meetup 20 (fun k => Cases.filters k 20)) as [H _].
  - discriminate.
  - vm_compute. reflexivity.
  - lia.
  - vm_compute. reflexivity.
  - intros k. split; reflexivity.
  - exact H.
Defined.

Lemma In_firstn {A} (n : nat) (l : list A) (x : A) : In x (firstn n l) -> In x l.
Proof.
  intros H. rewrite <- (firstn_skipn n l). apply in_or_app. left. exact H.
Qed.

Lemma In_skipn {A} (n : nat) (l : list A) (x : A) : In x (skipn n l) -> In x l.
Proof.
  intros H. rewrite <- (firstn_skipn n l). apply in_or_app. right. exact H.
Qed.

Lemma filter_key_at_most_one {A} (key : A -> string) (extra : A -> bool)
    (x : string) (rows : list A) :
  NoDup (map key rows) ->
  (List.length (filter (fun r => String.eqb (key r) x && extra r) rows) <= 1)%nat.
Proof.
  induction rows as [|r rows IH]; intros Hnd; cbn; [lia|].
  inversion Hnd as [|? ? Hnotin Hnd']; subst.
  destruct (String.eqb (key r) x && extra r) eqn:E; [|apply IH, Hnd'].
  apply andb_true_iff in E. destruct E as [E _]. apply String.eqb_eq in E.
  assert (F : filter (fun r0 => String.eqb (key r0) x && extra r0) rows = []).
  { clear IH Hnd Hnd'. induction rows as [|r' rows IH]; [reflexivity|]. cbn.
    destruct (String.eqb (key r') x) eqn:E'.
    - apply String.eqb_eq in E'. exfalso. apply Hnotin. left. congruence.
    - cbn. apply IH. intros H. apply Hnotin. right. exact H. }
  rewrite F. cbn. lia.
Qed.

(** X9. What the join selects. When no two participants share an
    identifier, the rows [GetActionLogsByEvent] counts and lists are the
    ActionLog rows whose participant is registered to the event, each once;
    the page is sorted by verification time, latest first, is taken from
    those rows and holds at most [limit] of them. *)
Theorem GetActionLogsByEvent_rows (eventID : string) (offset limit : Z) (s : Store) :
  participant_keys_unique s ->
  exists page total,
    GetActionLogsByEvent eventID offset limit s = (Ok (page, total), s) /\
    total = Z.of_nat (List.length
                        (filter (participant_of_event eventID s) (action_logs s))) /\
    incl page (filter (participant_of_event eventID s) (action_logs s)) /\
    StronglySorted newer_first page /\
    (0 <= limit -> Z.of_nat (List.length page) <= limit).
Proof.
  intros Hkeys.
  assert (J : logs_of_event eventID s
              = filter (participant_of_event eventID s) (action_logs s)).
  { unfold logs_of_event, participant_of_event.
    induction (action_logs s) as [|l logs IH]; [reflexivity|].
    cbn [flat_map filter]. rewrite IH.
    pose proof (@filter_key_at_most_one _ Participant.ID
                  (fun p => String.eqb (UUID_String (Participant.EventID p)) eventID)
                  (ActionLog.ParticipantID l) (participants s) Hkeys) as Hone.
    destruct (filter _ (participants s)) as [|p [|q rest]] eqn:F.
    - cbn. destruct (existsb _ (participants s)) eqn:E; [|reflexivity].
      apply existsb_exists in E. destruct E as (p & Hin & Hp).
      assert (In p []) as []. rewrite <- F. apply filter_In. auto.
    - cbn. assert (E : existsb
        (fun p0 => String.eqb (Participant.ID p0) (ActionLog.ParticipantID l)
                   && String.eqb (UUID_String (Participant.EventID p0)) eventID)
        (participants s) = true).
      { apply existsb_exists. exists p.
        assert (Hin : In p (filter
          (fun p0 => String.eqb (Participant.ID p0) (ActionLog.ParticipantID l)
                     && String.eqb (UUID_String (Participant.EventID p0)) eventID)
          (participants s))) by (rewrite F; left; reflexivity).
        apply filter_In in Hin. exact Hin. }
      rewrite E. reflexivity.
    - cbn in Hone. lia. }
  eexists. eexists. split; [reflexivity|]. rewrite J.
  split; [reflexivity|]. split; [|split].
  - unfold OffsetLimit. intros x Hx. apply In_firstn, In_skipn in Hx.
    eapply Permutation_in; [apply order_verified_at_desc_perm|exact Hx].
  - unfold OffsetLimit.
    assert (Sk : forall n (l : list ActionLog.t),
               StronglySorted newer_first l -> StronglySorted newer_first (skipn n l)).
    { induction n as [|n IH]; intros l Hl; [exact Hl|].
      destruct l as [|x l]; [constructor|]. cbn. apply IH.
      inversion Hl; assumption. }
    assert (Fi : forall n (l : list ActionLog.t),
               StronglySorted newer_first l -> StronglySorted newer_first (firstn n l)).
    { induction n as [|n IH]; intros l Hl; [constructor|].
      destruct l as [|x l]; [constructor|]. cbn.
      inversion Hl as [|? ? Hl' Hall]; subst. constructor; [apply IH, Hl'|].
      apply Forall_forall. intros y Hy. apply In_firstn in Hy.
      rewrite Forall_forall in Hall. apply Hall, Hy. }
    apply Fi, Sk, order_verified_at_desc_sorted.
  - intros Hl. unfold OffsetLimit. rewrite length_firstn. lia.
Qed.

Lemma GetActionLogsByEvent_rows_witness :
  participant_keys_unique Cases.two_checkins /\
  exists page,
    GetActionLogsByEvent (Event.ID Sample.conference) 0 1 Cases.two_checkins
      = (Ok (page, 2), Cases.two_checkins).
Proof.
  assert (K : participant_keys_unique Cases.two_checkins).
  { unfold participant_keys_unique. cbn.
    repeat constructor; cbn; intuition discriminate. }
  split; [exact K|].
  destruct (@GetActionLogsByEvent_rows (Event.ID Sample.conference) 0 1
              Cases.two_checkins K) as (page & total & Heq & Htotal & _).
  exists page. rewrite Heq, Htotal. reflexivity.
Defined.

(* ================================================================== *)
(** * Further properties of the repositories, services and handlers *)

(** ** The catalogue *)

Lemma NoDup_map_snoc {A B} (f : A -> B) (l : list A) (x : A) :
  NoDup (map f l) -> ~ In (f x) (map f l) -> NoDup (map f (l ++ [x])).
Proof.
  intros Hnd Hx. rewrite map_app. cbn.
  apply NoDup_app; [exact Hnd|repeat constructor; intros []|].
  intros y Hy [<-|[]]. exact (Hx Hy).
Qed.

Lemma NoDup_map_filter {A B} (f : A -> B) (keep : A -> bool) (l : list A) :
  NoDup (map f l) -> NoDup (map f (filter keep l)).
Proof.
  induction l as [|x l IH]; cbn; intros Hnd; [constructor|].
  inversion Hnd as [|? ? Hx Hnd']; subst.
  destruct (keep x); [|apply IH, Hnd'].
  cbn. constructor; [|apply IH, Hnd'].
  intros Hin. apply Hx. apply in_map_iff in Hin. destruct Hin as (y & Ey & Hy).
  apply filter_In in Hy. apply in_map_iff. exists y. tauto.
Qed.

Lemma map_update {A B} (f : A -> B) (g : A -> A) (selected : A -> bool) (l : list A) :
  (forall x, f (g x) = f x) ->
  map f (map (fun x => if selected x then g x else x) l) = map f l.
Proof.
  intros Hg. rewrite map_map. apply map_ext. intros x.
  destruct (selected x); [apply Hg|reflexivity].
Qed.

Lemma existsb_key_false {A} (key : A -> string) (k : string) (l : list A) :
  existsb (fun x => String.eqb (key x) k) l = false -> ~ In k (map key l).
Proof.
  intros He Hin. apply in_map_iff in Hin. destruct Hin as (x & <- & Hx).
  assert (existsb (fun y => String.eqb (key y) (key x)) l = true).
  { apply existsb_exists. exists x. split; [exact Hx|apply String.eqb_refl]. }
  congruence.
Qed.

Lemma find_key_none {A} (key : A -> string) (k : string) (l : list A) :
  find (fun x => String.eqb (key x) k) l = None -> ~ In k (map key l).
Proof.
  intros He Hin. apply in_map_iff in Hin. destruct Hin as (x & <- & Hx).
  pose proof (find_none _ _ He x Hx) as H. cbn in H.
  rewrite String.eqb_refl in H. discriminate.
Qed.

Lemma find_key_some {A} (key : A -> string) (k : string) (l : list A) (x : A) :
  find (fun x => String.eqb (key x) k) l = Some x -> In k (map key l).
Proof.
  intros He. apply find_some in He. destruct He as [Hx E].
  apply String.eqb_eq in E. subst k. apply in_map, Hx.
Qed.

Lemma CreateEvent_run generated event s :
  CreateEvent generated (Some event) s =
  match find (fun e => String.eqb (Event.Slug e) (Event.Slug event)) (events s) with
  | Some _ => (Some (errorString ("event with slug '" ++ Event.Slug event
                                    ++ "' already exists")), s)
  | None => insert_event generated event s
  end.
Proof.
  unfold CreateEvent, bind, query, First.
  destruct (find _ (events s)); reflexivity.
Qed.

Lemma CreateEventDay_run generated day s :
  CreateEventDay generated (Some day) s =
  match find (fun e => String.eqb (Event.ID e) (EventDay.EventID day)) (events s) with
  | None => (Some (errorString ("event not found with ID: "
                                  ++ UUID_String (EventDay.EventID day))), s)
  | Some _ =>
      match find (fun d => String.eqb (EventDay.EventID d) (EventDay.EventID day)
                           && (EventDay.DayNumber d =? EventDay.DayNumber day))
                 (event_days s) with
      | Some _ => (Some (errorString ("day number " ++ Sprint_d (EventDay.DayNumber day)
                                        ++ " already exists for this event")), s)
      | None => insert_event_day generated day s
      end
  end.
Proof.
  unfold CreateEventDay, bind, query, First.
  destruct (find _ (events s)); [|reflexivity].
  destruct (find _ (event_days s)); reflexivity.
Qed.

Lemma CreateEventAction_run generated action s :
  CreateEventAction generated (Some action) s =
  match find (fun d => String.eqb (EventDay.ID d) (EventAction.EventDayID action))
             (event_days s) with
  | None => (Some (errorString ("event day not found with ID: "
                                  ++ UUID_String (EventAction.EventDayID action))), s)
  | Some _ =>
      match find (fun a => String.eqb (EventAction.Code a) (EventAction.Code action))
                 (event_actions s) with
      | Some _ => (Some (errorString ("event action with code '"
                                        ++ EventAction.Code action
                                        ++ "' already exists")), s)
      | None => insert_event_action generated action s
      end
  end.
Proof.
  unfold CreateEventAction, bind, query, First.
  destruct (find _ (event_days s)); [|reflexivity].
  destruct (find _ (event_actions s)); reflexivity.
Qed.

Lemma same_people_refl s : same_people s s.
Proof. repeat split. Qed.

Lemma same_people_trans s1 s2 s3 :
  same_people s1 s2 -> same_people s2 s3 -> same_people s1 s3.
Proof.
  unfold same_people. intros (A1 & A2 & A3) (B1 & B2 & B3).
  repeat split; congruence.
Qed.

Lemma CreateEvent_ok generated event s :
  catalogue_ok s ->
  catalogue_ok (exec (CreateEvent generated event) s) /\
  same_people s (exec (CreateEvent generated event) s).
Proof.
  intros [H1 H2 H3 H4 H5 H6 H7 H8]. unfold exec.
  destruct event as [event|]; [|split; [constructor; assumption|apply same_people_refl]].
  rewrite CreateEvent_run.
  destruct (find _ (events s)) eqn:F;
    [split; [constructor; assumption|apply same_people_refl]|].
  unfold insert_event.
  destruct (existsb _ (events s) || existsb _ (events s)) eqn:E;
    [split; [constructor; assumption|apply same_people_refl]|].
  apply orb_false_iff in E. destruct E as [E1 E2].
  split; [|repeat split].
  constructor; cbn [snd with_events events event_days event_actions]; try assumption.
  - apply NoDup_map_snoc; [exact H1|]. apply existsb_key_false, E1.
  - apply NoDup_map_snoc; [exact H2|]. apply existsb_key_false, E2.
  - intros d Hd. rewrite map_app. apply in_or_app. left. apply H7, Hd.
Qed.

Lemma SoftDeleteEvent_ok id s :
  catalogue_ok s ->
  catalogue_ok (exec (SoftDeleteEvent id) s) /\
  same_people s (exec (SoftDeleteEvent id) s).
Proof.
  intros [H1 H2 H3 H4 H5 H6 H7 H8]. unfold exec, SoftDeleteEvent.
  destruct (String.eqb id "");
    [split; [constructor; assumption|apply same_people_refl]|].
  assert (G : forall e : option error,
    catalogue_ok (snd (e, with_events
       (map (fun e => if String.eqb (UUID_String (Event.ID e)) id
                      then deactivate_event e else e) (events s)) s))).
  { intros e. constructor; cbn [snd with_events events event_days event_actions];
      try assumption.
    - rewrite map_update by reflexivity. exact H1.
    - rewrite map_update by reflexivity. exact H2.
    - rewrite map_update by reflexivity. exact H7. }
  destruct (Count _ (events s) =? 0); (split; [apply G|repeat split]).
Qed.

Lemma CreateEventDay_ok generated day s :
  catalogue_ok s ->
  catalogue_ok (exec (CreateEventDay generated day) s) /\
  same_people s (exec (CreateEventDay generated day) s).
Proof.
  intros [H1 H2 H3 H4 H5 H6 H7 H8]. unfold exec.
  destruct day as [day|]; [|split; [constructor; assumption|apply same_people_refl]].
  rewrite CreateEventDay_run.
  destruct (find _ (events s)) as [ev|] eqn:Fe;
    [|split; [constructor; assumption|apply same_people_refl]].
  destruct (find _ (event_days s)) eqn:Fd;
    [split; [constructor; assumption|apply same_people_refl]|].
  unfold insert_event_day.
  destruct (existsb _ (event_days s)) eqn:E;
    [split; [constructor; assumption|apply same_people_refl]|].
  split; [|repeat split].
  constructor; cbn [snd with_event_days events event_days event_actions];
    try assumption.
  - apply NoDup_map_snoc; [exact H3|]. apply existsb_key_false, E.
  - apply NoDup_map_snoc; [exact H4|].
    intros Hin. apply in_map_iff in Hin. destruct Hin as (d & Ed & Hd).
    pose proof (find_none _ _ Fd d Hd) as Hf. cbn in Hf.
    unfold day_key in Ed. cbn in Ed. injection Ed as Ee En.
    rewrite Ee, En, String.eqb_refl, Z.eqb_refl in Hf. discriminate.
  - intros d Hd. apply in_app_or in Hd. destruct Hd as [Hd|[<-|[]]].
    + apply H7, Hd.
    + cbn. apply (find_key_some _ _ _ Fe).
  - intros a Ha. rewrite map_app. apply in_or_app. left. apply H8, Ha.
Qed.

Lemma filter_none_selected {A} (selected : A -> bool) (l : list A) :
  Count selected l = 0 -> filter (fun x => negb (selected x)) l = l.
Proof.
  unfold Count. induction l as [|x l IH]; cbn; [reflexivity|].
  destruct (selected x); cbn; [lia|]. intros H. rewrite IH by exact H. reflexivity.
Qed.

Lemma Count_zero {A} (selected : A -> bool) (l : list A) (x : A) :
  Count selected l = 0 -> In x l -> selected x = false.
Proof.
  unfold Count. intros H Hx.
  destruct (selected x) eqn:E; [|reflexivity].
  assert (Hin : In x (filter selected l)) by (apply filter_In; auto).
  destruct (filter selected l); [destruct Hin|cbn in H; lia].
Qed.

Lemma Count_zero_iff {A} (selected : A -> bool) (l : list A) :
  Count selected l = 0 <-> forall x, In x l -> selected x = false.
Proof.
  split; [intros H x; apply Count_zero, H|].
  unfold Count. induction l as [|x l IH]; cbn; intros H; [reflexivity|].
  rewrite (H x) by (left; reflexivity). apply IH. intros y Hy. apply H. right. exact Hy.
Qed.

Lemma Count_nonneg {A} (selected : A -> bool) (l : list A) : 0 <= Count selected l.
Proof. unfold Count. lia. Qed.

Lemma DeleteEventDay_ok id s :
  catalogue_ok s ->
  catalogue_ok (exec (DeleteEventDay id) s) /\
  same_people s (exec (DeleteEventDay id) s).
Proof.
  intros [H1 H2 H3 H4 H5 H6 H7 H8]. unfold exec, DeleteEventDay.
  destruct (String.eqb id "");
    [split; [constructor; assumption|apply same_people_refl]|].
  unfold bind, query.
  destruct (Count _ (event_actions s) >? 0) eqn:C;
    [split; [constructor; assumption|apply same_people_refl]|].
  assert (C0 : Count (fun a => String.eqb (UUID_String (EventAction.EventDayID a)) id)
                     (event_actions s) = 0).
  { pose proof (Count_nonneg
      (fun a => String.eqb (UUID_String (EventAction.EventDayID a)) id)
      (event_actions s)). rewrite Z.gtb_ltb in C. apply Z.ltb_ge in C. lia. }
  assert (G : forall e : option error,
    catalogue_ok (snd (e, with_event_days
       (filter (fun d => negb (String.eqb (UUID_String (EventDay.ID d)) id))
               (event_days s)) s))).
  { intros e. constructor; cbn [snd with_event_days events event_days event_actions];
      try assumption.
    - apply NoDup_map_filter, H3.
    - apply NoDup_map_filter, H4.
    - intros d Hd. apply filter_In in Hd. apply H7, Hd.
    - intros a Ha. pose proof (H8 a Ha) as Hin.
      apply in_map_iff in Hin. destruct Hin as (d & Ed & Hd).
      apply in_map_iff. exists d. split; [exact Ed|].
      apply filter_In. split; [exact Hd|].
      pose proof (Count_zero _ _ a C0 Ha) as Hs. cbn in Hs.
      unfold UUID_String in *. rewrite Ed, Hs. reflexivity. }
  destruct (Count _ (event_days s) =? 0); (split; [apply G|repeat split]).
Qed.

Lemma CreateEventAction_ok generated action s :
  catalogue_ok s ->
  catalogue_ok (exec (CreateEventAction generated action) s) /\
  same_people s (exec (CreateEventAction generated action) s).
Proof.
  intros [H1 H2 H3 H4 H5 H6 H7 H8]. unfold exec.
  destruct action as [action|];
    [|split; [constructor; assumption|apply same_people_refl]].
  rewrite CreateEventAction_run.
  destruct (find _ (event_days s)) as [d0|] eqn:Fd;
    [|split; [constructor; assumption|apply same_people_refl]].
  destruct (find _ (event_actions s)) eqn:Fa;
    [split; [constructor; assumption|apply same_people_refl]|].
  unfold insert_event_action.
  destruct (existsb _ (event_actions s) || existsb _ (event_actions s)) eqn:E;
    [split; [constructor; assumption|apply same_people_refl]|].
  apply orb_false_iff in E. destruct E as [E1 E2].
  split; [|repeat split].
  constructor; cbn [snd with_event_actions events event_days event_actions];
    try assumption.
  - apply NoDup_map_snoc; [exact H5|]. apply existsb_key_false, E1.
  - apply NoDup_map_snoc; [exact H6|]. apply existsb_key_false, E2.
  - intros a Ha. apply in_app_or in Ha. destruct Ha as [Ha|[<-|[]]].
    + apply H8, Ha.
    + cbn. apply (find_key_some _ _ _ Fd).
Qed.

Lemma DeleteEventAction_ok id s :
  catalogue_ok s ->
  catalogue_ok (exec (DeleteEventAction id) s) /\
  same_people s (exec (DeleteEventAction id) s).
Proof.
  intros [H1 H2 H3 H4 H5 H6 H7 H8]. unfold exec, DeleteEventAction.
  destruct (String.eqb id "");
    [split; [constructor; assumption|apply same_people_refl]|].
  assert (G : forall e : option error,
    catalogue_ok (snd (e, with_event_actions
       (map (fun a => if String.eqb (UUID_String (EventAction.ID a)) id
                      then deactivate_action a else a) (event_actions s)) s))).
  { intros e. constructor; cbn [snd with_event_actions events event_days event_actions];
      try assumption.
    - rewrite map_update by reflexivity. exact H5.
    - rewrite map_update by reflexivity. exact H6.
    - intros a Ha. apply in_map_iff in Ha. destruct Ha as (a0 & Ea & Ha0).
      pose proof (H8 a0 Ha0) as Hin.
      destruct (String.eqb (UUID_String (EventAction.ID a0)) id); subst a; exact Hin. }
  destruct (Count _ (event_actions s) =? 0); (split; [apply G|repeat split]).
Qed.

Lemma perform_ok w s :
  catalogue_ok s ->
  catalogue_ok (exec (perform w) s) /\ same_people s (exec (perform w) s).
Proof.
  destruct w; cbn [perform].
  - apply CreateEvent_ok.
  - apply SoftDeleteEvent_ok.
  - apply CreateEventDay_ok.
  - apply DeleteEventDay_ok.
  - apply CreateEventAction_ok.
  - apply DeleteEventAction_ok.
Qed.

Lemma exec_perform_all_cons w ws s :
  exec (perform_all (w :: ws)) s = exec (perform_all ws) (exec (perform w) s).
Proof.
  unfold exec. cbn [perform_all]. unfold bind, ret.
  destruct (perform w s) as [e s1]. cbn [snd].
  destruct (perform_all ws s1) as [es s2]. reflexivity.
Qed.

(** X10. The checks of the catalogue writes of [eventRepo] keep the
    catalogue well formed. Whatever series of CreateEvent, SoftDeleteEvent,
    CreateEventDay, DeleteEventDay, CreateEventAction and DeleteEventAction
    calls is made, with whatever arguments, a store in which identifiers,
    slugs, action codes and the day numbers of an event are unique, every
    day belongs to an event and every action to a day is still such a store
    afterwards; users, participants and action logs are not touched. *)
Theorem catalogue_writes_keep_catalogue_ok (ws : list catalogue_write) (s : Store) :
  catalogue_ok s ->
  catalogue_ok (exec (perform_all ws) s) /\
  same_people s (exec (perform_all ws) s).
Proof.
  revert s. induction ws as [|w ws IH]; intros s Hs.
  - split; [exact Hs|apply same_people_refl].
  - rewrite exec_perform_all_cons.
    destruct (perform_ok w Hs) as [H1 H2].
    destruct (IH _ H1) as [H3 H4].
    split; [exact H3|]. eapply same_people_trans; eassumption.
Qed.

Lemma map_none_selected {A} (selected : A -> bool) (g : A -> A) (l : list A) :
  Count selected l = 0 -> map (fun x => if selected x then g x else x) l = l.
Proof.
  unfold Count. induction l as [|x l IH]; cbn; [reflexivity|].
  destruct (selected x); cbn; [lia|]. intros H. rewrite IH by exact H. reflexivity.
Qed.

Lemma with_events_same s : with_events (events s) s = s.
Proof. destruct s; reflexivity. Qed.

Lemma with_event_days_same s : with_event_days (event_days s) s = s.
Proof. destruct s; reflexivity. Qed.

Lemma with_event_actions_same s : with_event_actions (event_actions s) s = s.
Proof. destruct s; reflexivity. Qed.

Lemma with_participants_same s : with_participants (participants s) s = s.
Proof. destruct s; reflexivity. Qed.

(** X11. A catalogue write that returns an error has changed nothing. This
    includes the soft deletes and the delete, which run their UPDATE or
    DELETE before they look at the number of rows affected. *)
Theorem catalogue_write_refused (w : catalogue_write) (s : Store) (err : error) :
  eval (perform w) s = Some err -> exec (perform w) s = s.
Proof.
  unfold eval, exec. destruct w as [g ev|id|g day|id|g action|id]; cbn [perform].
  - destruct ev as [ev|]; [|reflexivity]. rewrite CreateEvent_run.
    destruct (find _ (events s)); [reflexivity|]. unfold insert_event.
    destruct (_ || _); [reflexivity|discriminate].
  - unfold SoftDeleteEvent. destruct (String.eqb id ""); [reflexivity|].
    destruct (Count _ (events s) =? 0) eqn:C; [|discriminate].
    apply Z.eqb_eq in C. intros _. cbn [snd].
    rewrite map_none_selected by exact C. apply with_events_same.
  - destruct day as [day|]; [|reflexivity]. rewrite CreateEventDay_run.
    destruct (find _ (events s)); [|reflexivity].
    destruct (find _ (event_days s)); [reflexivity|]. unfold insert_event_day.
    destruct (existsb _ _); [reflexivity|discriminate].
  - unfold DeleteEventDay. destruct (String.eqb id ""); [reflexivity|].
    unfold bind, query. destruct (Count _ (event_actions s) >? 0); [reflexivity|].
    destruct (Count _ (event_days s) =? 0) eqn:C; [|discriminate].
    apply Z.eqb_eq in C. intros _. cbn [snd].
    rewrite filter_none_selected by exact C. apply with_event_days_same.
  - destruct action as [action|]; [|reflexivity]. rewrite CreateEventAction_run.
    destruct (find _ (event_days s)); [|reflexivity].
    destruct (find _ (event_actions s)); [reflexivity|]. unfold insert_event_action.
    destruct (_ || _); [reflexivity|discriminate].
  - unfold DeleteEventAction. destruct (String.eqb id ""); [reflexivity|].
    destruct (Count _ (event_actions s) =? 0) eqn:C; [|discriminate].
    apply Z.eqb_eq in C. intros _. cbn [snd].
    rewrite map_none_selected by exact C. apply with_event_actions_same.
Qed.

Lemma find_snoc_new {A} (cond : A -> bool) (l : list A) (x : A) :
  (forall y, In y l -> cond y = false) -> cond x = true ->
  find cond (l ++ [x]) = Some x.
Proof.
  intros Hl Hx. induction l as [|y l IH]; cbn.
  - rewrite Hx. reflexivity.
  - rewrite (Hl y) by (left; reflexivity). apply IH.
    intros z Hz. apply Hl. right. exact Hz.
Qed.

Lemma CreateEventAction_success generated action s :
  eval (CreateEventAction generated (Some action)) s = None ->
  exec (CreateEventAction generated (Some action)) s
    = with_event_actions
        (event_actions s ++ [created_event_action generated action]) s /\
  In (EventAction.EventDayID action) (map EventDay.ID (event_days s)) /\
  ~ In (EventAction.Code action) (map EventAction.Code (event_actions s)) /\
  ~ In (EventAction.ID (created_event_action generated action))
       (map EventAction.ID (event_actions s)).
Proof.
  unfold eval, exec. rewrite CreateEventAction_run.
  destruct (find _ (event_days s)) eqn:Fd; [|discriminate].
  destruct (find _ (event_actions s)) eqn:Fa; [discriminate|].
  unfold insert_event_action.
  destruct (existsb _ (event_actions s) || existsb _ (event_actions s)) eqn:E;
    [discriminate|].
  apply orb_false_iff in E. destruct E as [E1 E2]. intros _.
  split; [reflexivity|]. split; [apply (find_key_some _ _ _ Fd)|].
  split; [apply find_key_none, Fa|apply existsb_key_false, E1].
Qed.

(** X12. An action with a non-empty code that [CreateEventAction] accepted
    is appended to the table as an active row, also when the struct had
    [IsActive] unset, and any further action with the same code is refused
    without a write. The action is not redeemable for all that. Before the
    insert the lookup by code reports that no action has the code; after
    it, the action lookup of [verify] finds the new row and loses it to the
    preload, and fails with DatabaseError. *)
Theorem CreateEventAction_then_lookup (generated : UUID) (action : EventAction.t)
    (s : Store) :
  eval (CreateEventAction generated (Some action)) s = None ->
  EventAction.Code action <> "" ->
  let row := created_event_action generated action in
  let s' := exec (CreateEventAction generated (Some action)) s in
  event_actions s' = event_actions s ++ [row] /\
  EventAction.IsActive row = true /\
  eval (GetEventActionByCode (EventAction.Code action)) s
    = Err (errorString ("event action not found with code: "
                          ++ EventAction.Code action)) /\
  eval (getAndValidateAction (EventAction.Code action)) s'
    = Err (NewVerificationError "failed to get action" ErrDatabaseError
             (Some (wrapError "failed to get event action: "
                      (unsupported_relation "EventDay" "EventAction")))) /\
  forall generated' action',
    EventAction.Code action' = EventAction.Code action ->
    exists err,
      CreateEventAction generated' (Some action') s' = (Some err, s').
Proof.
  intros Hok Hcode row s'.
  destruct (CreateEventAction_success _ _ _ Hok) as (Hs & Hday & Hnew & Hid).
  fold s' in Hs.
  assert (Hrows : event_actions s' = event_actions s ++ [row])
    by (rewrite Hs; reflexivity).
  assert (Hact : EventAction.IsActive row = true).
  { cbn. unfold default_true. destruct (EventAction.IsActive action); reflexivity. }
  split; [exact Hrows|]. split; [exact Hact|].
  apply String.eqb_neq in Hcode. split; [|split].
  - rewrite GetEventActionByCode_eval. unfold action_lookup_error. rewrite Hcode.
    destruct (find _ (event_actions s)) as [x|] eqn:F; [|reflexivity].
    exfalso. apply find_some in F. destruct F as [Hin F].
    apply andb_true_iff in F. destruct F as [F _]. apply String.eqb_eq in F.
    apply Hnew. rewrite <- F. apply in_map, Hin.
  - rewrite getAndValidateAction_eval. unfold action_lookup_error.
    rewrite Hcode, Hrows.
    rewrite (@find_snoc_new _ _ (event_actions s) row); [reflexivity| |].
    + intros y Hy. apply andb_false_iff. left. apply String.eqb_neq.
      intros E. apply Hnew. rewrite <- E. apply in_map, Hy.
    + cbn [row created_event_action EventAction.Code EventAction.IsActive].
      rewrite String.eqb_refl. unfold default_true.
      destruct (EventAction.IsActive action); reflexivity.
  - intros g' a' Ecode. rewrite CreateEventAction_run.
    destruct (find _ (event_days s')); [|eexists; reflexivity].
    rewrite Hrows.
    destruct (find _ (event_actions s ++ [row])) eqn:F; [eexists; reflexivity|].
    exfalso. pose proof (find_none _ _ F row) as Hf.
    rewrite Ecode in Hf. cbn in Hf. rewrite String.eqb_refl in Hf.
    assert (In row (event_actions s ++ [row])) by (apply in_or_app; right; left; reflexivity).
    specialize (Hf H). discriminate.
Qed.

Lemma find_map_update {A} (selected : A -> bool) (g : A -> A) (l : list A) :
  (forall x, selected (g x) = selected x) ->
  find selected (map (fun x => if selected x then g x else x) l)
    = option_map g (find selected l).
Proof.
  intros Hg. induction l as [|x l IH]; cbn; [reflexivity|].
  destruct (selected x) eqn:E.
  - rewrite Hg, E. reflexivity.
  - rewrite E. exact IH.
Qed.

Lemma DeleteEventAction_run id s :
  id <> "" ->
  DeleteEventAction id s =
  (if Count (fun a => String.eqb (UUID_String (EventAction.ID a)) id)
            (event_actions s) =? 0
   then Some (errorString ("event action not found with ID: " ++ id))
   else None,
   with_event_actions
     (map (fun a => if String.eqb (UUID_String (EventAction.ID a)) id
                    then deactivate_action a else a)
          (event_actions s)) s).
Proof.
  intros Hne. unfold DeleteEventAction. apply String.eqb_neq in Hne. rewrite Hne.
  destruct (Count _ _ =? 0); reflexivity.
Qed.

Lemma DeleteEventAction_success id s :
  eval (DeleteEventAction id) s = None ->
  id <> "" /\
  exec (DeleteEventAction id) s =
  with_event_actions
     (map (fun a => if String.eqb (UUID_String (EventAction.ID a)) id
                    then deactivate_action a else a)
          (event_actions s)) s.
Proof.
  intros H.
  assert (Hne : id <> "").
  { intros ->. discriminate H. }
  split; [exact Hne|]. unfold exec. rewrite DeleteEventAction_run by exact Hne.
  reflexivity.
Qed.

(** X13. A deleted action keeps its code. When [DeleteEventAction]
    succeeded, the identifier is not empty and was the identifier of an
    action; every action with the identifier is now inactive, the other
    actions are the ones there were, and the codes of the table are what
    they were. So [CreateEventAction] still refuses a new action under the
    code of a deleted one. *)
Theorem DeleteEventAction_keeps_code (id : string) (s : Store) :
  eval (DeleteEventAction id) s = None ->
  let s' := exec (DeleteEventAction id) s in
  id <> "" /\
  In id (map EventAction.ID (event_actions s)) /\
  (forall a, In a (event_actions s') -> EventAction.ID a = id ->
             EventAction.IsActive a = false) /\
  (forall a, EventAction.ID a <> id ->
             (In a (event_actions s') <-> In a (event_actions s))) /\
  map EventAction.Code (event_actions s') = map EventAction.Code (event_actions s) /\
  (forall a generated action',
     In a (event_actions s) ->
     EventAction.Code action' = EventAction.Code a ->
     exists err, CreateEventAction generated (Some action') s' = (Some err, s')).
Proof.
  intros Hok s'.
  destruct (DeleteEventAction_success _ _ Hok) as [Hne Hs]. fold s' in Hs.
  set (selected := fun x : EventAction.t =>
                     String.eqb (UUID_String (EventAction.ID x)) id) in *.
  assert (Hrows : event_actions s'
                  = map (fun x => if selected x then deactivate_action x else x)
                        (event_actions s))
    by (rewrite Hs; reflexivity).
  assert (Hcodes : map EventAction.Code (event_actions s')
                   = map EventAction.Code (event_actions s)).
  { rewrite Hrows. apply map_update. reflexivity. }
  split; [exact Hne|]. split; [|split; [|split; [|split]]].
  - unfold eval in Hok. rewrite DeleteEventAction_run in Hok by exact Hne.
    cbn [fst] in Hok.
    destruct (Count _ (event_actions s) =? 0) eqn:C; [discriminate|].
    apply Z.eqb_neq in C.
    destruct (existsb selected (event_actions s)) eqn:Ex.
    + apply existsb_exists in Ex. destruct Ex as (x & Hx & Ex).
      apply String.eqb_eq in Ex. unfold UUID_String in Ex. rewrite <- Ex.
      apply in_map, Hx.
    + exfalso. apply C. apply Count_zero_iff. intros x Hx.
      change (selected x = false).
      destruct (selected x) eqn:E; [|reflexivity].
      assert (existsb selected (event_actions s) = true); [|congruence].
      apply existsb_exists. eauto.
  - intros a Ha Hid. rewrite Hrows in Ha. apply in_map_iff in Ha.
    destruct Ha as (x & Ex & _).
    destruct (selected x) eqn:E; subst a; [reflexivity|].
    unfold selected, UUID_String in E. rewrite Hid, String.eqb_refl in E.
    discriminate.
  - intros a Hid. rewrite Hrows. split.
    + intros Ha. apply in_map_iff in Ha. destruct Ha as (x & Ex & Hx).
      destruct (selected x) eqn:E; subst a; [|exact Hx].
      exfalso. apply Hid. apply String.eqb_eq in E. exact E.
    + intros Ha. apply in_map_iff. exists a. split; [|exact Ha].
      destruct (selected a) eqn:E; [|reflexivity].
      exfalso. apply Hid. apply String.eqb_eq in E. exact E.
  - exact Hcodes.
  - intros a g a' Ha Ecode. rewrite CreateEventAction_run.
    destruct (find _ (event_days s')); [|eexists; reflexivity].
    destruct (find _ (event_actions s')) eqn:F; [eexists; reflexivity|].
    exfalso. apply find_key_none in F. apply F.
    rewrite Hcodes, Ecode. apply in_map, Ha.
Qed.

(** ** What [verify] reads *)

Lemma extractParticipantFromQR_participants lib qr s s' :
  participants s' = participants s ->
  eval (extractParticipantFromQR lib qr) s'
    = eval (extractParticipantFromQR lib qr) s.
Proof.
  intros E. unfold extractParticipantFromQR.
  destruct (ExtractUUIDFromQRPath lib qr).
  - rewrite !lookup_participant_eval, E. reflexivity.
  - destruct (uuid_Parse lib qr); [reflexivity|].
    rewrite !lookup_participant_eval, E. reflexivity.
Qed.

Lemma getAndValidateAction_actions code s s' :
  event_actions s' = event_actions s ->
  eval (getAndValidateAction code) s' = eval (getAndValidateAction code) s.
Proof.
  intros E. rewrite !getAndValidateAction_eval. unfold action_lookup_error.
  rewrite E. reflexivity.
Qed.

Lemma GetUserByID_users id s s' :
  users s' = users s -> eval (GetUserByID id) s' = eval (GetUserByID id) s.
Proof.
  intros E. unfold GetUserByID, eval, query. cbn [fst]. rewrite E. reflexivity.
Qed.

Lemma checkEventDayValidity_days lib t id s s' :
  event_days s' = event_days s ->
  eval (checkEventDayValidity lib t id) s' = eval (checkEventDayValidity lib t id) s.
Proof.
  intros E. rewrite !checkEventDayValidity_eval. unfold GetEventDayByID.
  destruct (String.eqb id ""); [reflexivity|].
  unfold eval, query. cbn [fst]. rewrite E. reflexivity.
Qed.

(** [verify] reads the events through [isPaidEvent] only. *)
Lemma VerifyParticipantAction_reads lib env req s s' :
  users s' = users s -> participants s' = participants s ->
  event_days s' = event_days s -> event_actions s' = event_actions s ->
  action_logs s' = action_logs s ->
  (forall id, eval (isPaidEvent id) s' = eval (isPaidEvent id) s) ->
  eval (VerifyParticipantAction lib env req) s'
    = eval (VerifyParticipantAction lib env req) s /\
  action_logs (exec (VerifyParticipantAction lib env req) s')
    = action_logs (exec (VerifyParticipantAction lib env req) s).
Proof.
  intros Hu Hp Hd Ha Hl He. unfold eval at 1 2, exec.
  rewrite !VerifyParticipantAction_run.
  destruct (validateVerifyRequest req); [auto|].
  rewrite (extractParticipantFromQR_participants lib _ _ _ Hp).
  destruct (eval (extractParticipantFromQR _ _) s) as [p|]; [|auto].
  rewrite (getAndValidateAction_actions _ _ _ Ha).
  destruct (eval (getAndValidateAction _) s) as [a|]; [|auto].
  rewrite (GetUserByID_users _ _ _ Hu).
  destruct (eval (GetUserByID _) s) as [v|]; [|auto].
  rewrite !performVerificationChecks_eval.
  unfold payment_blocks, already_verified.
  rewrite He, Hl, (checkEventDayValidity_days lib _ _ _ _ Hd).
  destruct (_ && _); [auto|].
  destruct (Count _ _ >? 0); [auto|].
  destruct (event_mismatch p a); [auto|].
  destruct (eval (checkEventDayValidity _ _ _) s); [auto|].
  destruct (existsb _ (action_logs s)); [auto|].
  cbn [fst snd insert_log action_logs]. rewrite Hl. auto.
Qed.

Lemma find_map_preserve {A} (cond : A -> bool) (u : A -> A) (l : list A) :
  (forall x, cond (u x) = cond x) ->
  find cond (map u l) = option_map u (find cond l).
Proof.
  intros Hu. induction l as [|x l IH]; cbn; [reflexivity|].
  rewrite Hu. destruct (cond x); [reflexivity|exact IH].
Qed.

Lemma SoftDeleteEvent_exec id s :
  exec (SoftDeleteEvent id) s =
  if String.eqb id "" then s
  else with_events
         (map (fun e => if String.eqb (UUID_String (Event.ID e)) id
                        then deactivate_event e else e) (events s)) s.
Proof.
  unfold exec, SoftDeleteEvent. destruct (String.eqb id ""); [reflexivity|].
  destruct (Count _ _ =? 0); reflexivity.
Qed.

(** X14. [verify] does not look at [is_active] of an event. After
    [SoftDeleteEvent] for a non-empty identifier every event with the
    identifier is inactive, and after any [SoftDeleteEvent] a [verify] call
    returns the same result and leaves the same action logs as it would
    have without the soft delete. *)
Theorem SoftDeleteEvent_keeps_redemption (lib : GoLib) (id : string) (s : Store)
    (env : Env) (req : VerifyRequest) :
  let s' := exec (SoftDeleteEvent id) s in
  (id <> "" ->
   forall e, In e (events s') -> Event.ID e = id -> Event.IsActive e = false) /\
  eval (VerifyParticipantAction lib env req) s'
    = eval (VerifyParticipantAction lib env req) s /\
  action_logs (exec (VerifyParticipantAction lib env req) s')
    = action_logs (exec (VerifyParticipantAction lib env req) s).
Proof.
  intros s'. unfold s'. rewrite SoftDeleteEvent_exec.
  destruct (String.eqb id "") eqn:Eid.
  { apply String.eqb_eq in Eid. split; [intros H; contradiction|auto]. }
  split.
  - intros _ e He Hid. cbn [events with_events] in He.
    apply in_map_iff in He. destruct He as (e0 & Ee & _).
    destruct (String.eqb (UUID_String (Event.ID e0)) id) eqn:E0.
    + subst e. reflexivity.
    + subst e. unfold UUID_String in E0. rewrite Hid, String.eqb_refl in E0.
      discriminate.
  - apply VerifyParticipantAction_reads; try reflexivity.
    intros eid. rewrite !isPaidEvent_eval. unfold GetEventByID.
    destruct (String.eqb eid ""); [reflexivity|].
    unfold eval, query, First. cbn [fst with_events events].
    set (sel := fun e : Event.t => String.eqb (UUID_String (Event.ID e)) id).
    rewrite (@find_map_preserve _
               (fun e => String.eqb (UUID_String (Event.ID e)) eid)
               (fun e => if sel e then deactivate_event e else e)).
    + destruct (find _ (events s)) as [e|]; [|reflexivity]. cbn.
      destruct (sel e); reflexivity.
    + intros x. destruct (sel x); reflexivity.
Qed.

(** ** Payment status *)

Lemma UpdatePaymentStatus_allowed participantID status s :
  status = "unpaid" \/ status = "pending" \/ status = "paid" ->
  UpdatePaymentStatus participantID status s =
  (None,
   with_participants
     (map (fun p => if String.eqb (UUID_String (Participant.ID p)) participantID
                       && live p
                    then set_payment_status status p else p)
          (participants s)) s).
Proof.
  intros [ -> | [ -> | -> ] ]; reflexivity.
Qed.

Lemma GetParticipantByID_updated participantID status id s :
  eval (GetParticipantByID id)
       (with_participants
          (map (fun p => if String.eqb (UUID_String (Participant.ID p)) participantID
                            && live p
                         then set_payment_status status p else p)
               (participants s)) s)
  = match eval (GetParticipantByID id) s with
    | Ok p => Ok (if String.eqb id participantID
                  then set_payment_status status p else p)
    | Err err => Err err
    end.
Proof.
  unfold GetParticipantByID, eval, query, First. cbn [fst with_participants participants].
  rewrite (@find_map_preserve _
             (fun p => String.eqb (UUID_String (Participant.ID p)) id && live p)).
  - destruct (find _ (participants s)) as [p|] eqn:F; [|reflexivity]. cbn.
    apply find_some in F. destruct F as [_ F].
    apply andb_true_iff in F. destruct F as [F1 F2].
    apply String.eqb_eq in F1. rewrite F1, F2, andb_true_r. reflexivity.
  - intros x. destruct (_ && live x); reflexivity.
Qed.

(** X15. [UpdatePaymentStatus] of the participant service. A status other
    than unpaid, pending and paid is refused with "invalid payment status"
    and nothing is written. An allowed status is accepted, also when no
    participant has the identifier; afterwards a lookup by identifier
    returns the row it returned before, with the new status when the
    identifier is the one updated, and no other table has changed. *)
Theorem UpdatePaymentStatus_effect (participantID status : string) (s : Store) :
  (status <> "unpaid" -> status <> "pending" -> status <> "paid" ->
   UpdatePaymentStatus participantID status s
     = (Some (errorString "invalid payment status"), s)) /\
  (status = "unpaid" \/ status = "pending" \/ status = "paid" ->
   let s' := exec (UpdatePaymentStatus participantID status) s in
   eval (UpdatePaymentStatus participantID status) s = None /\
   users s' = users s /\ events s' = events s /\ event_days s' = event_days s /\
   event_actions s' = event_actions s /\ action_logs s' = action_logs s /\
   forall id,
     eval (GetParticipantByID id) s'
     = match eval (GetParticipantByID id) s with
       | Ok p => Ok (if String.eqb id participantID
                     then set_payment_status status p else p)
       | Err err => Err err
       end).
Proof.
  split.
  - intros H1 H2 H3. unfold UpdatePaymentStatus.
    apply String.eqb_neq in H1, H2, H3. rewrite H1, H2, H3. reflexivity.
  - intros Hst s'. unfold s', eval at 1, exec.
    rewrite (UpdatePaymentStatus_allowed participantID s Hst). cbn [fst snd].
    repeat split. intros id. apply GetParticipantByID_updated.
Qed.

(** X16. After [UpdatePaymentStatus] to paid, the payment gate is open for
    that participant: a credential that resolves to the participant yields a
    row with status paid, and the [verify] call does not fail with
    PaymentRequired. *)
Theorem UpdatePaymentStatus_paid_lifts_gate (lib : GoLib) (participantID : string)
    (s : Store) (env : Env) (req : VerifyRequest) (p : Participant.t) :
  eval (extractParticipantFromQR lib (QRCodeData req))
       (exec (UpdatePaymentStatus participantID "paid") s) = Ok p ->
  Participant.ID p = participantID ->
  Participant.PaymentStatus p = "paid" /\
  err_code (eval (VerifyParticipantAction lib env req)
                 (exec (UpdatePaymentStatus participantID "paid") s))
    <> Some ErrPaymentRequired.
Proof.
  set (s' := exec (UpdatePaymentStatus participantID "paid") s).
  intros Hp Hid.
  assert (Hpaid : Participant.PaymentStatus p = "paid").
  { destruct (extractParticipantFromQR_eval _ _ _ Hp) as [id Hrow].
    pose proof (GetParticipantByID_id _ _ Hrow) as Eid.
    unfold s', exec in Hrow.
    rewrite (@UpdatePaymentStatus_allowed participantID "paid" s) in Hrow by auto.
    cbn [snd] in Hrow. rewrite GetParticipantByID_updated in Hrow.
    destruct (eval (GetParticipantByID id) s) as [p0|]; [|discriminate].
    unfold UUID_String in Eid. rewrite <- Eid, Hid, String.eqb_refl in Hrow.
    injection Hrow as <-. reflexivity. }
  split; [exact Hpaid|].
  apply VerifyParticipantAction_payment.
Qed.

(** ** Creating events and days *)

Lemma CreateEvent_success generated event s :
  eval (CreateEvent generated (Some event)) s = None ->
  exec (CreateEvent generated (Some event)) s
    = with_events (events s ++ [created_event generated event]) s /\
  ~ In (Event.Slug event) (map Event.Slug (events s)) /\
  ~ In (Event.ID (created_event generated event)) (map Event.ID (events s)).
Proof.
  unfold eval, exec. rewrite CreateEvent_run.
  destruct (find _ (events s)) eqn:F; [discriminate|].
  unfold insert_event.
  destruct (existsb _ (events s) || existsb _ (events s)) eqn:E; [discriminate|].
  apply orb_false_iff in E. destruct E as [E1 E2]. intros _.
  split; [reflexivity|]. split; [apply find_key_none, F|apply existsb_key_false, E1].
Qed.

(** X17. An event that [CreateEvent] accepted is appended to the table as
    an active row; it is found by its slug when the slug is not empty and by
    its identifier when that is not empty, and any further event with the
    same slug is refused without a write. *)
Theorem CreateEvent_then_lookup (generated : UUID) (event : Event.t) (s : Store) :
  eval (CreateEvent generated (Some event)) s = None ->
  let row := created_event generated event in
  let s' := exec (CreateEvent generated (Some event)) s in
  events s' = events s ++ [row] /\
  Event.IsActive row = true /\
  (Event.Slug event <> "" -> eval (GetEventBySlug (Event.Slug event)) s' = Ok row) /\
  (Event.ID row <> "" -> eval (GetEventByID (UUID_String (Event.ID row))) s' = Ok row) /\
  forall generated' event',
    Event.Slug event' = Event.Slug event ->
    exists err, CreateEvent generated' (Some event') s' = (Some err, s').
Proof.
  intros Hok row s'.
  destruct (CreateEvent_success _ _ _ Hok) as (Hs & Hslug & Hid). fold s' in Hs.
  assert (Hrows : events s' = events s ++ [row]) by (rewrite Hs; reflexivity).
  split; [exact Hrows|]. split.
  { cbn. unfold default_true. destruct (Event.IsActive event); reflexivity. }
  split; [|split].
  - intros Hne. unfold GetEventBySlug. apply String.eqb_neq in Hne. rewrite Hne.
    unfold eval, query, First. cbn [fst]. rewrite Hrows.
    rewrite (@find_snoc_new _ _ (events s) row); [reflexivity| |].
    + intros y Hy. apply String.eqb_neq. intros E. apply Hslug.
      rewrite <- E. apply in_map, Hy.
    + apply String.eqb_refl.
  - intros Hne. unfold GetEventByID. apply String.eqb_neq in Hne.
    unfold UUID_String. rewrite Hne.
    unfold eval, query, First. cbn [fst]. rewrite Hrows.
    rewrite (@find_snoc_new _ _ (events s) row); [reflexivity| |].
    + intros y Hy. apply String.eqb_neq. intros E. apply Hid.
      fold row. rewrite <- E. apply in_map, Hy.
    + apply String.eqb_refl.
  - intros g' e' Eslug. rewrite CreateEvent_run. rewrite Hrows.
    destruct (find _ (events s ++ [row])) eqn:F; [eexists; reflexivity|].
    exfalso. pose proof (find_none _ _ F row) as Hf.
    rewrite Eslug in Hf. cbn in Hf. rewrite String.eqb_refl in Hf.
    assert (In row (events s ++ [row])) by (apply in_or_app; right; left; reflexivity).
    specialize (Hf H). discriminate.
Qed.

Lemma GetEventByID_found id s ev :
  eval (GetEventByID id) s = Ok ev ->
  id <> "" /\ In ev (events s) /\ UUID_String (Event.ID ev) = id.
Proof.
  unfold GetEventByID. destruct (String.eqb id "") eqn:E; [discriminate|].
  apply String.eqb_neq in E.
  unfold eval, query, First. cbn [fst].
  destruct (find _ (events s)) as [e|] eqn:F; [|discriminate].
  intros [= <-]. apply find_some in F. destruct F as [Hin F].
  apply String.eqb_eq in F. auto.
Qed.

(** X18. [AddEventDay] of the event service succeeds exactly when the
    event exists, the event has no day with that number and the identifier
    of the new day is not taken. It then appends one day, which carries the
    identifier of the event found, and returns it. *)
Theorem AddEventDay_success (newID generated : UUID) (eventID : string)
    (dayNumber : Z) (label : string) (date : Time) (s : Store) (day : EventDay.t) :
  eval (AddEventDay newID generated eventID dayNumber label date) s = Ok day
  <->
  exists ev,
    eval (GetEventByID eventID) s = Ok ev /\
    ~ In (Event.ID ev, dayNumber) (map day_key (event_days s)) /\
    ~ In (default_uuid generated newID) (map EventDay.ID (event_days s)) /\
    day = {| EventDay.ID := default_uuid generated newID;
             EventDay.EventID := Event.ID ev;
             EventDay.DayNumber := dayNumber;
             EventDay.Label := label;
             EventDay.Date := date |} /\
    exec (AddEventDay newID generated eventID dayNumber label date) s
      = with_event_days (event_days s ++ [day]) s.
Proof.
  unfold eval at 1, exec, AddEventDay.
  rewrite bind_read_only by auto with readonly.
  destruct (eval (GetEventByID eventID) s) as [ev|err] eqn:Hev.
  2:{ split; [discriminate|]. intros (ev & H & _). discriminate. }
  destruct (GetEventByID_found _ _ Hev) as (Hne & Hin & Hid).
  rewrite bind_eval. unfold eval, exec. rewrite CreateEventDay_run.
  cbn [EventDay.EventID EventDay.DayNumber].
  assert (Ffound : exists e0, find (fun e => String.eqb (Event.ID e) (Event.ID ev))
                                   (events s) = Some e0).
  { destruct (find (fun e => String.eqb (Event.ID e) (Event.ID ev)) (events s))
      as [e0|] eqn:F; [eauto|].
    pose proof (find_none _ _ F ev Hin) as H. cbn in H.
    rewrite String.eqb_refl in H. discriminate. }
  destruct Ffound as [e0 ->].
  set (taken := find (fun d => String.eqb (EventDay.EventID d) (Event.ID ev)
                               && (EventDay.DayNumber d =? dayNumber))
                     (event_days s)).
  assert (Htaken : taken = None <->
                   ~ In (Event.ID ev, dayNumber) (map day_key (event_days s))).
  { unfold taken. split.
    - intros F Hk. apply in_map_iff in Hk. destruct Hk as (d & Ed & Hd).
      pose proof (find_none _ _ F d Hd) as H. cbn in H.
      unfold day_key in Ed. injection Ed as E1 E2.
      rewrite E1, E2, String.eqb_refl, Z.eqb_refl in H. discriminate.
    - intros Hk.
      destruct (find _ (event_days s)) as [d|] eqn:F; [|reflexivity].
      exfalso. apply Hk. apply find_some in F. destruct F as [Hd F].
      apply andb_true_iff in F. destruct F as [F1 F2].
      apply String.eqb_eq in F1. apply Z.eqb_eq in F2.
      apply in_map_iff. exists d. split; [|exact Hd].
      unfold day_key. rewrite F1, F2. reflexivity. }
  destruct taken as [d|] eqn:Et.
  { cbn [fst snd]. split; [discriminate|].
    intros (ev' & [= <-] & Hk & _). apply Htaken in Hk. discriminate. }
  unfold insert_event_day.
  cbn [created_event_day EventDay.ID EventDay.EventID EventDay.DayNumber
       EventDay.Label EventDay.Date].
  destruct (existsb _ (event_days s)) eqn:Ex.
  { cbn [fst snd]. split; [discriminate|].
    intros (ev' & _ & _ & Hnew & _). exfalso. apply Hnew.
    apply existsb_exists in Ex. destruct Ex as (d & Hd & Ed).
    apply String.eqb_eq in Ed. rewrite <- Ed. apply in_map, Hd. }
  cbn [fst snd]. split.
  - intros [= <-]. exists ev. split; [reflexivity|].
    split; [apply Htaken; reflexivity|].
    split; [apply existsb_key_false, Ex|]. split; reflexivity.
  - intros (ev' & [= <-] & _ & _ & -> & _). reflexivity.
Qed.

Lemma DeleteEventDay_run id s :
  id <> "" ->
  DeleteEventDay id s =
  if Count (fun a => String.eqb (UUID_String (EventAction.EventDayID a)) id)
           (event_actions s) >? 0
  then (Some (errorString "cannot delete event day with associated actions"), s)
  else
    (if Count (fun d => String.eqb (UUID_String (EventDay.ID d)) id) (event_days s) =? 0
     then Some (errorString ("event day not found with ID: " ++ id))
     else None,
     with_event_days
       (filter (fun d => negb (String.eqb (UUID_String (EventDay.ID d)) id))
               (event_days s)) s).
Proof.
  intros Hne. unfold DeleteEventDay. apply String.eqb_neq in Hne. rewrite Hne.
  unfold bind, query. destruct (Count _ (event_actions s) >? 0); [reflexivity|].
  destruct (Count _ (event_days s) =? 0); reflexivity.
Qed.

(** X19. [DeleteEventDay] succeeds exactly when the identifier is not
    empty, no action refers to the day and a day has the identifier. It
    then removes the days with the identifier and no others, after which
    the identifier is not in the table and [GetEventDayByID] fails. *)
Theorem DeleteEventDay_success (id : string) (s : Store) :
  (eval (DeleteEventDay id) s = None
   <->
   id <> "" /\
   (forall a, In a (event_actions s) -> EventAction.EventDayID a <> id) /\
   In id (map EventDay.ID (event_days s))) /\
  (eval (DeleteEventDay id) s = None ->
   let s' := exec (DeleteEventDay id) s in
   event_days s' = filter (fun d => negb (String.eqb (EventDay.ID d) id)) (event_days s) /\
   ~ In id (map EventDay.ID (event_days s')) /\
   exists err, eval (GetEventDayByID id) s' = Err err).
Proof.
  assert (Hiff : eval (DeleteEventDay id) s = None
   <->
   id <> "" /\
   (forall a, In a (event_actions s) -> EventAction.EventDayID a <> id) /\
   In id (map EventDay.ID (event_days s))).
  { destruct (String.eqb id "") eqn:Eid.
    { apply String.eqb_eq in Eid. subst id. split; [discriminate|].
      intros [H _]. contradiction. }
    apply String.eqb_neq in Eid. unfold eval. rewrite DeleteEventDay_run by exact Eid.
    pose proof (Count_nonneg
      (fun a => String.eqb (UUID_String (EventAction.EventDayID a)) id)
      (event_actions s)) as Hc.
    pose proof (Count_zero_iff
      (fun a => String.eqb (UUID_String (EventAction.EventDayID a)) id)
      (event_actions s)) as Hz.
    pose proof (Count_zero_iff
      (fun d => String.eqb (UUID_String (EventDay.ID d)) id) (event_days s)) as Hd.
    destruct (Count _ (event_actions s) >? 0) eqn:C.
    - cbn [fst]. split; [discriminate|]. intros (_ & Hrefs & _). exfalso.
      rewrite Z.gtb_ltb in C. apply Z.ltb_lt in C.
      assert (Count (fun a => String.eqb (UUID_String (EventAction.EventDayID a)) id)
                    (event_actions s) = 0); [|lia].
      apply Hz. intros a Ha. apply String.eqb_neq, Hrefs, Ha.
    - rewrite Z.gtb_ltb in C. apply Z.ltb_ge in C. cbn [fst].
      destruct (Count _ (event_days s) =? 0) eqn:D.
      + split; [discriminate|]. intros (_ & _ & Hin). exfalso.
        apply Z.eqb_eq in D. apply in_map_iff in Hin. destruct Hin as (d & Ed & Hin).
        pose proof (proj1 Hd D d Hin) as H. cbn in H. unfold UUID_String in H.
        rewrite Ed, String.eqb_refl in H. discriminate.
      + split; [|reflexivity]. intros _. split; [exact Eid|]. split.
        * intros a Ha. apply String.eqb_neq. apply (proj1 Hz); [lia|exact Ha].
        * apply Z.eqb_neq in D.
          destruct (existsb (fun d => String.eqb (EventDay.ID d) id) (event_days s))
            eqn:Ex.
          -- apply existsb_exists in Ex. destruct Ex as (d & Hin & Ed).
             apply String.eqb_eq in Ed. rewrite <- Ed. apply in_map, Hin.
          -- exfalso. apply D. apply Hd. intros d Hin.
             destruct (String.eqb (UUID_String (EventDay.ID d)) id) eqn:E;
               [|reflexivity].
             assert (existsb (fun d => String.eqb (EventDay.ID d) id) (event_days s)
                     = true); [|congruence].
             apply existsb_exists. exists d. split; [exact Hin|exact E]. }
  split; [exact Hiff|].
  intros Hok s'. destruct (proj1 Hiff Hok) as (Hne & Hrefs & Hin).
  assert (Hrows : event_days s'
                  = filter (fun d => negb (String.eqb (EventDay.ID d) id)) (event_days s)).
  { unfold s', exec. rewrite DeleteEventDay_run by exact Hne.
    unfold eval in Hok. rewrite DeleteEventDay_run in Hok by exact Hne.
    destruct (Count _ (event_actions s) >? 0); [discriminate|]. reflexivity. }
  assert (Hgone : ~ In id (map EventDay.ID (event_days s'))).
  { rewrite Hrows. intros H. apply in_map_iff in H. destruct H as (d & Ed & Hd).
    apply filter_In in Hd. destruct Hd as [_ Hd].
    rewrite Ed, String.eqb_refl in Hd. discriminate. }
  split; [exact Hrows|]. split; [exact Hgone|].
  unfold GetEventDayByID. apply String.eqb_neq in Hne. rewrite Hne.
  unfold eval, query, First. cbn [fst].
  destruct (find _ (event_days s')) as [d|] eqn:F; [|eexists; reflexivity].
  exfalso. apply Hgone. apply (find_key_some _ _ _ F).
Qed.

(** ** Statistics, in general *)

Lemma rate_bounds (v n : Z) :
  0 <= v <= 1 ->
  (0 <= (if n >? 0 then inject_Z v / inject_Z n else 0))%Q /\
  ((if n >? 0 then inject_Z v / inject_Z n else 0) <= 1)%Q.
Proof.
  intros Hv. destruct (n >? 0) eqn:E.
  - rewrite Z.gtb_ltb in E. apply Z.ltb_lt in E.
    destruct n as [|n|n]; try lia.
    unfold Qle, Qdiv, Qmult, Qinv, inject_Z. cbn. split; lia.
  - unfold Qle. cbn. split; lia.
Qed.

(** X20. What [statsForEvent] reports. The call never writes. It fails
    with InvalidInput for an empty identifier and with EventNotFound when
    the event lookup fails, and with nothing else. Otherwise it reports the
    title of the event, a number of verifications that is one when the
    event has any action log and zero when it has none, the same number as
    unique participants, a rate between zero and one that is zero when the
    event has no participant, and the constants of the placeholder
    fields. *)
Theorem GetVerificationStats_reports (env : Env) (eventID : string) (s : Store) :
  exec (GetVerificationStats env eventID) s = s /\
  match eval (GetVerificationStats env eventID) s with
  | Err e =>
      (eventID = "" /\ Code e = ErrInvalidInput) \/
      (eventID <> "" /\ Code e = ErrEventNotFound /\
       exists err, eval (GetEventByID eventID) s = Err err)
  | Ok stats =>
      exists ev,
        eval (GetEventByID eventID) s = Ok ev /\
        StatsEventID stats = eventID /\
        EventTitle stats = Event.Title ev /\
        TotalVerifications stats
          = Z.min 1 (Z.of_nat (List.length (logs_of_event eventID s))) /\
        UniqueParticipants stats = TotalVerifications stats /\
        (0 <= VerificationRate stats)%Q /\ (VerificationRate stats <= 1)%Q /\
        (eval (GetParticipantCountByEventID eventID) s = Ok 0 ->
         VerificationRate stats = 0%Q) /\
        MostVerifiedAction stats = "General Admission" /\
        TopVerifier stats = "System" /\
        LastVerification stats = now_result env /\
        TodayVerifications stats = 0
  end.
Proof.
  split; [apply GetVerificationStats_read_only|].
  destruct (String.eqb eventID "") eqn:E.
  { apply String.eqb_eq in E. subst eventID. left. split; reflexivity. }
  apply String.eqb_neq in E.
  destruct (eval (GetEventByID eventID) s) as [ev|err] eqn:Hev.
  - unfold eval at 1. rewrite (@GetVerificationStats_eval env eventID s ev E Hev). cbn [fst].
    exists ev. cbn [StatsEventID EventTitle TotalVerifications UniqueParticipants
                    VerificationRate MostVerifiedAction TopVerifier LastVerification
                    TodayVerifications].
    pose proof (@rate_bounds
      (Z.min 1 (Z.of_nat (List.length (logs_of_event eventID s))))
      (Count (fun p => String.eqb (UUID_String (Participant.EventID p)) eventID
                       && live p) (participants s)) ltac:(lia)) as [R1 R2].
    repeat split; try assumption.
    unfold GetParticipantCountByEventID, eval, query. cbn [fst].
    intros [= ->]. reflexivity.
  - unfold GetVerificationStats. apply String.eqb_neq in E. rewrite E.
    rewrite eval_bind_read_only, Hev by auto with readonly.
    right. apply String.eqb_neq in E. split; [exact E|]. split; [reflexivity|eauto].
Qed.

(** ** Dry run *)

(** X21. [canVerify] never answers true. Whatever the identifiers and the
    store, the call answers false with an error and leaves the store as it
    is. The error is InvalidInput exactly when one of the identifiers is
    empty, ParticipantNotFound exactly when both are given and the
    participant is not found, and ActionNotFound exactly when both are given
    and the participant is found; in that last case the details are the
    error of the relation preload when a row of the action table has the
    identifier, and the not-found error of the repository otherwise. *)
Theorem CanVerifyParticipant_never_true (participantID actionID : string) (s : Store) :
  exists e,
    CanVerifyParticipant participantID actionID s = ((false, Some e), s) /\
    (Code e = ErrInvalidInput <-> participantID = "" \/ actionID = "") /\
    (Code e = ErrParticipantNotFound
     <-> participantID <> "" /\ actionID <> "" /\
         exists err, eval (GetParticipantByID participantID) s = Err err) /\
    (Code e = ErrActionNotFound
     <-> participantID <> "" /\ actionID <> "" /\
         exists p, eval (GetParticipantByID participantID) s = Ok p) /\
    (Code e = ErrActionNotFound ->
     Message e = "action not found" /\
     Details e =
       Some (if existsb (fun a => String.eqb (UUID_String (EventAction.ID a)) actionID)
                        (event_actions s)
             then wrapError "failed to get event action: "
                    (unsupported_relation "EventDay" "EventAction")
             else errorString ("event action not found with ID: " ++ actionID))).
Proof.
  exists (canVerify_error participantID actionID s).
  split; [apply CanVerifyParticipant_run|].
  unfold canVerify_error.
  destruct (String.eqb participantID "") eqn:E1; cbn [orb].
  { apply String.eqb_eq in E1. cbn.
    split; [tauto|]. split; [|split].
    - split; [discriminate|]. intros (H & _). contradiction.
    - split; [discriminate|]. intros (H & _). contradiction.
    - discriminate. }
  destruct (String.eqb actionID "") eqn:E2.
  { apply String.eqb_eq in E2. cbn.
    split; [tauto|]. split; [|split].
    - split; [discriminate|]. intros (_ & H & _). contradiction.
    - split; [discriminate|]. intros (_ & H & _). contradiction.
    - discriminate. }
  pose proof E1 as N1. pose proof E2 as N2.
  apply String.eqb_neq in N1, N2.
  destruct (eval (GetParticipantByID participantID) s) as [p|err]; cbn.
  - split; [|split; [|split]].
    + split; [discriminate|]. intros [H|H]; contradiction.
    + split; [discriminate|]. intros (_ & _ & err & H). discriminate H.
    + split; [|reflexivity]. intros _. repeat split; auto. exists p. reflexivity.
    + intros _. split; [reflexivity|]. f_equal.
      unfold action_id_lookup_error. rewrite E2.
      rewrite (@find_existsb _
                 (fun a => String.eqb (UUID_String (EventAction.ID a)) actionID)
                 (fun a => String.eqb (UUID_String (EventAction.ID a)) actionID)
                 (event_actions s)) by reflexivity.
      destruct (find _ _); reflexivity.
  - split; [|split; [|split]].
    + split; [discriminate|]. intros [H|H]; contradiction.
    + split; [|reflexivity]. intros _. repeat split; auto. exists err. reflexivity.
    + split; [discriminate|]. intros (_ & _ & p & H). discriminate H.
    + discriminate.
Qed.

(** ** The log repository *)

Lemma Count_snoc {A} (cond : A -> bool) (l : list A) (x : A) :
  Count cond (l ++ [x]) = Count cond l + (if cond x then 1 else 0).
Proof.
  unfold Count. rewrite filter_app, length_app. cbn.
  destruct (cond x); cbn; lia.
Qed.

(** X24. [CreateActionLog] and [HasActionLog]. A refused insert changes
    nothing. After an accepted insert, [HasActionLog] answers true for the
    pair of the row and, for every other pair, what it answered before. *)
Theorem CreateActionLog_then_HasActionLog (log : ActionLog.t) (s : Store) :
  (forall err, eval (CreateActionLog log) s = Some err ->
               exec (CreateActionLog log) s = s) /\
  (eval (CreateActionLog log) s = None ->
   forall participantID actionID,
     exists before,
       eval (HasActionLog participantID actionID) s = Ok before /\
       eval (HasActionLog participantID actionID) (exec (CreateActionLog log) s)
         = Ok (before || same_pair participantID actionID log)).
Proof.
  unfold eval, exec, CreateActionLog.
  destruct (existsb _ (action_logs s)); cbn [fst snd].
  - split; [reflexivity|discriminate].
  - split; [discriminate|]. intros _ pid aid.
    unfold HasActionLog, query. cbn [fst action_logs].
    eexists. split; [reflexivity|]. f_equal.
    rewrite Count_snoc.
    pose proof (Count_nonneg (same_pair pid aid) (action_logs s)) as Hc.
    destruct (same_pair pid aid log).
    + rewrite orb_true_r. rewrite Z.gtb_ltb. apply Z.ltb_lt. lia.
    + rewrite orb_false_r, Z.add_0_r. reflexivity.
Qed.

(** ** HTTP layer *)


(** X26. The role middlewares nest. [AdminOnly] lets a request pass
    exactly for the role admin, [OrganizerOrAdmin] for admin and organizer,
    [StaffOrAbove] for admin, organizer and staff; so a request that passes
    one passes the next. A request without a role, or with any other role,
    is answered 403 by each of them. *)
Theorem role_middlewares_nest (userRole : option string) :
  (AdminOnly userRole = None <-> userRole = Some "admin") /\
  (OrganizerOrAdmin userRole = None
   <-> userRole = Some "admin" \/ userRole = Some "organizer") /\
  (StaffOrAbove userRole = None
   <-> userRole = Some "admin" \/ userRole = Some "organizer"
       \/ userRole = Some "staff") /\
  (AdminOnly userRole = None -> OrganizerOrAdmin userRole = None) /\
  (OrganizerOrAdmin userRole = None -> StaffOrAbove userRole = None) /\
  (forall response,
     AdminOnly userRole = Some response \/
     OrganizerOrAdmin userRole = Some response \/
     StaffOrAbove userRole = Some response ->
     Status response = StatusForbidden).
Proof.
  assert (A : AdminOnly userRole = None <-> userRole = Some "admin").
  { unfold AdminOnly. destruct userRole as [role|]; [|split; discriminate].
    destruct (String.eqb role "admin") eqn:E; cbn.
    - apply String.eqb_eq in E. subst. tauto.
    - apply String.eqb_neq in E. split; [discriminate|]. intros [= ->]. contradiction. }
  assert (O : OrganizerOrAdmin userRole = None
              <-> userRole = Some "admin" \/ userRole = Some "organizer").
  { unfold OrganizerOrAdmin. destruct userRole as [role|];
      [|split; [discriminate|intros [H|H]; discriminate]].
    destruct (String.eqb role "admin") eqn:E1; cbn.
    - apply String.eqb_eq in E1. subst. tauto.
    - destruct (String.eqb role "organizer") eqn:E2; cbn.
      + apply String.eqb_eq in E2. subst. tauto.
      + apply String.eqb_neq in E1, E2. split; [discriminate|].
        intros [[= ->]|[= ->]]; contradiction. }
  assert (S : StaffOrAbove userRole = None
              <-> userRole = Some "admin" \/ userRole = Some "organizer"
                  \/ userRole = Some "staff").
  { unfold StaffOrAbove. destruct userRole as [role|];
      [|split; [discriminate|intros [H|[H|H]]; discriminate]].
    destruct (String.eqb role "admin") eqn:E1; cbn.
    - apply String.eqb_eq in E1. subst. tauto.
    - destruct (String.eqb role "organizer") eqn:E2; cbn.
      + apply String.eqb_eq in E2. subst. tauto.
      + destruct (String.eqb role "staff") eqn:E3; cbn.
        * apply String.eqb_eq in E3. subst. tauto.
        * apply String.eqb_neq in E1, E2, E3. split; [discriminate|].
          intros [[= ->]|[[= ->]|[= ->]]]; contradiction. }
  split; [exact A|]. split; [exact O|]. split; [exact S|].
  split; [rewrite A, O; tauto|]. split; [rewrite O, S; tauto|].
  intros response. unfold AdminOnly, OrganizerOrAdmin, StaffOrAbove.
  destruct userRole as [role|].
  - destruct (String.eqb role "admin"), (String.eqb role "organizer"),
      (String.eqb role "staff"); cbn;
      intros [H|[H|H]]; try discriminate H; injection H as <-; reflexivity.
  - intros [H|[H|H]]; injection H as <-; reflexivity.
Qed.

(** ** The further properties on concrete inputs *)

Lemma catalogue_writes_keep_catalogue_ok_witness :
  catalogue_ok empty_store /\
  catalogue_ok (exec (perform_all Catalogue.setup) empty_store) /\
  List.length (event_actions (exec (perform_all Catalogue.setup) empty_store)) = 2%nat.
Proof.
  assert (K : catalogue_ok empty_store).
  { constructor; cbn; try constructor; intros ? []. }
  split; [exact K|]. split; [|vm_compute; reflexivity].
  apply (@catalogue_writes_keep_catalogue_ok Catalogue.setup empty_store K).
Defined.

Lemma catalogue_write_refused_witness :
  exec (perform (WriteDeleteEventDay (EventDay.ID Sample.conference_day1)))
       (Sample.store [])
    = Sample.store [].
Proof.
  eapply (@catalogue_write_refused
            (WriteDeleteEventDay (EventDay.ID Sample.conference_day1))
            (Sample.store [])).
  vm_compute. reflexivity.
Defined.

Lemma CreateEventAction_then_lookup_witness :
  eval (getAndValidateAction "DINNER")
       (exec (CreateEventAction Catalogue.g1 (Some Catalogue.dinner)) (Sample.store []))
    = Err (NewVerificationError "failed to get action" ErrDatabaseError
             (Some (wrapError "failed to get event action: "
                      (unsupported_relation "EventDay" "EventAction")))).
Proof.
  destruct (@CreateEventAction_then_lookup Catalogue.g1 Catalogue.dinner
              (Sample.store [])) as (_ & _ & _ & H & _).
  - vm_compute. reflexivity.
  - discriminate.
  - exact H.
Defined.

Lemma DeleteEventAction_keeps_code_witness :
  map EventAction.Code
      (event_actions (exec (DeleteEventAction (EventAction.ID Sample.checkin))
                           (Sample.store [])))
    = map EventAction.Code (event_actions (Sample.store [])) /\
  exists err,
    CreateEventAction Catalogue.g1 (Some Sample.checkin)
      (exec (DeleteEventAction (EventAction.ID Sample.checkin)) (Sample.store []))
    = (Some err,
       exec (DeleteEventAction (EventAction.ID Sample.checkin)) (Sample.store [])).
Proof.
  destruct (@DeleteEventAction_keeps_code (EventAction.ID Sample.checkin)
              (Sample.store [])) as (_ & _ & _ & _ & Hcodes & Hnew).
  - vm_compute. reflexivity.
  - split; [exact Hcodes|].
    apply (Hnew Sample.checkin Catalogue.g1 Sample.checkin); [|reflexivity].
    cbn. auto.
Defined.

Lemma UpdatePaymentStatus_paid_lifts_gate_witness :
  err_code (eval (VerifyParticipantAction Sample.lib
                    (Sample.env_at Cases.morning Cases.id1) Cases.bob_checkin)
                 (exec (UpdatePaymentStatus (Participant.ID Sample.bob) "paid")
                       (Sample.store [])))
    <> Some ErrPaymentRequired.
Proof.
  apply (@UpdatePaymentStatus_paid_lifts_gate Sample.lib (Participant.ID Sample.bob)
           (Sample.store []) (Sample.env_at Cases.morning Cases.id1)
           Cases.bob_checkin Catalogue.bob_paid).
  - vm_compute. reflexivity.
  - reflexivity.
Defined.

Lemma CreateEvent_then_lookup_witness :
  eval (GetEventBySlug "workshop")
       (exec (CreateEvent Catalogue.g1 (Some Catalogue.workshop)) (Sample.store []))
    = Ok {| Event.ID := Catalogue.g1; Event.Title := "Workshop";
            Event.Slug := "workshop"; Event.TicketPrice := 0%Q;
            Event.IsActive := true |}.
Proof.
  destruct (@CreateEvent_then_lookup Catalogue.g1 Catalogue.workshop
              (Sample.store [])) as (_ & _ & H & _).
  - vm_compute. reflexivity.
  - apply H. discriminate.
Defined.

Lemma AddEventDay_success_witness :
  eval (AddEventDay Catalogue.g2 Catalogue.g3 (Event.ID Sample.conference) 2
          "Day 2" (Sample.day 739001 + 9 * Hour)) (Sample.store [])
    = Ok {| EventDay.ID := Catalogue.g2;
            EventDay.EventID := Event.ID Sample.conference;
            EventDay.DayNumber := 2;
            EventDay.Label := "Day 2";
            EventDay.Date := Sample.day 739001 + 9 * Hour |}.
Proof.
  apply (proj2 (@AddEventDay_success Catalogue.g2 Catalogue.g3
                  (Event.ID Sample.conference) 2 "Day 2"
                  (Sample.day 739001 + 9 * Hour) (Sample.store []) _)).
  exists Sample.conference. split; [reflexivity|]. split.
  { cbn. intros [H|[H|[]]]; discriminate H. }
  split.
  { cbn. intros [H|[H|[]]]; discriminate H. }
  split; reflexivity.
Defined.

Lemma DeleteEventDay_success_witness :
  eval (DeleteEventDay (EventDay.ID Sample.meetup_day1))
       (with_event_actions [Sample.checkin] (Sample.store [])) = None /\
  exists err,
    eval (GetEventDayByID (EventDay.ID Sample.meetup_day1))
         (exec (DeleteEventDay (EventDay.ID Sample.meetup_day1))
               (with_event_actions [Sample.checkin] (Sample.store []))) = Err err.
Proof.
  destruct (@DeleteEventDay_success (EventDay.ID Sample.meetup_day1)
              (with_event_actions [Sample.checkin] (Sample.store [])))
    as [Hiff Hafter].
  assert (Hok : eval (DeleteEventDay (EventDay.ID Sample.meetup_day1))
                     (with_event_actions [Sample.checkin] (Sample.store [])) = None).
  { apply Hiff. split; [discriminate|]. split.
    - cbn. intros a [<-|[]]. discriminate.
    - cbn. right. left. reflexivity. }
  split; [exact Hok|]. apply (Hafter Hok).
Defined.

Lemma CreateActionLog_then_HasActionLog_witness :
  eval (HasActionLog (Participant.ID Sample.alice) (EventAction.ID Sample.checkin))
       (exec (CreateActionLog
                (Sample.log_of Cases.id1 Sample.alice Sample.checkin Cases.morning))
             (Sample.store []))
    = Ok true.
Proof.
  destruct (@CreateActionLog_then_HasActionLog
              (Sample.log_of Cases.id1 Sample.alice Sample.checkin Cases.morning)
              (Sample.store [])) as [_ H].
  destruct (H eq_refl (Participant.ID Sample.alice) (EventAction.ID Sample.checkin))
    as (before & Hb & Ha).
  rewrite Ha. f_equal. apply orb_true_r.
Defined.

Lemma UpdatePaymentStatus_effect_witness :
  eval (GetParticipantByID (Participant.ID Sample.bob))
       (exec (UpdatePaymentStatus (Participant.ID Sample.bob) "paid") (Sample.store []))
    = Ok Catalogue.bob_paid.
Proof.
  destruct (@UpdatePaymentStatus_effect (Participant.ID Sample.bob) "paid"
              (Sample.store [])) as [_ H].
  destruct H as (_ & _ & _ & _ & _ & _ & H); [auto|].
  rewrite H. reflexivity.
Defined.
